(** * django_rest_api: the registry (RESTAPI) and the dispatcher (RESTView)

    A shallow embedding of [src/__init__.py] and [src/views.py].

    - Python exceptions are values of [exc]; a computation that may raise is
      a [result], and one that also reads or writes storage is an [M].
    - Django's storage layer (models, fields, querysets, related managers,
      model forms) is an in-memory relational store: a list of rows and a
      list of many-to-many link rows.
    - [json.loads] and [json.dumps] are kept symbolic: a request carries the
      value its body decodes to, a response carries the value it encodes.
    - Text is ASCII text: [str], [int] and [lower] are embedded as they act
      on it.
    - The four handlers [get], [post], [put] and [delete] and everything
      they call are embedded; the URL patterns of [urls] are left to the
      router. *)

From Stdlib Require Import String Ascii ZArith List Bool Lia.
From stdpp Require Import base option strings gmap.
Import ListNotations.
Local Open Scope string_scope.
Local Open Scope Z_scope.
Local Open Scope list_scope.

(** ** Part I: [RESTAPI], the registry of [src/__init__.py] *)

Module RESTAPI.

(** A Python class as the registry sees it: its identity (the key of the
    dictionaries), the [_meta.verbose_name_plural] of a model class, and its
    [__bases__] in declaration order.  [object] is [Class "object" "" []]. *)
Inductive Model : Type :=
| Class (cls_id : string) (verbose_name_plural : string) (bases : list Model).

Definition cls_id (M : Model) : string :=
  match M with Class i _ _ => i end.

Definition verbose_name_plural (M : Model) : string :=
  match M with Class _ n _ => n end.

Definition bases (M : Model) : list Model :=
  match M with Class _ _ bs => bs end.

(** A view class is known by its name. *)
Definition View : Type := string.

(** One entry of [RESTAPI.urls]: [url(r'^%s' % name, include(View.urls(),
    namespace='api_%s' % name))]. *)
Record UrlEntry : Type := {
  url_regex : string;
  url_include : View;
  url_namespace : string
}.

(** The three class attributes of [RESTAPI].  A dictionary value is any
    Python object, so a stored view is an [option]: [Some None] is a key
    bound to [None]. *)
Record Registry : Type := {
  view_by_model : gmap string (option View);
  name_by_model : gmap string (option string);
  urls : list UrlEntry
}.

Definition empty_registry : Registry :=
  {| view_by_model := ∅; name_by_model := ∅; urls := [] |}.

(** [str.lower()] on ASCII letters. *)
Definition lower_ascii (c : ascii) : ascii :=
  let n := nat_of_ascii c in
  if (Nat.leb 65 n && Nat.leb n 90)%bool then ascii_of_nat (n + 32) else c.

Fixpoint lower (s : string) : string :=
  match s with
  | EmptyString => EmptyString
  | String c s' => String (lower_ascii c) (lower s')
  end.

(** [s.replace(' ', '')]. *)
Fixpoint remove_spaces (s : string) : string :=
  match s with
  | EmptyString => EmptyString
  | String c s' =>
      if Ascii.eqb c " "%char then remove_spaces s'
      else String c (remove_spaces s')
  end.

(** [RESTAPI.register(Model, View, name=None)]. *)
Definition register (reg : Registry) (M : Model) (V : View)
    (name : option string) : Registry :=
  let name :=
    match name with
    | None => remove_spaces (lower (verbose_name_plural M))
    | Some n => n
    end in
  {| view_by_model := <[cls_id M := Some V]> (view_by_model reg);
     name_by_model := <[cls_id M := Some name]> (name_by_model reg);
     urls := urls reg ++
             [ {| url_regex := String.append "^" name;
                  url_include := V;
                  url_namespace := String.append "api_" name |} ] |}.

(** The [for Base in Model.__bases__] loop shared by both lookups: the first
    base whose lookup is not [None] wins. *)
Fixpoint first_base {A : Type} (lookup : Model -> option A)
    (bs : list Model) : option A :=
  match bs with
  | [] => None
  | B :: bs' =>
      match lookup B with
      | Some v => Some v
      | None => first_base lookup bs'
      end
  end.

(** [RESTAPI.get_view_by_model(Model)]. *)
Fixpoint get_view_by_model (reg : Registry) (M : Model) : option View :=
  match M with
  | Class i _ bs =>
      match view_by_model reg !! i with
      | Some v => v
      | None =>
          (fix loop (bs : list Model) : option View :=
             match bs with
             | [] => None
             | B :: bs' =>
                 match get_view_by_model reg B with
                 | Some v => Some v
                 | None => loop bs'
                 end
             end) bs
      end
  end.

(** [RESTAPI.get_name_by_model(Model)]. *)
Fixpoint get_name_by_model (reg : Registry) (M : Model) : option string :=
  match M with
  | Class i _ bs =>
      match name_by_model reg !! i with
      | Some v => v
      | None =>
          (fix loop (bs : list Model) : option string :=
             match bs with
             | [] => None
             | B :: bs' =>
                 match get_name_by_model reg B with
                 | Some v => Some v
                 | None => loop bs'
                 end
             end) bs
      end
  end.

(** Sample classes: [M] inherits from the registered [A] and [B], in this
    order. *)
Definition py_object : Model := Class "object" "" [].
Definition cls_A : Model := Class "A" "as" [py_object].
Definition cls_B : Model := Class "B" "bs" [py_object].
Definition cls_M : Model := Class "M" "ms" [cls_A; cls_B].
Definition sample_registry : Registry :=
  register (register empty_registry cls_A "AView" None) cls_B "BView" None.

End RESTAPI.

(** ** Part II: [RESTView], the dispatcher of [src/views.py] *)

Module RESTView.

Notation "a +++ b" := (String.append a b)
  (at level 60, right associativity) : string_scope.

(** *** Python values *)

(** A model instance: its class ([entity.__class__.__name__]), its primary
    key, its text columns and its foreign-key columns (a missing foreign key
    is NULL).  Many-to-many links live in the store, not in the instance. *)
Record Entity : Type := {
  e_model : string;
  e_pk : Z;
  e_text : list (string * string);
  e_fk : list (string * Z)
}.

(** The values the dispatcher computes with: what [json.loads] produces,
    plus model instances at the leaves.  A dictionary is keyed by text, as
    those of [json.loads] are. *)
Inductive pyval : Type :=
| PNone
| PBool (b : bool)
| PInt (z : Z)
| PStr (s : string)
| PList (l : list pyval)
| PDict (d : list (string * pyval))
| PEntity (e : Entity).

(** The content of a response: literal text, or [json.dumps(v)]. *)
Inductive Body : Type :=
| Text (s : string)
| JsonDumps (v : pyval).

Record HttpResponse : Type := {
  status : Z;
  content : Body;
  content_type : string
}.

(** A Python object that a view method passes around: a value or an
    [HttpResponse] instance. *)
Inductive obj : Type :=
| Val (v : pyval)
| Resp (r : HttpResponse).

Definition default_content_type : string := "text/html; charset=utf-8".

Definition HttpResponse_status (code : Z) : HttpResponse :=
  {| status := code; content := Text ""; content_type := default_content_type |}.

Definition HttpResponse_text (s : string) : HttpResponse :=
  {| status := 200; content := Text s; content_type := default_content_type |}.

Definition HttpResponseForbidden : HttpResponse := HttpResponse_status 403.

Definition HttpResponseBadRequest (msg : string) : HttpResponse :=
  {| status := 400; content := Text msg; content_type := default_content_type |}.

(** *** Exceptions *)

Inductive exc : Type :=
| TypeError (msg : string)
| ValueError (msg : string)
| NameError (msg : string)
| AttributeError (msg : string)
| NotImplementedError (msg : string)
| RuntimeError (msg : string)
| Http404 (args : option string)
| DoesNotExist (msg : string)
| MultipleObjectsReturned (msg : string)
| FieldDoesNotExist (msg : string)
| FieldError (msg : string).

(** [str(e)]: the message, which is ASCII text. *)
Definition str_exc (e : exc) : string :=
  match e with
  | TypeError m | ValueError m | NameError m | AttributeError m
  | NotImplementedError m | RuntimeError m | DoesNotExist m
  | MultipleObjectsReturned m | FieldDoesNotExist m | FieldError m => m
  | Http404 (Some m) => m
  | Http404 None => ""
  end.

Definition is_TypeError (e : exc) : bool :=
  match e with TypeError _ => true | _ => false end.

Definition is_ValueError (e : exc) : bool :=
  match e with ValueError _ => true | _ => false end.

Definition is_DoesNotExist (e : exc) : bool :=
  match e with DoesNotExist _ => true | _ => false end.

Definition is_FieldDoesNotExist (e : exc) : bool :=
  match e with FieldDoesNotExist _ => true | _ => false end.

Inductive result (A : Type) : Type :=
| Ok (a : A)
| Raise (e : exc).
Arguments Ok {A} a.
Arguments Raise {A} e.

(** *** The store *)

(** A row of a many-to-many table: the instance [l_from] of [l_model] is
    linked through its field [l_field] to the instance [l_to] of the field's
    target model. *)
Record Link : Type := {
  l_model : string;
  l_from : Z;
  l_field : string;
  l_to : Z
}.

(** What the dispatcher asked storage to write, oldest first. *)
Inductive StorageOp : Type :=
| OpInsert (e : Entity)
| OpUpdate (e : Entity)
| OpDelete (e : Entity)
| OpLinkAdd (l : Link)
| OpLinkRemove (l : Link).

Record DB : Type := {
  rows : list Entity;
  links : list Link;
  oplog : list StorageOp
}.

(** *** Computations: storage is threaded, an exception keeps the store *)

Definition M (A : Type) : Type := DB -> result A * DB.

Definition ret {A} (a : A) : M A := fun db => (Ok a, db).

Definition raise {A} (e : exc) : M A := fun db => (Raise e, db).

Definition bind {A B} (c : M A) (k : A -> M B) : M B :=
  fun db =>
    match c db with
    | (Ok a, db') => k a db'
    | (Raise e, db') => (Raise e, db')
    end.

Definition lift {A} (r : result A) : M A := fun db => (r, db).

Definition get_db : M DB := fun db => (Ok db, db).

Definition put_db (db : DB) : M unit := fun _ => (Ok tt, db).

(** [try: c  except <caught> as e: handler(e)]; an exception that no clause
    catches propagates, and so does one raised by the handler. *)
Definition try_except {A} (c : M A) (caught : exc -> bool)
    (handler : exc -> M A) : M A :=
  fun db =>
    match c db with
    | (Ok a, db') => (Ok a, db')
    | (Raise e, db') => if caught e then handler e db' else (Raise e, db')
    end.

Notation "'let*' x ':=' c 'in' k" := (bind c (fun x => k))
  (at level 10, x name, c at level 100, k at level 200).
Notation "'run' c 'in' k" := (bind c (fun _ => k))
  (at level 10, c at level 100, k at level 200).

Fixpoint foldM {A B} (f : A -> B -> M A) (l : list B) (a : A) : M A :=
  match l with
  | [] => ret a
  | b :: l' => let* a' := f a b in foldM f l' a'
  end.

Fixpoint mapR {A B} (f : A -> result B) (l : list A) : result (list B) :=
  match l with
  | [] => Ok []
  | a :: l' =>
      match f a with
      | Raise e => Raise e
      | Ok b =>
          match mapR f l' with
          | Raise e => Raise e
          | Ok bs => Ok (b :: bs)
          end
      end
  end.

(** *** Requests, classes and the environment *)

(** [request.GET.iteritems()] as a list of (name, value) pairs, and the value
    that [json.loads(request.body)] returns ([None] when it raises
    [ValueError]). *)
Record Request : Type := {
  GET : list (string * string);
  body : option pyval
}.

Inductive FieldKind : Type :=
| AutoField
| CharField
| ForeignKey (to : string)
| ManyToManyField (to : string).

(** A model field: [name], kind, [editable], and [blank] (the form field is
    not required). *)
Record Field : Type := {
  f_name : string;
  f_kind : FieldKind;
  f_editable : bool;
  f_blank : bool
}.

(** [field.primary_key]. *)
Definition primary_key (f : Field) : bool :=
  match f_kind f with AutoField => true | _ => false end.

(** [field.rel]: [None], or the relation with its [to]. *)
Definition rel (f : Field) : option string :=
  match f_kind f with
  | ForeignKey t | ManyToManyField t => Some t
  | AutoField | CharField => None
  end.

Definition is_m2m (f : Field) : bool :=
  match f_kind f with ManyToManyField _ => true | _ => false end.

(** What a method of a model is called with: [(request, data)]. *)
Definition Callable : Type := Request -> pyval -> M obj.

(** A member of a model class, as declared. *)
Inductive Member : Type :=
| StaticMethod (f : Callable)
| ClassMethod (f : string -> Callable)
| InstanceMethod (f : Entity -> Callable)
| Attribute (is_callable : bool).

Inductive pyself : Type :=
| SelfClass (cls : string)
| SelfInstance (e : Entity).

(** What [getattr(x, name)] returns in Python 2: a plain function (its type
    is [type(lambda x: x)]), an [instancemethod] with its [im_self] (bound
    when it is not [None]), or some other object. *)
Inductive attr : Type :=
| AFunction (call : Callable)
| AMethod (im_self : option pyself) (call : Callable)
| AObject (is_callable : bool).

(** A model class: [__name__] is its key in [models]. *)
Record ModelCls : Type := {
  m_fields : list Field;
  m_members : list (string * Member);
  m_describe : option (Entity -> pyval);
  m_str : Entity -> string
}.

(** What the dispatcher runs in: [settings.DEBUG], the names of the installed
    model classes and the classes by name, the attributes of an
    [HttpResponse] instance, the [repr] of a value (which is also the [str]
    of one that is neither text nor an instance), and the interpreter's bound
    on the depth of recursion. *)
Record Env : Type := {
  DEBUG : bool;
  installed : list string;
  models : string -> ModelCls;
  response_getattr : string -> option attr;
  py_repr : pyval -> string;
  recursion_limit : nat
}.

(** *** Django's storage layer *)

Section Django.
Context (env : Env).

(** [str(v)]: ASCII text is itself, a model instance uses its class's
    [__str__]. *)
Definition str_of (v : pyval) : string :=
  match v with
  | PStr s => s
  | PEntity e => m_str (models env (e_model e)) e
  | _ => py_repr env v
  end.

(** [Model.__eq__]: same class and same primary key. *)
Definition entity_eqb (a b : Entity) : bool :=
  String.eqb (e_model a) (e_model b) && Z.eqb (e_pk a) (e_pk b).

(** [set(entities)], listed in some order. *)
Fixpoint py_set (l : list Entity) : list Entity :=
  match l with
  | [] => []
  | e :: l' => if existsb (entity_eqb e) l' then py_set l' else e :: py_set l'
  end.

Fixpoint assoc {A : Type} (k : string) (l : list (string * A)) : option A :=
  match l with
  | [] => None
  | (k', a) :: l' => if String.eqb k k' then Some a else assoc k l'
  end.

(** [int(s)] for ASCII text: white space, an optional sign, decimal digits,
    white space.  The white space of [unicode] text is the space, the
    characters 9 to 13 and the separators 28 to 31. *)
Definition is_space (c : ascii) : bool :=
  let n := nat_of_ascii c in
  (Nat.eqb n 32 || (Nat.leb 9 n && Nat.leb n 13)
   || (Nat.leb 28 n && Nat.leb n 31))%bool.

Definition digit_of (c : ascii) : option Z :=
  let n := nat_of_ascii c in
  if (Nat.leb 48 n && Nat.leb n 57)%bool then Some (Z.of_nat n - 48) else None.

Fixpoint all_space (s : string) : bool :=
  match s with
  | EmptyString => true
  | String c s' => is_space c && all_space s'
  end.

Fixpoint parse_digits (s : string) (acc : Z) : option Z :=
  match s with
  | EmptyString => Some acc
  | String c s' =>
      match digit_of c with
      | Some d => parse_digits s' (10 * acc + d)
      | None => if all_space s then Some acc else None
      end
  end.

Definition parse_unsigned (s : string) : option Z :=
  match s with
  | EmptyString => None
  | String c _ =>
      match digit_of c with
      | Some _ => parse_digits s 0
      | None => None
      end
  end.

Fixpoint parse_int (s : string) : option Z :=
  match s with
  | EmptyString => None
  | String c s' =>
      if is_space c then parse_int s'
      else if Ascii.eqb c "-" then option_map Z.opp (parse_unsigned s')
      else if Ascii.eqb c "+" then parse_unsigned s'
      else parse_unsigned s
  end.

(** The value of a primary-key lookup [pk=v]: an integer made by [int(v)],
    which raises [ValueError] on text that is no number and [TypeError] on a
    list, a dictionary or an instance; or [None], which Django turns into an
    [isnull] test. *)
Definition int_of (v : pyval) : result (option Z) :=
  match v with
  | PNone => Ok None
  | PBool b => Ok (Some (if b then 1 else 0))
  | PInt z => Ok (Some z)
  | PStr s =>
      match parse_int s with
      | Some z => Ok (Some z)
      | None =>
          Raise (ValueError
                   ("invalid literal for int() with base 10: '" +++ s +++ "'"))
      end
  | PList _ | PDict _ | PEntity _ =>
      Raise (TypeError "int() argument must be a string or a number")
  end.

(** The value of a lookup on a relation: an instance stands for its key. *)
Definition ref_key (v : pyval) : result (option Z) :=
  match v with
  | PEntity e => Ok (Some (e_pk e))
  | _ => int_of v
  end.

(** The names of the fields a model declares: [_meta.fields] and
    [_meta.many_to_many]. *)
Definition field_names (model : string) : list string :=
  map f_name (m_fields (models env model)).

Definition find_field (model : string) (name : string) : option Field :=
  find (fun f => String.eqb (f_name f) name) (m_fields (models env model)).

(** A [RelatedObject] of [model._meta]: the field [r_field] of the installed
    class [r_model] is a relation to [model]. *)
Record Related : Type := {
  r_model : string;
  r_field : Field
}.

(** [related.field.related_query_name()]: no relation carries a
    [related_name] here, so it is the lower-cased name of the class that
    declares the relation. *)
Definition related_query_name (r : Related) : string :=
  RESTAPI.lower (r_model r).

(** [_meta.get_all_related_objects()] and
    [_meta.get_all_related_many_to_many_objects()] together. *)
Definition related_objects (model : string) : list Related :=
  flat_map
    (fun cls =>
       flat_map
         (fun f =>
            match rel f with
            | Some to =>
                if String.eqb to model
                then [{| r_model := cls; r_field := f |}] else []
            | None => []
            end)
         (m_fields (models env cls)))
    (installed env).

(** What the name map of [_meta] holds under a name: a field of the model,
    or a related object. *)
Inductive FieldObject : Type :=
| AField (f : Field)
| ARelated (r : Related).

(** [_meta.init_name_map()], looked up: the object under [name] and its
    [m2m] flag.  A field of the model hides a related object of the same
    name, and the related object of a foreign key hides the one of a
    many-to-many field. *)
Definition name_map (model : string) (name : string)
    : option (FieldObject * bool) :=
  match find_field model name with
  | Some f => Some (AField f, is_m2m f)
  | None =>
      let named :=
        List.filter (fun r => String.eqb (related_query_name r) name)
          (related_objects model) in
      match find (fun r => negb (is_m2m (r_field r))) named with
      | Some r => Some (ARelated r, false)
      | None =>
          match named with
          | r :: _ => Some (ARelated r, true)
          | [] => None
          end
      end
  end.

(** [model._meta.get_all_field_names()]: the keys of the name map, the
    names of the related objects among them. *)
Definition get_all_field_names (model : string) : list string :=
  List.nodup String.string_dec
    (field_names model ++ map related_query_name (related_objects model)).

(** [model._meta.get_field(name)]: it searches the fields the model
    declares, and knows no related object; the message is made with [%r] of
    the name. *)
Definition get_field (model : string) (name : string) : M Field :=
  match find_field model name with
  | Some f => ret f
  | None =>
      raise (FieldDoesNotExist
               (model +++ " has no field named " +++ py_repr env (PStr name)))
  end.

(** [model._meta.get_field_by_name(name)]: the object the name map holds
    and its [m2m] flag. *)
Definition get_field_by_name (model : string) (name : string)
    : M (FieldObject * bool) :=
  match name_map model name with
  | Some fm => ret fm
  | None =>
      raise (FieldDoesNotExist
               (model +++ " has no field named " +++ py_repr env (PStr name)))
  end.

(** [field.rel.to]: a [RelatedObject] has no [rel]. *)
Definition rel_to (field : FieldObject) : M string :=
  match field with
  | AField f =>
      match rel f with
      | Some to => ret to
      | None => raise (AttributeError "'NoneType' object has no attribute 'to'")
      end
  | ARelated _ =>
      raise (AttributeError "'RelatedObject' object has no attribute 'rel'")
  end.

(** A queryset or manager: its [model], the rows it selects, and for the
    related manager [getattr(entity, link)] the owning instance and field. *)
Record QuerySet : Type := {
  qs_model : string;
  qs_rows : list Entity;
  qs_through : option (Entity * string)
}.

Definition with_rows (qs : QuerySet) (rs : list Entity) : QuerySet :=
  {| qs_model := qs_model qs; qs_rows := rs; qs_through := None |}.

(** [Model.objects]. *)
Definition objects (model : string) : M QuerySet :=
  let* db := get_db in
  ret {| qs_model := model;
         qs_rows := List.filter (fun r => String.eqb (e_model r) model) (rows db);
         qs_through := None |}.

Definition link_eqb (a b : Link) : bool :=
  String.eqb (l_model a) (l_model b) && Z.eqb (l_from a) (l_from b)
  && String.eqb (l_field a) (l_field b) && Z.eqb (l_to a) (l_to b).

Definition link_of (e : Entity) (field : string) (to_pk : Z) : Link :=
  {| l_model := e_model e; l_from := e_pk e; l_field := field; l_to := to_pk |}.

Definition has_link (db : DB) (e : Entity) (field : string) (to_pk : Z) : bool :=
  existsb (link_eqb (link_of e field to_pk)) (links db).

Definition has_any_link (db : DB) (e : Entity) (field : string) : bool :=
  existsb (fun l => String.eqb (l_model l) (e_model e) && Z.eqb (l_from l) (e_pk e)
                    && String.eqb (l_field l) field) (links db).

Definition opt_Z_eqb (a b : option Z) : bool :=
  match a, b with
  | Some x, Some y => Z.eqb x y
  | None, None => true
  | _, _ => false
  end.

(** The kind of the field a lookup keyword names; [pk] is the primary key. *)
Definition lookup_kind (model : string) (name : string) : option FieldKind :=
  if String.eqb name "pk" then Some AutoField
  else option_map f_kind (find_field model name).

(** Whether row [r] satisfies the lookup [name=key]. *)
Definition row_matches (db : DB) (kind : FieldKind) (name : string)
    (text : option string) (key : option Z) (r : Entity) : bool :=
  match kind with
  | AutoField => opt_Z_eqb (Some (e_pk r)) key
  | CharField =>
      match text, assoc name (e_text r) with
      | Some s, Some s' => String.eqb s s'
      | _, _ => false
      end
  | ForeignKey _ => opt_Z_eqb (assoc name (e_fk r)) key
  | ManyToManyField _ =>
      match key with
      | Some k => has_link db r name k
      | None => negb (has_any_link db r name)
      end
  end.

(** [queryset.filter] with the one keyword [name=v]. *)
Definition qs_filter (qs : QuerySet) (name : string) (v : pyval) : M QuerySet :=
  match lookup_kind (qs_model qs) name with
  | None =>
      raise (FieldError ("Cannot resolve keyword '" +++ name +++ "' into field."))
  | Some kind =>
      let* db := get_db in
      let* key :=
        lift match kind with
             | AutoField => int_of v
             | CharField => Ok None
             | ForeignKey _ | ManyToManyField _ => ref_key v
             end in
      let text := match v with PNone => None | _ => Some (str_of v) end in
      ret (with_rows qs
             (List.filter (row_matches db kind name text key) (qs_rows qs)))
  end.

(** [queryset.all()], evaluated. *)
Definition qs_all (qs : QuerySet) : list Entity := qs_rows qs.

(** [queryset.get()] once the lookups are applied. *)
Definition qs_get (qs : QuerySet) : M Entity :=
  match qs_rows qs with
  | [] => raise (DoesNotExist (qs_model qs +++ " matching query does not exist."))
  | [e] => ret e
  | _ :: _ :: _ =>
      raise (MultipleObjectsReturned
               ("get() returned more than one " +++ qs_model qs))
  end.

(** [queryset.get(pk=x)]; an [HttpResponse] is no number. *)
Definition qs_get_pk (qs : QuerySet) (x : obj) : M Entity :=
  let* qs' :=
    match x with
    | Val v => qs_filter qs "pk" v
    | Resp _ => raise (TypeError "int() argument must be a string or a number")
    end in
  qs_get qs'.

(** [get_object_or_404(model, **kwargs)]. *)
Definition get_object_or_404 (model : string) (kwargs : list (string * pyval))
    : M Entity :=
  let* qs := objects model in
  let* qs' := foldM (fun q kv => qs_filter q (fst kv) (snd kv)) kwargs qs in
  try_except (qs_get qs') is_DoesNotExist
    (fun _ => raise (Http404 (Some ("No " +++ model +++ " matches the given query.")))).

(** [getattr(entity, link)] for a many-to-many field whose target is
    [target]: the related manager. *)
Definition related_manager (e : Entity) (link : string) (target : string)
    : M QuerySet :=
  let* db := get_db in
  ret {| qs_model := target;
         qs_rows := List.filter (fun r => String.eqb (e_model r) target
                                          && has_link db e link (e_pk r)) (rows db);
         qs_through := Some (e, link) |}.

Definition log_op (op : StorageOp) (db : DB) : list StorageOp :=
  oplog db ++ [op].

(** [manager.add(linked)]: nothing is written when the link is there. *)
Definition qs_add (qs : QuerySet) (linked : Entity) : M unit :=
  match qs_through qs with
  | None => raise (AttributeError "'QuerySet' object has no attribute 'add'")
  | Some (e, link) =>
      let* db := get_db in
      if has_link db e link (e_pk linked) then ret tt
      else
        let l := link_of e link (e_pk linked) in
        put_db {| rows := rows db; links := links db ++ [l];
                  oplog := log_op (OpLinkAdd l) db |}
  end.

(** [manager.remove(linked)]. *)
Definition qs_remove (qs : QuerySet) (linked : Entity) : M unit :=
  match qs_through qs with
  | None => raise (AttributeError "'QuerySet' object has no attribute 'remove'")
  | Some (e, link) =>
      let* db := get_db in
      let l := link_of e link (e_pk linked) in
      put_db {| rows := rows db;
                links := List.filter (fun l' => negb (link_eqb l l')) (links db);
                oplog := log_op (OpLinkRemove l) db |}
  end.

(** [entity.save()]: the row with the entity's key is rewritten, or the
    entity is inserted when there is none. *)
Definition save (e : Entity) : M unit :=
  let* db := get_db in
  if existsb (entity_eqb e) (rows db) then
    put_db {| rows := map (fun r => if entity_eqb e r then e else r) (rows db);
              links := links db;
              oplog := log_op (OpUpdate e) db |}
  else
    put_db {| rows := rows db ++ [e]; links := links db;
              oplog := log_op (OpInsert e) db |}.

(** The key storage assigns to a new row of [model]. *)
Definition fresh_pk (db : DB) (model : string) : Z :=
  1 + fold_right Z.max 0
        (map e_pk (List.filter (fun r => String.eqb (e_model r) model) (rows db))).

(** Whether a foreign key of row [r] points to [target]. *)
Definition references (r target : Entity) : bool :=
  existsb (fun f =>
             match f_kind f with
             | ForeignKey t =>
                 String.eqb t (e_model target)
                 && opt_Z_eqb (assoc (f_name f) (e_fk r)) (Some (e_pk target))
             | _ => false
             end) (m_fields (models env (e_model r))).

(** The rows deleting [doomed] cascades to. *)
Fixpoint cascade (fuel : nat) (all : list Entity) (doomed : list Entity)
    : list Entity :=
  match fuel with
  | O => doomed
  | S fuel' =>
      let more :=
        List.filter (fun r => negb (existsb (entity_eqb r) doomed)
                              && existsb (references r) doomed) all in
      match more with
      | [] => doomed
      | _ => cascade fuel' all (doomed ++ more)
      end
  end.

(** Whether a link row starts or ends at [e]. *)
Definition link_touches (e : Entity) (l : Link) : bool :=
  (String.eqb (l_model l) (e_model e) && Z.eqb (l_from l) (e_pk e))
  || match option_map f_kind (find_field (l_model l) (l_field l)) with
     | Some (ManyToManyField t) =>
         String.eqb t (e_model e) && Z.eqb (l_to l) (e_pk e)
     | _ => false
     end.

(** [entity.delete()]. *)
Definition delete_instance (e : Entity) : M unit :=
  let* db := get_db in
  let doomed := cascade (length (rows db)) (rows db) [e] in
  put_db {| rows := List.filter (fun r => negb (existsb (entity_eqb r) doomed))
                      (rows db);
            links := List.filter (fun l => negb (existsb (fun d => link_touches d l)
                                                   doomed)) (links db);
            oplog := oplog db ++ map OpDelete doomed |}.

(** A [ModelForm] subclass made by [modelform_factory(model, fields=names)]. *)
Record ModelForm : Type := {
  form_model : string;
  form_fields : list string
}.

Definition is_empty_value (v : option pyval) : bool :=
  match v with
  | None | Some PNone | Some (PStr EmptyString) => true
  | Some _ => false
  end.

(** Cleaning one form field: the instance with the cleaned value set, or
    [None] when the value does not validate. *)
Definition clean_field (db : DB) (data : list (string * pyval)) (f : Field)
    (e : Entity) : option Entity :=
  let v := assoc (f_name f) data in
  match f_kind f with
  | CharField =>
      if is_empty_value v then
        if f_blank f then
          Some {| e_model := e_model e; e_pk := e_pk e;
                  e_text := e_text e ++ [(f_name f, EmptyString)];
                  e_fk := e_fk e |}
        else None
      else
        Some {| e_model := e_model e; e_pk := e_pk e;
                e_text := e_text e ++ [(f_name f, str_of (default PNone v))];
                e_fk := e_fk e |}
  | ForeignKey t =>
      if is_empty_value v then (if f_blank f then Some e else None)
      else
        match int_of (default PNone v) with
        | Ok (Some k) =>
            if existsb (fun r => String.eqb (e_model r) t && Z.eqb (e_pk r) k)
                 (rows db)
            then Some {| e_model := e_model e; e_pk := e_pk e;
                         e_text := e_text e;
                         e_fk := e_fk e ++ [(f_name f, k)] |}
            else None
        | _ => None
        end
  | AutoField | ManyToManyField _ => Some e
  end.

Fixpoint clean_fields (db : DB) (data : list (string * pyval))
    (fs : list Field) (e : Entity) : option Entity :=
  match fs with
  | [] => Some e
  | f :: fs' =>
      match clean_field db data f e with
      | Some e' => clean_fields db data fs' e'
      | None => None
      end
  end.

(** [FormCls(data).save()] for a new instance. *)
Definition form_save (form : ModelForm) (data : list (string * pyval))
    : M Entity :=
  let* db := get_db in
  let model := form_model form in
  let fs := List.filter (fun f => existsb (String.eqb (f_name f)) (form_fields form))
              (m_fields (models env model)) in
  let blank := {| e_model := model; e_pk := fresh_pk db model;
                  e_text := []; e_fk := [] |} in
  match clean_fields db data fs blank with
  | None =>
      raise (ValueError ("The " +++ model +++
                         " could not be created because the data didn't validate."))
  | Some e => run save e in ret e
  end.

(** Replacing, or removing, the value stored under a column name. *)
Fixpoint set_assoc {A : Type} (k : string) (a : A) (l : list (string * A))
    : list (string * A) :=
  match l with
  | [] => [(k, a)]
  | (k', a') :: l' =>
      if String.eqb k k' then (k, a) :: l' else (k', a') :: set_assoc k a l'
  end.

Fixpoint del_assoc {A : Type} (k : string) (l : list (string * A))
    : list (string * A) :=
  match l with
  | [] => []
  | (k', a') :: l' =>
      if String.eqb k k' then del_assoc k l' else (k', a') :: del_assoc k l'
  end.

(** Cleaning one form field of a form bound to the instance [e]: the
    instance with the cleaned value set, or [None] when the value does not
    validate. *)
Definition update_field (db : DB) (data : list (string * pyval)) (f : Field)
    (e : Entity) : option Entity :=
  let v := assoc (f_name f) data in
  match f_kind f with
  | CharField =>
      if is_empty_value v then
        if f_blank f then
          Some {| e_model := e_model e; e_pk := e_pk e;
                  e_text := set_assoc (f_name f) EmptyString (e_text e);
                  e_fk := e_fk e |}
        else None
      else
        Some {| e_model := e_model e; e_pk := e_pk e;
                e_text := set_assoc (f_name f) (str_of (default PNone v)) (e_text e);
                e_fk := e_fk e |}
  | ForeignKey t =>
      if is_empty_value v then
        if f_blank f then
          Some {| e_model := e_model e; e_pk := e_pk e;
                  e_text := e_text e;
                  e_fk := del_assoc (f_name f) (e_fk e) |}
        else None
      else
        match int_of (default PNone v) with
        | Ok (Some k) =>
            if existsb (fun r => String.eqb (e_model r) t && Z.eqb (e_pk r) k)
                 (rows db)
            then Some {| e_model := e_model e; e_pk := e_pk e;
                         e_text := e_text e;
                         e_fk := set_assoc (f_name f) k (e_fk e) |}
            else None
        | _ => None
        end
  | AutoField | ManyToManyField _ => Some e
  end.

Fixpoint update_fields (db : DB) (data : list (string * pyval))
    (fs : list Field) (e : Entity) : option Entity :=
  match fs with
  | [] => Some e
  | f :: fs' =>
      match update_field db data f e with
      | Some e' => update_fields db data fs' e'
      | None => None
      end
  end.

(** [FormCls(data, instance=e).save()]. *)
Definition form_save_instance (form : ModelForm) (data : list (string * pyval))
    (e : Entity) : M Entity :=
  let* db := get_db in
  let model := form_model form in
  let fs := List.filter (fun f => existsb (String.eqb (f_name f)) (form_fields form))
              (m_fields (models env model)) in
  match update_fields db data fs e with
  | None =>
      raise (ValueError ("The " +++ model +++
                         " could not be changed because the data didn't validate."))
  | Some e' => run save e' in ret e'
  end.

End Django.

(** *** The view class *)

(** [RESTView] and its subclasses: each method a subclass may override is
    [Some] implementation, or [None] for the one inherited from [RESTView].
    The hooks receive whatever objects the dispatcher passes them. *)
Record RESTView : Type := {
  get_model_impl : option (Request -> string);
  can_get_entity_impl : option (Request -> obj -> bool);
  can_get_linked_entity_impl : option (Request -> obj -> string -> obj -> bool);
  can_create_entity_impl : option (Request -> pyval -> bool);
  can_create_linked_entity_impl : option (Request -> obj -> string -> obj -> bool);
  can_edit_entity_impl : option (Request -> obj -> bool);
  can_delete_entity_impl : option (Request -> obj -> bool);
  can_delete_linked_entity_impl : option (Request -> obj -> string -> obj -> bool)
}.

Section View.
Context (env : Env) (self : RESTView).

(** [get_model]. *)
Definition get_model (request : Request) : M string :=
  match get_model_impl self with
  | Some f => ret (f request)
  | None => raise (NotImplementedError "You must implement the get_model method.")
  end.

(** [get_linked_model]. *)
Definition get_linked_model (request : Request) (link : string) : M string :=
  let* model := get_model request in
  let* fm :=
    try_except (get_field_by_name env model link) is_FieldDoesNotExist
      (fun _ => raise (TypeError ("Field `" +++ model +++ "." +++ link
                                  +++ "` does not exist."))) in
  if negb (snd fm) then
    raise (TypeError ("Field `" +++ model +++ "." +++ link
                      +++ "` is not a m2m field."))
  else rel_to (fst fm).

(** [get_queryset]. *)
Definition get_queryset (request : Request) : M QuerySet :=
  let* model := get_model request in objects model.

(** [entity.__class__.__name__]; the one response that an entity variable
    can hold is the [HttpResponseForbidden] that [get_entity] returns. *)
Definition class_name (o : obj) : string :=
  match o with
  | Val (PEntity e) => e_model e
  | Val PNone => "NoneType"
  | Val (PBool _) => "bool"
  | Val (PInt _) => "int"
  | Val (PStr _) => "unicode"
  | Val (PList _) => "list"
  | Val (PDict _) => "dict"
  | Resp _ => "HttpResponseForbidden"
  end.

(** [entity._meta]: only a model instance has one. *)
Definition meta_of (entity : obj) : M string :=
  match entity with
  | Val (PEntity e) => ret (e_model e)
  | _ => raise (AttributeError ("'" +++ class_name entity +++ "' object has no attribute '_meta'"))
  end.

(** [getattr(entity, link)] where the name map flags [link] as [m2m]: the
    related manager of a many-to-many field of the instance.  The accessor
    of a related object is [<link>_set], so the name of a related object is
    no attribute of the instance. *)
Definition getattr_link (entity : obj) (link : string) : M QuerySet :=
  match entity with
  | Val (PEntity e) =>
      match option_map f_kind (find_field env (e_model e) link) with
      | Some (ManyToManyField to) => related_manager e link to
      | _ => raise (AttributeError ("'" +++ class_name entity +++ "' object has no attribute '"
                               +++ link +++ "'"))
      end
  | _ => raise (AttributeError ("'" +++ class_name entity +++ "' object has no attribute '"
                               +++ link +++ "'"))
  end.

(** [get_linked_queryset]. *)
Definition get_linked_queryset (request : Request) (entity : obj)
    (link : string) : M QuerySet :=
  let* m2m :=
    try_except
      (let* cls := meta_of entity in
       let* fm := get_field_by_name env cls link in
       ret (snd fm))
      is_FieldDoesNotExist
      (fun _ =>
         raise (TypeError ("Field `" +++ class_name entity +++ "." +++ link
                           +++ "` does not exist."))) in
  if negb m2m then
    raise (TypeError ("Field `" +++ class_name entity +++ "." +++ link
                      +++ "` is not a m2m field."))
  else getattr_link entity link.

(** [apply_filter]. *)
Definition apply_filter (request : Request) (queryset : QuerySet)
    (field : string) (value : string) : M QuerySet :=
  let* field_obj := get_field env (qs_model queryset) field in
  match rel field_obj with
  | None => qs_filter env queryset field (PStr value)
  | Some to =>
      let* reference := get_object_or_404 env to [("pk", PStr value)] in
      qs_filter env queryset field (PEntity reference)
  end.

(** [filter_queryset]. *)
Definition filter_queryset (request : Request) (queryset : QuerySet)
    : M QuerySet :=
  let fieldnames := get_all_field_names env (qs_model queryset) in
  foldM (fun queryset fv =>
           if existsb (String.eqb (fst fv)) fieldnames
           then apply_filter request queryset (fst fv) (snd fv)
           else ret queryset)
        (GET request) queryset.

(** The authorization hooks. *)
Definition can_get_entity (request : Request) (entity : obj) : bool :=
  match can_get_entity_impl self with
  | Some f => f request entity
  | None => true
  end.

Definition can_get_linked_entity (request : Request) (entity : obj)
    (link : string) (linked_entity : obj) : bool :=
  match can_get_linked_entity_impl self with
  | Some f => f request entity link linked_entity
  | None => true
  end.

Definition can_create_entity (request : Request) (data : pyval) : bool :=
  match can_create_entity_impl self with
  | Some f => f request data
  | None => true
  end.

Definition can_create_linked_entity (request : Request) (entity : obj)
    (link : string) (linked_entity : obj) : bool :=
  match can_create_linked_entity_impl self with
  | Some f => f request entity link linked_entity
  | None => true
  end.

Definition can_edit_entity (request : Request) (entity : obj) : bool :=
  match can_edit_entity_impl self with
  | Some f => f request entity
  | None => can_get_entity request entity
  end.

Definition can_delete_entity (request : Request) (entity : obj) : bool :=
  match can_delete_entity_impl self with
  | Some f => f request entity
  | None => can_edit_entity request entity
  end.

Definition can_delete_linked_entity (request : Request) (entity : obj)
    (link : string) (linked_entity : obj) : bool :=
  match can_delete_linked_entity_impl self with
  | Some f => f request entity link linked_entity
  | None => can_create_linked_entity request entity link linked_entity
  end.

(** [get_collection]. *)
Definition get_collection (request : Request) : M (list Entity) :=
  let* model := get_model request in
  let* base_queryset := objects model in
  let* queryset := filter_queryset request base_queryset in
  ret (List.filter (fun entity => can_get_entity request (Val (PEntity entity)))
         (py_set (qs_all queryset))).

(** [isinstance(x, model)]. *)
Definition isinstance (x : obj) (model : string) : bool :=
  match x with
  | Val (PEntity e) => String.eqb (e_model e) model
  | _ => false
  end.

(** [get_entity].  Both [except] clauses build their message from
    [instance_pk], a name that is bound nowhere. *)
Definition get_entity (request : Request) (instance_pk_or_entity : obj)
    : M obj :=
  let* model := get_model request in
  let* entity :=
    if isinstance instance_pk_or_entity model then ret instance_pk_or_entity
    else
      let* model := get_model request in
      let* base_queryset := objects model in
      let* queryset := filter_queryset request base_queryset in
      try_except
        (let* e := qs_get_pk env queryset instance_pk_or_entity in
         ret (Val (PEntity e)))
        (fun e => is_DoesNotExist e || is_ValueError e)
        (fun _ => raise (NameError "global name 'instance_pk' is not defined")) in
  if can_get_entity request entity then ret entity
  else ret (Resp HttpResponseForbidden).

(** [get_linked_collection]. *)
Definition get_linked_collection (request : Request)
    (instance_pk_or_entity : obj) (link : string) : M (list Entity) :=
  let* entity := get_entity request instance_pk_or_entity in
  let* base_queryset := get_linked_queryset request entity link in
  let* queryset := filter_queryset request base_queryset in
  ret (List.filter
         (fun linked_entity =>
            can_get_linked_entity request entity link (Val (PEntity linked_entity)))
         (py_set (qs_all queryset))).

(** [get_linked_entity]. *)
Definition get_linked_entity (request : Request) (instance_pk_or_entity : obj)
    (link : string) (linked_instance_pk : string) : M obj :=
  let* entity := get_entity request instance_pk_or_entity in
  let* base_queryset := get_linked_queryset request entity link in
  let* queryset := filter_queryset request base_queryset in
  let* linked_entity :=
    try_except
      (qs_get_pk env queryset (Val (PStr linked_instance_pk)))
      (fun e => is_DoesNotExist e || is_ValueError e)
      (fun e =>
         if is_DoesNotExist e then
           raise (TypeError ("There is no " +++ qs_model queryset
                             +++ " instance with primary key: "
                             +++ linked_instance_pk))
         else
           raise (TypeError ("Invalid primary key value for "
                             +++ qs_model queryset +++ " instance: "
                             +++ linked_instance_pk))) in
  if can_get_linked_entity request entity link (Val (PEntity linked_entity))
  then ret (Val (PEntity linked_entity))
  else ret (Resp HttpResponseForbidden).

(** [get_model_form_fields]; [model._meta.fields] leaves the many-to-many
    fields out. *)
Definition get_model_form_fields (request : Request) : M (list Field) :=
  let* model := get_model request in
  ret (List.filter (fun x => f_editable x && negb (primary_key x))
         (List.filter (fun x => negb (is_m2m x)) (m_fields (models env model)))).

(** [get_model_form]. *)
Definition get_model_form (request : Request)
    (desired_fields : option (list string)) : M (option ModelForm) :=
  let* model := get_model request in
  let* fields := get_model_form_fields request in
  let fields :=
    match desired_fields with
    | Some desired =>
        List.filter (fun x => existsb (String.eqb (f_name x)) desired) fields
    | None => fields
    end in
  match fields with
  | _ :: _ =>
      ret (Some {| form_model := model; form_fields := map f_name fields |})
  | [] => ret None
  end.

(** [create_entity]. *)
Definition create_entity (request : Request) (data : pyval) : M obj :=
  match data with
  | PDict d =>
      if negb (can_create_entity request data) then ret (Resp HttpResponseForbidden)
      else
        let* FormCls := get_model_form request None in
        match FormCls with
        | None => ret (Resp HttpResponseForbidden)
        | Some form =>
            try_except
              (let* entity := form_save env form d in ret (Val (PEntity entity)))
              is_ValueError
              (fun e => ret (Resp (HttpResponseBadRequest (str_exc e))))
        end
  | _ => raise (ValueError "POST data should contain dictionary")
  end.

(** [create_linked_entity]. *)
Definition create_linked_entity (request : Request)
    (instance_pk_or_entity : obj) (link : string) (data : pyval) : M obj :=
  let* entity := get_entity request instance_pk_or_entity in
  let* mq :=
    try_except
      (let* linked_model := get_linked_model request link in
       let* queryset := get_linked_queryset request entity link in
       ret (linked_model, queryset))
      is_TypeError (fun e => raise e) in
  match data with
  | PDict d =>
      let* linked_entity := get_object_or_404 env (fst mq) d in
      if negb (can_create_linked_entity request entity link
                 (Val (PEntity linked_entity)))
      then ret (Resp HttpResponseForbidden)
      else
        run qs_add (snd mq) linked_entity in
        match entity with
        | Val (PEntity e) => run save e in ret (Val PNone)
        | _ => raise (AttributeError ("'" +++ class_name entity +++ "' object has no attribute 'save'"))
        end
  | _ => raise (ValueError "POST data should contain dictionary")
  end.

(** [FormCls(data, instance=entity)]: the form reads the instance's
    [_meta]. *)
Definition bound_instance (entity : obj) : M Entity :=
  match entity with
  | Val (PEntity e) => ret e
  | _ => raise (AttributeError ("'" +++ class_name entity
                                +++ "' object has no attribute '_meta'"))
  end.

(** [edit_entity]. *)
Definition edit_entity (request : Request) (instance_pk : obj) (data : pyval)
    : M obj :=
  match data with
  | PDict d =>
      let* entity := get_entity request instance_pk in
      if negb (can_edit_entity request entity) then ret (Resp HttpResponseForbidden)
      else
        let* FormCls := get_model_form request (Some (map fst d)) in
        match FormCls with
        | None => ret (Resp HttpResponseForbidden)
        | Some form =>
            let* instance := bound_instance entity in
            try_except
              (let* entity := form_save_instance env form d instance in
               ret (Val (PEntity entity)))
              is_ValueError
              (fun e => ret (Resp (HttpResponseBadRequest (str_exc e))))
        end
  | _ => raise (ValueError "PUT data should contain dictionary")
  end.

(** [delete_entity]. *)
Definition delete_entity (request : Request) (instance_pk : obj) : M obj :=
  let* entity := get_entity request instance_pk in
  if negb (can_delete_entity request entity) then ret (Resp HttpResponseForbidden)
  else
    match entity with
    | Val (PEntity e) => run delete_instance env e in ret (Val PNone)
    | _ => raise (AttributeError ("'" +++ class_name entity +++ "' object has no attribute 'delete'"))
    end.

(** [manager.remove(x)] for whatever [x] the caller holds. *)
Definition qs_remove_obj (queryset : QuerySet) (x : obj) : M unit :=
  match x with
  | Val (PEntity e) => qs_remove queryset e
  | _ => raise (TypeError "int() argument must be a string or a number")
  end.

(** [delete_linked_entity]. *)
Definition delete_linked_entity (request : Request) (instance_pk : obj)
    (link : string) (linked_instance_pk : string) : M obj :=
  let* entity := get_entity request instance_pk in
  let* linked_entity :=
    get_linked_entity request entity link linked_instance_pk in
  if negb (can_delete_linked_entity request entity link linked_entity)
  then ret (Resp HttpResponseForbidden)
  else
    let* queryset := get_linked_queryset request entity link in
    run qs_remove_obj queryset linked_entity in
    ret (Val PNone).

(** [callable(x)] where [x] is [getattr(o, name, None)]. *)
Definition callable (x : option attr) : bool :=
  match x with
  | Some (AFunction _) | Some (AMethod _ _) => true
  | Some (AObject c) => c
  | None => false
  end.

(** [getattr(model, name, None)] on a model class: a static method is a
    plain function, a class method is bound to the class, an instance method
    is unbound. *)
Definition getattr_class (model : string) (name : string) : option attr :=
  match assoc name (m_members (models env model)) with
  | Some (StaticMethod f) => Some (AFunction f)
  | Some (ClassMethod f) => Some (AMethod (Some (SelfClass model)) (f model))
  | Some (InstanceMethod f) =>
      Some (AMethod None
              (fun _ _ => raise (TypeError "unbound method must be called with an instance")))
  | Some (Attribute c) => Some (AObject c)
  | None => None
  end.

(** [getattr(entity, name, None)] on what [get_entity] returned: on a model
    instance an instance method is bound to it, [describe] is the class's
    [describe] and a field is its value; an [HttpResponse] has the
    attributes the environment gives it. *)
Definition getattr_obj (o : obj) (name : string) : option attr :=
  match o with
  | Val (PEntity e) =>
      let cls := models env (e_model e) in
      if String.eqb name "describe" then
        match m_describe cls with
        | Some _ =>
            Some (AMethod (Some (SelfInstance e))
                    (fun _ _ => raise (TypeError "describe() takes exactly 1 argument (3 given)")))
        | None => None
        end
      else
        match assoc name (m_members cls) with
        | Some (StaticMethod f) => Some (AFunction f)
        | Some (ClassMethod f) =>
            Some (AMethod (Some (SelfClass (e_model e))) (f (e_model e)))
        | Some (InstanceMethod f) => Some (AMethod (Some (SelfInstance e)) (f e))
        | Some (Attribute c) => Some (AObject c)
        | None =>
            match find_field env (e_model e) name with
            | Some _ => Some (AObject false)
            | None => None
            end
        end
  | Val _ => None
  | Resp _ => response_getattr env name
  end.

(** [call_collection_method]. *)
Definition call_collection_method (request : Request) (method : string)
    (data : pyval) : M obj :=
  let* model := get_model request in
  let collection_method := getattr_class model method in
  if callable collection_method then
    match collection_method with
    | Some (AFunction call) => call request data
    | Some (AMethod (Some _) call) => call request data
    | Some (AMethod None _) => raise (TypeError "Unbound methods are not allowed.")
    | _ => raise (AttributeError "object has no attribute 'im_self'")
    end
  else
    raise (TypeError ("`" +++ model +++ "." +++ method +++ "` is not a callable.")).

(** [call_entity_method]. *)
Definition call_entity_method (request : Request) (entity : obj)
    (method : string) (data : pyval) : M obj :=
  let* entity := get_entity request entity in
  let entity_method := getattr_obj entity method in
  if callable entity_method then
    match entity_method with
    | Some (AFunction _) => raise (TypeError "Static methods are not allowed.")
    | Some (AMethod (Some _) call) => call request data
    | Some (AMethod None _) => raise (TypeError "Unbound methods are not allowed.")
    | _ => raise (AttributeError "object has no attribute 'im_self'")
    end
  else
    raise (TypeError ("`" +++ class_name entity +++ "." +++ method
                      +++ "` is not a callable.")).

(** [call_linked_collection_method] and [call_linked_entity_method]. *)
Definition call_linked_collection_method (request : Request) (entity : string)
    (link : string) (method : string) (data : pyval) : M obj :=
  ret (Resp (HttpResponse_text (method +++ "(" +++ str_of env data +++ ")"))).

Definition call_linked_entity_method (request : Request) (entity : string)
    (link : string) (linked_entity : string) (method : string) (data : pyval)
    : M obj :=
  ret (Resp (HttpResponse_text (method +++ "(" +++ str_of env data +++ ")"))).

(** Whether [json.dumps(v)] succeeds: every leaf is a JSON value, the keys
    of a dictionary being text. *)
Fixpoint json_dumps_ok (v : pyval) : bool :=
  match v with
  | PNone | PBool _ | PInt _ | PStr _ => true
  | PList l => forallb json_dumps_ok l
  | PDict d =>
      (fix values (d : list (string * pyval)) : bool :=
         match d with
         | [] => true
         | (_, x) :: d' => json_dumps_ok x && values d'
         end) d
  | PEntity _ => false
  end.

(** [serialize_for_json].  Python bounds the depth of the recursion; going
    past the bound is a [RuntimeError]. *)
Fixpoint serialize_for_json (depth : nat) (request : Request)
    (response : pyval) : result pyval :=
  match depth with
  | O => Raise (RuntimeError "maximum recursion depth exceeded")
  | S depth' =>
      if json_dumps_ok response then Ok response
      else
        match response with
        | PDict d =>
            match mapR (fun kv =>
                          match serialize_for_json depth' request (snd kv) with
                          | Ok x => Ok (fst kv, x)
                          | Raise e => Raise e
                          end) d with
            | Ok d' => Ok (PDict d')
            | Raise e => Raise e
            end
        | PList l =>
            match mapR (serialize_for_json depth' request) l with
            | Ok l' => Ok (PList l')
            | Raise e => Raise e
            end
        | PEntity e =>
            match m_describe (models env (e_model e)) with
            | Some describe =>
                match serialize_for_json depth' request (describe e) with
                | Ok response' =>
                    if json_dumps_ok response' then Ok response'
                    else Ok (PStr (str_of env response'))
                | Raise e' => Raise e'
                end
            | None => Ok (PStr (str_of env response))
            end
        | _ => Ok response
        end
  end.

(** [reply_to_response]. *)
Definition reply_to_response (request : Request) (reply : obj)
    : M HttpResponse :=
  match reply with
  | Val PNone => ret (HttpResponse_status 204)
  | Resp r => ret r
  | Val v =>
      let* serialized_reply :=
        lift (serialize_for_json (recursion_limit env) request v) in
      ret {| status := 200; content := JsonDumps serialized_reply;
             content_type := "application/json" |}
  end.

(** The two [except] clauses that end every handler: a [TypeError] becomes
    [Http404], any other exception a 400 response; the message goes along
    under [settings.DEBUG] only. *)
Definition except_clauses (body : M HttpResponse) : M HttpResponse :=
  try_except body (fun _ => true)
    (fun e =>
       if is_TypeError e then
         if DEBUG env then raise (Http404 (Some (str_exc e)))
         else raise (Http404 None)
       else
         if DEBUG env then ret (HttpResponseBadRequest (str_exc e))
         else ret (HttpResponseBadRequest "")).

(** [json.loads(request.body)]. *)
Definition json_loads (request : Request) : M pyval :=
  match body request with
  | Some data => ret data
  | None => raise (ValueError "No JSON object could be decoded")
  end.

Definition entities (l : list Entity) : obj := Val (PList (map PEntity l)).

(** [get]: the handler of GET requests. *)
Definition get (request : Request) (args : list string) : M HttpResponse :=
  except_clauses
    (let* reply :=
       match args with
       | [] =>
           let* l := get_collection request in ret (entities l)
       | [a0] => get_entity request (Val (PStr a0))
       | [a0; a1] =>
           let* l := get_linked_collection request (Val (PStr a0)) a1 in
           ret (entities l)
       | [a0; a1; a2] => get_linked_entity request (Val (PStr a0)) a1 a2
       | _ => raise (Http404 None)
       end in
     reply_to_response request reply).

(** [post]: the handler of POST requests. *)
Definition post (request : Request) (args : list string) : M HttpResponse :=
  except_clauses
    (let* data := json_loads request in
     let* reply :=
       match args with
       | [] => create_entity request data
       | [a0] => call_collection_method request a0 data
       | [a0; a1] =>
           try_except
             (create_linked_entity request (Val (PStr a0)) a1 data)
             is_TypeError
             (fun _ => call_entity_method request (Val (PStr a0)) a1 data)
       | [a0; a1; a2] => call_linked_collection_method request a0 a1 a2 data
       | [a0; a1; a2; a3] =>
           call_linked_entity_method request a0 a1 a2 a3 data
       | _ => raise (TypeError "")
       end in
     reply_to_response request reply).

(** [put]: the handler of PUT requests. *)
Definition put (request : Request) (args : list string) : M HttpResponse :=
  except_clauses
    (let* data := json_loads request in
     let* reply :=
       match args with
       | [a0] => edit_entity request (Val (PStr a0)) data
       | _ => raise (TypeError "")
       end in
     reply_to_response request reply).

(** [delete]: the handler of DELETE requests. *)
Definition delete (request : Request) (args : list string) : M HttpResponse :=
  except_clauses
    (let* reply :=
       match args with
       | [a0] => delete_entity request (Val (PStr a0))
       | [a0; a1; a2] => delete_linked_entity request (Val (PStr a0)) a1 a2
       | _ => raise (TypeError "")
       end in
     reply_to_response request reply).

End View.

(** What reaches the client: the status of the response the handler returns,
    404 for an [Http404] that leaves it, 500 for any other exception. *)
Definition status_of (r : result HttpResponse) : Z :=
  match r with
  | Ok resp => status resp
  | Raise (Http404 _) => 404
  | Raise _ => 500
  end.

End RESTView.

(** ** Part III: a sample application *)

Module Sample.
Import RESTView.

Definition field (name : string) (kind : FieldKind) : Field :=
  {| f_name := name; f_kind := kind; f_editable := true; f_blank := false |}.

Definition default_str (name : string) (e : Entity) : string :=
  name +++ " object".

(** [Widget.rename(self, request, data)] answers with the new name;
    [Widget.count(request, data)] is a static method. *)
Definition rename (e : Entity) (request : Request) (data : pyval) : M obj :=
  ret (Val (PDict [("renamed", PInt (e_pk e)); ("to", data)])).

Definition count (request : Request) (data : pyval) : M obj :=
  ret (Val (PInt 1)).

(** [Widget.total(cls, request, data)], a class method, answers with the
    number of stored instances of the class. *)
Definition total (cls : string) (request : Request) (data : pyval) : M obj :=
  let* queryset := objects cls in
  ret (Val (PInt (Z.of_nat (length (qs_rows queryset))))).

Definition Widget : ModelCls :=
  {| m_fields := [ {| f_name := "id"; f_kind := AutoField;
                      f_editable := true; f_blank := true |};
                   field "name" CharField;
                   {| f_name := "owner"; f_kind := ForeignKey "User";
                      f_editable := true; f_blank := true |};
                   field "tags" (ManyToManyField "Tag") ];
     m_members := [ ("rename", InstanceMethod rename);
                    ("count", StaticMethod count);
                    ("total", ClassMethod total) ];
     m_describe := None;
     m_str := default_str "Widget" |}.

Definition Tag : ModelCls :=
  {| m_fields := [ {| f_name := "id"; f_kind := AutoField;
                      f_editable := true; f_blank := true |};
                   field "label" CharField ];
     m_members := [];
     m_describe := None;
     m_str := default_str "Tag" |}.

Definition User : ModelCls :=
  {| m_fields := [ {| f_name := "id"; f_kind := AutoField;
                      f_editable := true; f_blank := true |};
                   field "login" CharField ];
     m_members := [];
     m_describe := None;
     m_str := default_str "User" |}.

Definition NoModel : ModelCls :=
  {| m_fields := []; m_members := []; m_describe := None;
     m_str := default_str "" |}.

Definition sample_models (name : string) : ModelCls :=
  if String.eqb name "Widget" then Widget
  else if String.eqb name "Tag" then Tag
  else if String.eqb name "User" then User
  else NoModel.

Definition sample_env (debug : bool) : Env :=
  {| DEBUG := debug;
     installed := ["Widget"; "Tag"; "User"];
     models := sample_models;
     response_getattr := fun _ => None;
     py_repr := fun v => match v with
                         | PStr s => "u'" +++ s +++ "'"
                         | _ => "<repr>"
                         end;
     recursion_limit := 1000 |}.

(** [class WidgetView(RESTView)] with [get_model] alone overridden. *)
Definition WidgetView : RESTView :=
  {| get_model_impl := Some (fun _ => "Widget");
     can_get_entity_impl := None;
     can_get_linked_entity_impl := None;
     can_create_entity_impl := None;
     can_create_linked_entity_impl := None;
     can_edit_entity_impl := None;
     can_delete_entity_impl := None;
     can_delete_linked_entity_impl := None |}.

(** The same with [can_get_entity] overridden to return [False]. *)
Definition LockedView : RESTView :=
  {| get_model_impl := Some (fun _ => "Widget");
     can_get_entity_impl := Some (fun _ _ => false);
     can_get_linked_entity_impl := None;
     can_create_entity_impl := None;
     can_create_linked_entity_impl := None;
     can_edit_entity_impl := None;
     can_delete_entity_impl := None;
     can_delete_linked_entity_impl := None |}.



(** [RESTView] itself: nothing is overridden. *)
Definition BareView : RESTView :=
  {| get_model_impl := None;
     can_get_entity_impl := None;
     can_get_linked_entity_impl := None;
     can_create_entity_impl := None;
     can_create_linked_entity_impl := None;
     can_edit_entity_impl := None;
     can_delete_entity_impl := None;
     can_delete_linked_entity_impl := None |}.

Definition widget7 : Entity :=
  {| e_model := "Widget"; e_pk := 7; e_text := [("name", "foo")]; e_fk := [] |}.

Definition widget8 : Entity :=
  {| e_model := "Widget"; e_pk := 8; e_text := [("name", "bar")];
     e_fk := [("owner", 1)] |}.

Definition tag3 : Entity :=
  {| e_model := "Tag"; e_pk := 3; e_text := [("label", "red")]; e_fk := [] |}.

Definition tag4 : Entity :=
  {| e_model := "Tag"; e_pk := 4; e_text := [("label", "blue")]; e_fk := [] |}.

Definition user1 : Entity :=
  {| e_model := "User"; e_pk := 1; e_text := [("login", "ann")]; e_fk := [] |}.

Definition link_7_3 : Link :=
  {| l_model := "Widget"; l_from := 7; l_field := "tags"; l_to := 3 |}.

Definition sample_db : DB :=
  {| rows := [widget7; widget8; tag3; tag4; user1];
     links := [link_7_3];
     oplog := [] |}.

Definition empty_db : DB := {| rows := []; links := []; oplog := [] |}.

Definition plain_request : Request := {| GET := []; body := None |}.

Definition request_with (params : list (string * string)) : Request :=
  {| GET := params; body := None |}.

Definition request_body (data : pyval) : Request :=
  {| GET := []; body := Some data |}.

End Sample.

(** ** Part IV: the vocabulary of the statements *)

Module Vocabulary.
Import RESTView.

(** A computation that leaves the store as it found it. *)
Definition readonly {A : Type} (c : M A) : Prop :=
  forall db, snd (c db) = db.

(** The collection [Model.objects] filtered by the request, as
    [get_collection] and [get_entity] build it. *)
Definition filtered_collection (env : Env) (request : Request)
    (model : string) : M QuerySet :=
  let* base_queryset := objects model in
  filter_queryset env request base_queryset.

(** [qs'] selects some of the rows of [qs], of the same model. *)
Definition selects (qs' qs : QuerySet) : Prop :=
  qs_model qs' = qs_model qs /\
  exists p, qs_rows qs' = List.filter p (qs_rows qs).

(** An entity is identified by its model and primary key, and storage
    holds one row for each. *)
Definition key (e : Entity) : string * Z := (e_model e, e_pk e).

Definition unique_keys (l : list Entity) : Prop := List.NoDup (map key l).


Definition pk_equals (k : Z) (r : Entity) : bool := Z.eqb (e_pk r) k.


(** The rows of [model] stored under the key [k]. *)
Definition rows_with_pk (db : DB) (model : string) (k : Z) : list Entity :=
  List.filter (pk_equals k)
    (List.filter (fun r => String.eqb (e_model r) model) (rows db)).

(** The instances of [target] that [e] is linked to through [link]. *)
Definition linked_rows (db : DB) (e : Entity) (link target : string)
    : list Entity :=
  List.filter (fun r => String.eqb (e_model r) target
                        && has_link db e link (e_pk r)) (rows db).

(** The store after [manager.remove(le)] on the [link] of [e]. *)
Definition without_link (db : DB) (e : Entity) (link : string) (le : Entity)
    : DB :=
  {| rows := rows db;
     links := List.filter (fun l' => negb (link_eqb (link_of e link (e_pk le)) l'))
                (links db);
     oplog := oplog db ++ [OpLinkRemove (link_of e link (e_pk le))] |}.



(** The store after [manager.add(le)] on the [link] of [e] and [e.save()]:
    the link row is appended unless it is there, the row of [e] is written
    back, and no row is made. *)
Definition with_link (db : DB) (e : Entity) (link : string) (le : Entity) : DB :=
  let l := link_of e link (e_pk le) in
  let present := has_link db e link (e_pk le) in
  {| rows := rows db;
     links := if present then links db else links db ++ [l];
     oplog := (if present then oplog db else oplog db ++ [OpLinkAdd l])
              ++ [OpUpdate e] |}.

(** How deeply lists and dictionaries are nested in a value. *)
Fixpoint height (v : pyval) : nat :=
  match v with
  | PList l =>
      S ((fix elements (l : list pyval) : nat :=
            match l with
            | [] => O
            | x :: l' => Nat.max (height x) (elements l')
            end) l)
  | PDict d =>
      S ((fix values (d : list (string * pyval)) : nat :=
            match d with
            | [] => O
            | (_, x) :: d' => Nat.max (height x) (values d')
            end) d)
  | _ => O
  end.

(** The text a form stores for a field from the submitted [data]: the value
    as text, or the empty text when none is given. *)
Definition cleaned_text (env : Env) (data : list (string * pyval))
    (name : string) : string :=
  if is_empty_value (assoc name data) then EmptyString
  else str_of env (default PNone (assoc name data)).

(** A computation that raises no [TypeError], whatever the store. *)
Definition no_TypeError {A : Type} (c : M A) : Prop :=
  forall db e db', c db = (Raise e, db') -> is_TypeError e = false.

(** Django reserves the name [pk]: no model declares a field of that name. *)
Definition pk_reserved (env : Env) : Prop :=
  forall model, ~ In "pk" (field_names env model).



End Vocabulary.

Module RegistryVocabulary.
Import RESTAPI.

(** The identities of a class and of all the classes it inherits from. *)
Fixpoint ancestry (M : Model) : list string :=
  match M with
  | Class i _ bs =>
      i :: (fix all (bs : list Model) : list string :=
              match bs with
              | [] => []
              | B :: bs' => ancestry B ++ all bs'
              end) bs
  end.

(** A registry as a program makes it: the empty one, then calls of
    [register]. *)
Inductive built : Registry -> Prop :=
| built_empty : built empty_registry
| built_register (reg : Registry) (M : Model) (V : View) (name : option string) :
    built reg -> built (register reg M V name).

(** Every character of a string passes the test. *)
Fixpoint string_forall (p : ascii -> bool) (s : string) : bool :=
  match s with
  | EmptyString => true
  | String c s' => p c && string_forall p s'
  end.

(** A character a URL prefix made by [register] can hold: no space and no
    upper-case ASCII letter. *)
Definition url_safe (c : ascii) : bool :=
  negb (Ascii.eqb c " "%char)
  && negb (Nat.leb 65 (nat_of_ascii c) && Nat.leb (nat_of_ascii c) 90).

End RegistryVocabulary.

(** ** Part V: the registry resolves through the bases *)

Section RegistryFacts.
Import RESTAPI.

Lemma get_view_by_model_unfold (reg : Registry) (M : Model) :
  get_view_by_model reg M =
  match view_by_model reg !! cls_id M with
  | Some v => v
  | None => first_base (get_view_by_model reg) (bases M)
  end.
Proof.
  destruct M as [i n bs]; simpl.
  destruct (view_by_model reg !! i); [reflexivity|].
  induction bs as [|B bs IH]; simpl; [reflexivity|].
  destruct (get_view_by_model reg B); [reflexivity|exact IH].
Qed.

Lemma first_base_skip {A} (lookup : Model -> option A)
    (pre : list Model) (rest : list Model) :
  Forall (fun B => lookup B = None) pre ->
  first_base lookup (pre ++ rest) = first_base lookup rest.
Proof.
  induction 1 as [|B pre HB _ IH]; simpl; [reflexivity|].
  rewrite HB. exact IH.
Qed.

Lemma first_base_none {A} (lookup : Model -> option A) (bs : list Model) :
  Forall (fun B => lookup B = None) bs -> first_base lookup bs = None.
Proof.
  intros H. rewrite <- (app_nil_r bs). rewrite first_base_skip by exact H.
  reflexivity.
Qed.

Lemma get_view_by_model_register_same (reg : Registry) (M : Model)
    (V : View) (name : option string) :
  get_view_by_model (register reg M V name) M = Some V.
Proof.
  rewrite get_view_by_model_unfold. simpl.
  rewrite lookup_insert_eq. reflexivity.
Qed.

(** C5, as stated, fails under multiple inheritance: [M] has no registration
    of its own and inherits from [B], which resolves to ["BView"], yet
    [M] resolves to the view of the earlier base [A]. *)
Lemma get_view_by_model_second_base_differs :
  view_by_model sample_registry !! cls_id cls_M = None /\
  In cls_B (bases cls_M) /\
  get_view_by_model sample_registry cls_B = Some "BView" /\
  get_view_by_model sample_registry cls_M = Some "AView" /\
  get_view_by_model sample_registry cls_M <>
  get_view_by_model sample_registry cls_B.
Proof.
  repeat split; try (vm_compute; reflexivity).
  - simpl. right. left. reflexivity.
  - vm_compute. discriminate.
Qed.

(** C5 (amended): lookup is exact-match first; on a miss the bases are tried
    in declaration order and the first base [B] that resolves decides, so
    [resolve M = resolve B] for that base; and the result is absent when no
    base resolves. *)
Theorem get_view_by_model_inherits (reg : Registry) (M : Model) :
  (forall v, view_by_model reg !! cls_id M = Some v ->
             get_view_by_model reg M = v) /\
  (view_by_model reg !! cls_id M = None ->
     (forall pre B post D,
        bases M = pre ++ B :: post ->
        Forall (fun A => get_view_by_model reg A = None) pre ->
        get_view_by_model reg B = Some D ->
        get_view_by_model reg M = get_view_by_model reg B) /\
     (Forall (fun A => get_view_by_model reg A = None) (bases M) ->
      get_view_by_model reg M = None)).
Proof.
  split.
  - intros v Hv. rewrite get_view_by_model_unfold, Hv. reflexivity.
  - intros Hmiss. split.
    + intros pre B post D Hbs Hpre HB.
      rewrite get_view_by_model_unfold, Hmiss, Hbs.
      rewrite first_base_skip by exact Hpre.
      simpl. rewrite HB. reflexivity.
    + intros Hall.
      rewrite get_view_by_model_unfold, Hmiss.
      apply first_base_none. exact Hall.
Qed.

Lemma get_view_by_model_inherits_witness :
  get_view_by_model sample_registry cls_M =
  get_view_by_model sample_registry cls_A.
Proof.
  refine (proj1 (proj2 (get_view_by_model_inherits sample_registry cls_M) _)
            [] cls_A [cls_B] "AView" _ _ _).
  - vm_compute. reflexivity.
  - reflexivity.
  - constructor.
  - vm_compute. reflexivity.
Defined.


End RegistryFacts.

(** ** Part VI: the dispatcher *)

Section DispatcherFacts.
Import RESTView Sample Vocabulary.

(** *** Computations that only read the store *)

Lemma readonly_ret {A} (a : A) : readonly (ret a).
Proof. intros db. reflexivity. Qed.

Lemma readonly_raise {A} (e : exc) : readonly (@raise A e).
Proof. intros db. reflexivity. Qed.

Lemma readonly_lift {A} (r : result A) : readonly (lift r).
Proof. intros db. reflexivity. Qed.

Lemma readonly_get_db : readonly get_db.
Proof. intros db. reflexivity. Qed.

Lemma readonly_bind {A B} (c : M A) (k : A -> M B) :
  readonly c -> (forall a, readonly (k a)) -> readonly (bind c k).
Proof.
  intros Hc Hk db. unfold bind.
  specialize (Hc db). destruct (c db) as [[a|e] db']; simpl in *; subst.
  - apply Hk.
  - reflexivity.
Qed.

Lemma readonly_try_except {A} (c : M A) (caught : exc -> bool)
    (handler : exc -> M A) :
  readonly c -> (forall e, readonly (handler e)) ->
  readonly (try_except c caught handler).
Proof.
  intros Hc Hh db. unfold try_except.
  specialize (Hc db). destruct (c db) as [[a|e] db']; simpl in *; subst.
  - reflexivity.
  - destruct (caught e); [apply Hh|reflexivity].
Qed.

Lemma readonly_foldM {A B} (f : A -> B -> M A) (l : list B) :
  (forall a b, readonly (f a b)) -> forall a, readonly (foldM f l a).
Proof.
  intros Hf. induction l as [|b l IH]; intros a; simpl.
  - apply readonly_ret.
  - apply readonly_bind; [apply Hf|exact IH].
Qed.

Lemma readonly_run {A} (c : M A) (db : DB) (r : result A) :
  readonly c -> fst (c db) = r -> c db = (r, db).
Proof.
  intros Hc Hr. specialize (Hc db).
  destruct (c db) as [r' db']; simpl in *; subst. reflexivity.
Qed.

Create HintDb ro.
#[local] Hint Resolve readonly_ret readonly_raise readonly_lift readonly_get_db : ro.

Ltac ro :=
  repeat first
    [ solve [auto with ro]
    | apply readonly_bind; [|intros ?]
    | apply readonly_try_except; [|intros ?]
    | apply readonly_foldM; intros ? ?
    | match goal with
      | |- readonly (match ?x with _ => _ end) => destruct x
      | |- readonly (if ?x then _ else _) => destruct x
      end ].

Lemma readonly_objects (model : string) : readonly (objects model).
Proof. unfold objects. ro. Qed.
#[local] Hint Resolve readonly_objects : ro.

Lemma readonly_qs_filter (env : Env) (qs : QuerySet) (name : string) (v : pyval) :
  readonly (qs_filter env qs name v).
Proof. unfold qs_filter. ro. Qed.
#[local] Hint Resolve readonly_qs_filter : ro.

Lemma readonly_qs_get (qs : QuerySet) : readonly (qs_get qs).
Proof. unfold qs_get. ro. Qed.
#[local] Hint Resolve readonly_qs_get : ro.

Lemma readonly_qs_get_pk (env : Env) (qs : QuerySet) (x : obj) :
  readonly (qs_get_pk env qs x).
Proof. unfold qs_get_pk. ro. Qed.
#[local] Hint Resolve readonly_qs_get_pk : ro.

Lemma readonly_get_object_or_404 (env : Env) (model : string)
    (kwargs : list (string * pyval)) :
  readonly (get_object_or_404 env model kwargs).
Proof. unfold get_object_or_404. ro. Qed.
#[local] Hint Resolve readonly_get_object_or_404 : ro.

Lemma readonly_get_field (env : Env) (model name : string) :
  readonly (get_field env model name).
Proof. unfold get_field. ro. Qed.
#[local] Hint Resolve readonly_get_field : ro.

Lemma readonly_get_field_by_name (env : Env) (model name : string) :
  readonly (get_field_by_name env model name).
Proof. unfold get_field_by_name. ro. Qed.
#[local] Hint Resolve readonly_get_field_by_name : ro.

Lemma readonly_rel_to (field : FieldObject) : readonly (rel_to field).
Proof. unfold rel_to. ro. Qed.
#[local] Hint Resolve readonly_rel_to : ro.

Lemma readonly_get_model (self : RESTView) (request : Request) :
  readonly (get_model self request).
Proof. unfold get_model. ro. Qed.
#[local] Hint Resolve readonly_get_model : ro.

Lemma readonly_apply_filter (env : Env) (request : Request) (qs : QuerySet)
    (field value : string) :
  readonly (apply_filter env request qs field value).
Proof. unfold apply_filter. ro. Qed.
#[local] Hint Resolve readonly_apply_filter : ro.

Lemma readonly_filter_queryset (env : Env) (request : Request) (qs : QuerySet) :
  readonly (filter_queryset env request qs).
Proof. unfold filter_queryset. ro. Qed.
#[local] Hint Resolve readonly_filter_queryset : ro.

Lemma readonly_get_entity (env : Env) (self : RESTView) (request : Request)
    (x : obj) :
  readonly (get_entity env self request x).
Proof. unfold get_entity. ro. Qed.
#[local] Hint Resolve readonly_get_entity : ro.

Lemma readonly_get_linked_model (env : Env) (self : RESTView)
    (request : Request) (link : string) :
  readonly (get_linked_model env self request link).
Proof. unfold get_linked_model. ro. Qed.
#[local] Hint Resolve readonly_get_linked_model : ro.

Lemma readonly_meta_of (entity : obj) : readonly (meta_of entity).
Proof. unfold meta_of. ro. Qed.
#[local] Hint Resolve readonly_meta_of : ro.

Lemma readonly_related_manager (e : Entity) (link target : string) :
  readonly (related_manager e link target).
Proof. unfold related_manager. ro. Qed.
#[local] Hint Resolve readonly_related_manager : ro.

Lemma readonly_getattr_link (env : Env) (entity : obj) (link : string) :
  readonly (getattr_link env entity link).
Proof. unfold getattr_link. ro. Qed.
#[local] Hint Resolve readonly_getattr_link : ro.

Lemma readonly_get_linked_queryset (env : Env) (request : Request)
    (entity : obj) (link : string) :
  readonly (get_linked_queryset env request entity link).
Proof. unfold get_linked_queryset. ro. Qed.
#[local] Hint Resolve readonly_get_linked_queryset : ro.

Lemma readonly_get_linked_entity (env : Env) (self : RESTView)
    (request : Request) (x : obj) (link : string) (pk : string) :
  readonly (get_linked_entity env self request x link pk).
Proof. unfold get_linked_entity. ro. Qed.
#[local] Hint Resolve readonly_get_linked_entity : ro.

Lemma readonly_get_collection (env : Env) (self : RESTView) (request : Request) :
  readonly (get_collection env self request).
Proof. unfold get_collection. ro. Qed.
#[local] Hint Resolve readonly_get_collection : ro.

(** *** What the handlers answer on the sample application *)


(** C2 as stated fails: DELETE /7/tags/3 removes the link and answers 204;
    the same request again finds no tag 3 among the tags of widget 7 and
    leaves the handler as [Http404]. *)
Lemma delete_linked_entity_twice_is_404 :
  let env := sample_env false in
  let first := delete env WidgetView plain_request ["7"; "tags"; "3"] sample_db in
  let second := delete env WidgetView plain_request ["7"; "tags"; "3"] (snd first) in
  has_link sample_db widget7 "tags" 3 = true /\
  fst first = Ok (HttpResponse_status 204) /\
  fst second = Raise (Http404 None) /\
  status_of (fst second) = 404 /\
  fst (delete_linked_entity env WidgetView plain_request (Val (PStr "7")) "tags" "3"
         (snd first))
    = Raise (TypeError "There is no Tag instance with primary key: 3").
Proof. repeat split; vm_compute; reflexivity. Qed.

(** C4 as stated fails: with [can_get_entity] always false, GET /7/tags on
    the existing widget 7 goes on with the 403 response in the place of the
    entity and is answered with a 400, and GET /7?name=bar does not find
    widget 7, whose name is foo, in the filtered collection and is answered
    with a 400 as well. *)
Lemma locked_get_is_not_always_403 :
  In widget7 (rows sample_db) /\
  fst (get (sample_env true) LockedView plain_request ["7"; "tags"] sample_db)
    = Ok (HttpResponseBadRequest
            "'HttpResponseForbidden' object has no attribute '_meta'") /\
  status_of (fst (get (sample_env false) LockedView plain_request ["7"; "tags"]
                    sample_db)) = 400 /\
  status_of (fst (get (sample_env false) LockedView
                    (request_with [("name", "bar")]) ["7"] sample_db)) = 400.
Proof.
  split; [left; reflexivity|]. repeat split; vm_compute; reflexivity.
Qed.

(** *** Running a computation step by step *)

Lemma bind_ok {A B} (c : M A) (k : A -> M B) (db db' : DB) (a : A) :
  c db = (Ok a, db') -> bind c k db = k a db'.
Proof. intros H. unfold bind. rewrite H. reflexivity. Qed.

Lemma bind_raise {A B} (c : M A) (k : A -> M B) (db db' : DB) (e : exc) :
  c db = (Raise e, db') -> bind c k db = (Raise e, db').
Proof. intros H. unfold bind. rewrite H. reflexivity. Qed.

Lemma try_except_ok {A} (c : M A) caught handler (db db' : DB) (a : A) :
  c db = (Ok a, db') -> try_except c caught handler db = (Ok a, db').
Proof. intros H. unfold try_except. rewrite H. reflexivity. Qed.


Lemma get_model_run (self : RESTView) (request : Request)
    (gm : Request -> string) (db : DB) :
  get_model_impl self = Some gm ->
  get_model self request db = (Ok (gm request), db).
Proof. intros H. unfold get_model. rewrite H. reflexivity. Qed.

(** *** Querysets select rows of what they were made from *)

Lemma readonly_filtered_collection env request model :
  readonly (filtered_collection env request model).
Proof. unfold filtered_collection. ro. Qed.
#[local] Hint Resolve readonly_filtered_collection : ro.

Lemma filter_twice {A} (p q : A -> bool) (l : list A) :
  List.filter q (List.filter p l) = List.filter (fun x => p x && q x) l.
Proof.
  induction l as [|x l IH]; simpl; [reflexivity|].
  destruct (p x); simpl; [destruct (q x)|]; rewrite IH; reflexivity.
Qed.

Lemma filter_all {A} (l : list A) : List.filter (fun _ => true) l = l.
Proof. induction l as [|x l IH]; simpl; [|rewrite IH]; reflexivity. Qed.

Lemma selects_refl (qs : QuerySet) : selects qs qs.
Proof. split; [reflexivity|]. exists (fun _ => true). symmetry. apply filter_all. Qed.

Lemma selects_trans (a b c : QuerySet) : selects a b -> selects b c -> selects a c.
Proof.
  intros [Hm1 [p Hp]] [Hm2 [q Hq]]. split; [congruence|].
  exists (fun x => q x && p x). rewrite Hp, Hq. apply filter_twice.
Qed.

Lemma qs_filter_selects env qs name v db qs' db' :
  qs_filter env qs name v db = (Ok qs', db') -> selects qs' qs.
Proof.
  unfold qs_filter. destruct (lookup_kind _ _ _) as [kind|]; [|discriminate].
  unfold bind, get_db, lift, ret.
  destruct (match kind with
            | AutoField => int_of v
            | CharField => Ok None
            | _ => ref_key v
            end) as [key|e]; [|discriminate].
  intros H. inversion H; subst. split; [reflexivity|]. simpl. eauto.
Qed.

Lemma apply_filter_selects env request qs field value db qs' db' :
  apply_filter env request qs field value db = (Ok qs', db') -> selects qs' qs.
Proof.
  unfold apply_filter, bind.
  destruct (get_field env (qs_model qs) field db) as [[f|e] db1]; [|discriminate].
  destruct (rel f).
  - destruct (get_object_or_404 _ _ _ db1) as [[r|e] db2]; [|discriminate].
    apply qs_filter_selects.
  - apply qs_filter_selects.
Qed.

Lemma filter_queryset_selects env request qs db qs' db' :
  filter_queryset env request qs db = (Ok qs', db') -> selects qs' qs.
Proof.
  unfold filter_queryset. generalize (get_all_field_names env (qs_model qs)).
  intros names. revert qs db. induction (GET request) as [|[f v] l IH];
    intros qs db; simpl.
  - unfold ret. intros H. inversion H; subst. apply selects_refl.
  - unfold bind at 1.
    destruct (existsb (String.eqb f) names).
    + destruct (apply_filter env request qs f v db) as [[q|e] db1] eqn:E;
        [|discriminate].
      intros H. apply IH in H. apply apply_filter_selects in E.
      eapply selects_trans; eassumption.
    + unfold ret. apply IH.
Qed.

(** *** Primary keys are unique in storage *)

Lemma entity_eqb_key (a b : Entity) : entity_eqb a b = true <-> key a = key b.
Proof.
  unfold entity_eqb, key. rewrite andb_true_iff, String.eqb_eq, Z.eqb_eq.
  split; [intros [-> ->]; reflexivity|intros H; inversion H; auto].
Qed.

Lemma unique_keys_filter (p : Entity -> bool) (l : list Entity) :
  unique_keys l -> unique_keys (List.filter p l).
Proof.
  unfold unique_keys. induction l as [|x l IH]; simpl; intros H; [exact H|].
  inversion H as [|? ? Hx Hl]; subst. destruct (p x); simpl.
  - constructor; [|apply IH; exact Hl].
    intros Hin. apply Hx. apply in_map_iff in Hin as [y [Hy Hin]].
    apply in_map_iff. exists y. split; [exact Hy|].
    apply filter_In in Hin. apply Hin.
  - apply IH; exact Hl.
Qed.

Lemma py_set_unique (l : list Entity) : unique_keys l -> py_set l = l.
Proof.
  unfold unique_keys. induction l as [|x l IH]; simpl; intros H; [reflexivity|].
  inversion H as [|? ? Hx Hl]; subst.
  destruct (existsb (entity_eqb x) l) eqn:E.
  - exfalso. apply existsb_exists in E as [y [Hin Hy]].
    apply entity_eqb_key in Hy. apply Hx. rewrite Hy.
    apply in_map. exact Hin.
  - rewrite IH by exact Hl. reflexivity.
Qed.


(** *** C10: the listing *)



(** *** C6: filtering *)

Lemma find_field_some env model name f :
  find_field env model name = Some f ->
  f_name f = name /\ In name (field_names env model).
Proof.
  unfold find_field, field_names. intros H.
  apply find_some in H as [Hin Heq]. apply String.eqb_eq in Heq.
  split; [exact Heq|]. rewrite <- Heq. apply in_map. exact Hin.
Qed.




Lemma lookup_kind_field env model name f :
  name <> "pk" -> find_field env model name = Some f ->
  lookup_kind env model name = Some (f_kind f).
Proof.
  intros Hpk Hf. unfold lookup_kind.
  destruct (String.eqb name "pk") eqn:E.
  - apply String.eqb_eq in E. contradiction.
  - rewrite Hf. reflexivity.
Qed.

(** A lookup by key, run. *)
Lemma qs_filter_pk env qs s k db :
  parse_int s = Some k ->
  qs_filter env qs "pk" (PStr s) db =
  (Ok (with_rows qs (List.filter (pk_equals k) (qs_rows qs))), db).
Proof.
  intros Hk. unfold qs_filter, lookup_kind. simpl.
  unfold bind, get_db, lift, ret. simpl. rewrite Hk. reflexivity.
Qed.








(** Filtering by a reference, on the sample application: the owner of
    widget 8 is user 1, and widget 7 carries tag 3. *)
Lemma filter_queryset_by_reference_sample :
  let widgets := {| qs_model := "Widget"; qs_rows := [widget7; widget8];
                    qs_through := None |} in
  fst (filter_queryset (sample_env false) (request_with [("owner", "1")]) widgets
         sample_db) = Ok (with_rows widgets [widget8]) /\
  fst (filter_queryset (sample_env false) (request_with [("tags", "3")]) widgets
         sample_db) = Ok (with_rows widgets [widget7]) /\
  fst (filter_queryset (sample_env false) (request_with [("id", "8")]) widgets
         sample_db) = Ok (with_rows widgets [widget8]).
Proof. repeat split; vm_compute; reflexivity. Qed.

(** *** Resolving an entity *)

Lemma get_entity_by_pk env self request gm a0 db qs e :
  get_model_impl self = Some gm ->
  fst (filtered_collection env request (gm request) db) = Ok qs ->
  fst (qs_get_pk env qs (Val (PStr a0)) db) = Ok e ->
  get_entity env self request (Val (PStr a0)) db =
  (Ok (if can_get_entity self request (Val (PEntity e))
       then Val (PEntity e) else Resp HttpResponseForbidden), db).
Proof.
  intros Hgm Hqs He.
  apply (readonly_run _ db _ (readonly_filtered_collection _ _ _)) in Hqs.
  apply (readonly_run _ db _ (readonly_qs_get_pk _ _ _)) in He.
  unfold get_entity.
  rewrite (bind_ok _ _ _ _ _ (get_model_run _ request _ db Hgm)).
  simpl isinstance. cbv iota.
  unfold bind at 1.
  assert (Hin : (let* model := get_model self request in
                 let* base_queryset := objects model in
                 let* queryset := filter_queryset env request base_queryset in
                 try_except
                   (let* e0 := qs_get_pk env queryset (Val (PStr a0)) in
                    ret (Val (PEntity e0)))
                   (fun e0 => is_DoesNotExist e0 || is_ValueError e0)
                   (fun _ => raise (NameError "global name 'instance_pk' is not defined")))
                db = (Ok (Val (PEntity e)), db)).
  { rewrite (bind_ok _ _ _ _ _ (get_model_run _ request _ db Hgm)).
    unfold filtered_collection in Hqs. unfold bind in Hqs |- *.
    destruct (objects (gm request) db) as [[b|x] db1]; [|discriminate].
    destruct (filter_queryset env request b db1) as [[q|x] db2]; [|discriminate].
    inversion Hqs; subst. unfold try_except. rewrite He. reflexivity. }
  rewrite Hin. destruct (can_get_entity _ _ _); reflexivity.
Qed.

Lemma get_entity_instance env self request gm e db :
  get_model_impl self = Some gm ->
  e_model e = gm request ->
  get_entity env self request (Val (PEntity e)) db =
  (Ok (if can_get_entity self request (Val (PEntity e))
       then Val (PEntity e) else Resp HttpResponseForbidden), db).
Proof.
  intros Hgm He. unfold get_entity.
  rewrite (bind_ok _ _ _ _ _ (get_model_run _ request _ db Hgm)).
  simpl isinstance. rewrite He, String.eqb_refl.
  unfold bind, ret. destruct (can_get_entity _ _ _); reflexivity.
Qed.

Lemma qs_get_row qs db e :
  fst (qs_get qs db) = Ok e -> In e (qs_rows qs).
Proof.
  unfold qs_get. destruct (qs_rows qs) as [|x [|y l]]; simpl; try discriminate.
  intros H. inversion H. left. reflexivity.
Qed.

Lemma qs_get_pk_row env qs x db e :
  fst (qs_get_pk env qs x db) = Ok e -> In e (qs_rows qs).
Proof.
  unfold qs_get_pk, bind.
  destruct (match x with
            | Val v => qs_filter env qs "pk" v
            | Resp _ => raise (TypeError "int() argument must be a string or a number")
            end db) as [[q|ex] db1] eqn:E; [|discriminate].
  intros H. apply qs_get_row in H.
  destruct x as [v|r]; [|discriminate].
  apply qs_filter_selects in E as [_ [p Hp]]. rewrite Hp in H.
  apply filter_In in H. apply H.
Qed.

(** *** C4: the authorization short-circuit *)

(** C4 (amended): when [can_get_entity] always returns false, a GET of one
    segment whose key finds an entity in the filtered collection is answered
    with the 403 response that [get_entity] returns as a value: nothing is
    raised, storage is untouched, and the answer is neither 404 nor 200. *)
Theorem get_entity_forbidden (env : Env) (self : RESTView)
    (request : Request) (gm : Request -> string) (a0 : string) (db : DB)
    (qs : QuerySet) (e : Entity) :
  get_model_impl self = Some gm ->
  (forall x, can_get_entity self request x = false) ->
  fst (filtered_collection env request (gm request) db) = Ok qs ->
  fst (qs_get_pk env qs (Val (PStr a0)) db) = Ok e ->
  get_entity env self request (Val (PStr a0)) db
    = (Ok (Resp HttpResponseForbidden), db) /\
  get env self request [a0] db = (Ok HttpResponseForbidden, db) /\
  status_of (fst (get env self request [a0] db)) = 403.
Proof.
  intros Hgm Hcan Hqs He.
  pose proof (get_entity_by_pk env self request gm a0 db qs e Hgm Hqs He) as H.
  rewrite Hcan in H.
  assert (Hget : get env self request [a0] db = (Ok HttpResponseForbidden, db)).
  { unfold get, except_clauses, try_except.
    rewrite (bind_ok _ _ _ _ _ H). reflexivity. }
  split; [exact H|]. split; [exact Hget|]. rewrite Hget. reflexivity.
Qed.

Lemma get_entity_forbidden_witness :
  get_entity (sample_env false) LockedView plain_request (Val (PStr "7")) sample_db
    = (Ok (Resp HttpResponseForbidden), sample_db) /\
  get (sample_env false) LockedView plain_request ["7"] sample_db
    = (Ok HttpResponseForbidden, sample_db) /\
  status_of (fst (get (sample_env false) LockedView plain_request ["7"] sample_db))
    = 403.
Proof.
  refine (get_entity_forbidden (sample_env false) LockedView plain_request
            (fun _ => "Widget") "7" sample_db
            {| qs_model := "Widget"; qs_rows := [widget7; widget8];
               qs_through := None |} widget7 _ _ _ _).
  - reflexivity.
  - intros x. reflexivity.
  - vm_compute. reflexivity.
  - vm_compute. reflexivity.
Defined.

(** *** Requests without query parameters *)

Lemma filter_queryset_plain env request qs db :
  GET request = [] -> filter_queryset env request qs db = (Ok qs, db).
Proof. intros H. unfold filter_queryset. rewrite H. reflexivity. Qed.

Lemma qs_get_pk_run env qs a k db :
  parse_int a = Some k ->
  qs_get_pk env qs (Val (PStr a)) db =
  qs_get (with_rows qs (List.filter (pk_equals k) (qs_rows qs))) db.
Proof.
  intros Hk. unfold qs_get_pk.
  rewrite (bind_ok _ _ _ _ _ (qs_filter_pk env qs a k db Hk)). reflexivity.
Qed.

Lemma rows_with_pk_model db model k e :
  In e (rows_with_pk db model k) -> e_model e = model /\ e_pk e = k.
Proof.
  unfold rows_with_pk, pk_equals. rewrite !filter_In.
  intros [[_ Hm] Hk]. apply String.eqb_eq in Hm. apply Z.eqb_eq in Hk. auto.
Qed.

Lemma get_entity_plain env self request gm a0 k e db :
  GET request = [] ->
  get_model_impl self = Some gm ->
  parse_int a0 = Some k ->
  rows_with_pk db (gm request) k = [e] ->
  get_entity env self request (Val (PStr a0)) db =
  (Ok (if can_get_entity self request (Val (PEntity e))
       then Val (PEntity e) else Resp HttpResponseForbidden), db).
Proof.
  intros HG Hgm Hk Hrows.
  eapply get_entity_by_pk with
    (qs := {| qs_model := gm request;
              qs_rows := List.filter (fun r => String.eqb (e_model r) (gm request))
                           (rows db);
              qs_through := None |}); [exact Hgm| |].
  - unfold filtered_collection, objects, bind, get_db, ret. simpl.
    rewrite filter_queryset_plain by exact HG. reflexivity.
  - rewrite (qs_get_pk_run _ _ _ _ _ Hk). unfold qs_get. simpl.
    unfold rows_with_pk in Hrows. rewrite Hrows. reflexivity.
Qed.

(** A field of the model is what the name map holds under its name. *)
Lemma get_field_by_name_field env model name f db :
  find_field env model name = Some f ->
  get_field_by_name env model name db = (Ok (AField f, is_m2m f), db).
Proof.
  intros Hf. unfold get_field_by_name, name_map. rewrite Hf. reflexivity.
Qed.

Lemma get_linked_queryset_run env request e link f target db :
  find_field env (e_model e) link = Some f ->
  f_kind f = ManyToManyField target ->
  get_linked_queryset env request (Val (PEntity e)) link db =
  (Ok {| qs_model := target; qs_rows := linked_rows db e link target;
         qs_through := Some (e, link) |}, db).
Proof.
  intros Hf Hk.
  unfold get_linked_queryset, try_except, bind, meta_of, ret.
  rewrite (get_field_by_name_field env (e_model e) link f db Hf).
  unfold is_m2m, getattr_link. simpl. rewrite Hk. simpl.
  rewrite Hf. simpl. rewrite Hk. reflexivity.
Qed.

Lemma get_linked_entity_run env self request gm e link f target a2 k2 db :
  GET request = [] ->
  get_model_impl self = Some gm ->
  e_model e = gm request ->
  can_get_entity self request (Val (PEntity e)) = true ->
  find_field env (e_model e) link = Some f ->
  f_kind f = ManyToManyField target ->
  parse_int a2 = Some k2 ->
  get_linked_entity env self request (Val (PEntity e)) link a2 db =
  match List.filter (pk_equals k2) (linked_rows db e link target) with
  | [] =>
      (Raise (TypeError ("There is no " +++ target
                         +++ " instance with primary key: " +++ a2)), db)
  | [le] =>
      (Ok (if can_get_linked_entity self request (Val (PEntity e)) link
                (Val (PEntity le))
           then Val (PEntity le) else Resp HttpResponseForbidden), db)
  | _ :: _ :: _ =>
      (Raise (MultipleObjectsReturned ("get() returned more than one " +++ target)),
       db)
  end.
Proof.
  intros HG Hgm Hm Hcan Hf Hk Hk2. unfold get_linked_entity.
  rewrite (bind_ok _ _ _ _ _ (get_entity_instance env self request gm e db Hgm Hm)).
  rewrite Hcan.
  rewrite (bind_ok _ _ _ _ _ (get_linked_queryset_run env request e link f target db Hf Hk)).
  rewrite (bind_ok _ _ _ _ _ (filter_queryset_plain env request _ db HG)).
  unfold bind, try_except. rewrite (qs_get_pk_run _ _ _ _ _ Hk2).
  unfold qs_get. simpl.
  destruct (List.filter (pk_equals k2) (linked_rows db e link target))
    as [|le [|le' rest]]; simpl; try reflexivity.
  unfold ret. destruct (can_get_linked_entity _ _ _ _ _); reflexivity.
Qed.

(** *** Removing a link *)

Lemma link_eqb_refl (l : Link) : link_eqb l l = true.
Proof.
  unfold link_eqb. rewrite !String.eqb_refl, !Z.eqb_refl. reflexivity.
Qed.

Lemma removed_link_is_gone (l : Link) (ls : list Link) :
  existsb (link_eqb l) (List.filter (fun l' => negb (link_eqb l l')) ls) = false.
Proof.
  induction ls as [|x ls IH]; simpl; [reflexivity|].
  destruct (link_eqb l x) eqn:E; simpl; [exact IH|].
  rewrite E. exact IH.
Qed.

Lemma filter_nothing {A} (p : A -> bool) (l : list A) :
  (forall x, In x l -> p x = false) -> List.filter p l = [].
Proof.
  induction l as [|x l IH]; simpl; intros H; [reflexivity|].
  rewrite (H x) by (left; reflexivity). apply IH. intros y Hy. apply H.
  right. exact Hy.
Qed.

Lemma no_linked_rows_after_removal db e link target le :
  List.filter (pk_equals (e_pk le))
    (linked_rows (without_link db e link le) e link target) = [].
Proof.
  apply filter_nothing. intros r Hr. unfold linked_rows in Hr.
  apply filter_In in Hr as [_ Hr]. apply andb_true_iff in Hr as [_ Hl].
  unfold pk_equals. destruct (Z.eqb (e_pk r) (e_pk le)) eqn:E; [|reflexivity].
  apply Z.eqb_eq in E. rewrite E in Hl.
  unfold has_link, without_link in Hl. simpl in Hl.
  rewrite removed_link_is_gone in Hl. discriminate.
Qed.

(** C2 (amended): when [le] is linked to [e] through [link], deleting the
    link removes that link row and nothing else, so both entities still
    exist and resolve; the identical call made again changes nothing in
    storage, but it does not complete: the linked entity is no longer found
    among the linked ones, [delete_linked_entity] raises the not-found
    [TypeError], and the handler turns it into [Http404]. *)
Theorem delete_linked_entity_then_again (env : Env) (self : RESTView)
    (request : Request) (gm : Request -> string) (a0 link a2 : string)
    (f : Field) (target : string) (e le : Entity) (db : DB) :
  GET request = [] ->
  get_model_impl self = Some gm ->
  parse_int a0 = Some (e_pk e) ->
  rows_with_pk db (gm request) (e_pk e) = [e] ->
  find_field env (gm request) link = Some f ->
  f_kind f = ManyToManyField target ->
  parse_int a2 = Some (e_pk le) ->
  List.filter (pk_equals (e_pk le)) (linked_rows db e link target) = [le] ->
  can_get_entity self request (Val (PEntity e)) = true ->
  can_get_linked_entity self request (Val (PEntity e)) link (Val (PEntity le)) = true ->
  can_delete_linked_entity self request (Val (PEntity e)) link (Val (PEntity le)) = true ->
  let db1 := without_link db e link le in
  let not_found := "There is no " +++ target
                   +++ " instance with primary key: " +++ a2 in
  delete_linked_entity env self request (Val (PStr a0)) link a2 db
    = (Ok (Val PNone), db1) /\
  delete env self request [a0; link; a2] db = (Ok (HttpResponse_status 204), db1) /\
  rows db1 = rows db /\
  has_link db1 e link (e_pk le) = false /\
  get_entity env self request (Val (PStr a0)) db1 = (Ok (Val (PEntity e)), db1) /\
  In le (rows_with_pk db1 target (e_pk le)) /\
  delete_linked_entity env self request (Val (PStr a0)) link a2 db1
    = (Raise (TypeError not_found), db1) /\
  delete env self request [a0; link; a2] db1
    = (Raise (Http404 (if DEBUG env then Some not_found else None)), db1).
Proof.
  intros HG Hgm Hk Hrows Hf Hkind Hk2 Hlinked Hcan Hcanl Hcand db1 not_found.
  assert (Hm : e_model e = gm request).
  { apply (rows_with_pk_model db (gm request) (e_pk e) e).
    rewrite Hrows. left. reflexivity. }
  assert (Hf' : find_field env (e_model e) link = Some f) by (rewrite Hm; exact Hf).
  assert (Hent : forall d, rows d = rows db ->
            get_entity env self request (Val (PStr a0)) d = (Ok (Val (PEntity e)), d)).
  { intros d Hd.
    rewrite (get_entity_plain env self request gm a0 (e_pk e) e d HG Hgm Hk).
    - rewrite Hcan. reflexivity.
    - unfold rows_with_pk in *. rewrite Hd. exact Hrows. }
  assert (Hfirst : delete_linked_entity env self request (Val (PStr a0)) link a2 db
                   = (Ok (Val PNone), db1)).
  { unfold delete_linked_entity.
    rewrite (bind_ok _ _ _ _ _ (Hent db eq_refl)).
    rewrite (bind_ok _ _ db db (Val (PEntity le))).
    - rewrite Hcand. change (negb true) with false. cbv iota.
      rewrite (bind_ok _ _ _ _ _ (get_linked_queryset_run env request e link f target db Hf' Hkind)).
      reflexivity.
    - rewrite (get_linked_entity_run env self request gm e link f target a2 (e_pk le) db
                 HG Hgm Hm Hcan Hf' Hkind Hk2).
      rewrite Hlinked, Hcanl. reflexivity. }
  assert (Hsecond : delete_linked_entity env self request (Val (PStr a0)) link a2 db1
                    = (Raise (TypeError not_found), db1)).
  { unfold delete_linked_entity.
    rewrite (bind_ok _ _ _ _ _ (Hent db1 eq_refl)).
    apply bind_raise.
    rewrite (get_linked_entity_run env self request gm e link f target a2 (e_pk le) db1
               HG Hgm Hm Hcan Hf' Hkind Hk2).
    unfold db1. rewrite no_linked_rows_after_removal. reflexivity. }
  repeat split.
  - exact Hfirst.
  - unfold delete, except_clauses, try_except.
    rewrite (bind_ok _ _ _ _ _ Hfirst). reflexivity.
  - unfold has_link, db1, without_link. simpl. apply removed_link_is_gone.
  - apply Hent. reflexivity.
  - assert (Hin : In le (List.filter (pk_equals (e_pk le)) (linked_rows db e link target)))
      by (rewrite Hlinked; left; reflexivity).
    unfold rows_with_pk, linked_rows in *. simpl.
    rewrite !filter_In in *. destruct Hin as [[Hr Ht] Hp].
    apply andb_true_iff in Ht as [Ht _]. auto.
  - exact Hsecond.
  - unfold delete, except_clauses, try_except.
    rewrite (bind_raise _ _ _ _ _ Hsecond). simpl.
    destruct (DEBUG env); reflexivity.
Qed.

Lemma delete_linked_entity_then_again_witness :
  let db1 := without_link sample_db widget7 "tags" tag3 in
  delete (sample_env false) WidgetView plain_request ["7"; "tags"; "3"] sample_db
    = (Ok (HttpResponse_status 204), db1) /\
  rows db1 = rows sample_db /\
  delete (sample_env false) WidgetView plain_request ["7"; "tags"; "3"] db1
    = (Raise (Http404 None), db1).
Proof.
  pose proof (delete_linked_entity_then_again (sample_env false) WidgetView
                plain_request (fun _ => "Widget") "7" "tags" "3"
                (field "tags" (ManyToManyField "Tag")) "Tag" widget7 tag3
                sample_db eq_refl eq_refl eq_refl eq_refl eq_refl eq_refl
                eq_refl eq_refl eq_refl eq_refl eq_refl)
    as [_ [H1 [H2 [_ [_ [_ [_ H3]]]]]]].
  simpl in H3. auto.
Defined.

(** *** C8: which attributes may be called *)

(** An entity that [get_entity] returns is an instance of the view's
    model. *)
Lemma get_entity_model env self request gm x db e db' :
  get_model_impl self = Some gm ->
  get_entity env self request x db = (Ok (Val (PEntity e)), db') ->
  e_model e = gm request.
Proof.
  intros Hgm. unfold get_entity.
  rewrite (bind_ok _ _ _ _ _ (get_model_run _ request _ db Hgm)).
  unfold bind at 1.
  destruct ((if isinstance x (gm request) then ret x else _) db)
    as [[entity|ex] db2] eqn:E; [|discriminate].
  assert (Hent : forall e', entity = Val (PEntity e') -> e_model e' = gm request).
  { destruct (isinstance x (gm request)) eqn:I.
    - unfold ret in E. inversion E; subst. intros e' ->. simpl in I.
      apply String.eqb_eq. exact I.
    - rewrite (bind_ok _ _ _ _ _ (get_model_run _ request _ db Hgm)) in E.
      unfold bind at 1 in E. unfold objects at 1, bind, get_db, ret in E.
      destruct (filter_queryset env request _ db) as [[q|ex] d3] eqn:F;
        [|discriminate].
      unfold try_except in E.
      destruct (qs_get_pk env q x d3) as [[r|ex] d4] eqn:G.
      + inversion E; subst. intros e' He'. inversion He'; subst e'.
        assert (Hr : In r (qs_rows q)).
        { apply (qs_get_pk_row env q x d3). rewrite G. reflexivity. }
        apply filter_queryset_selects in F as [_ [p Hp]]. simpl in Hp.
        rewrite Hp in Hr. apply filter_In in Hr as [Hr _].
        apply filter_In in Hr as [_ Hr]. apply String.eqb_eq. exact Hr.
      + destruct (is_DoesNotExist ex || is_ValueError ex); discriminate. }
  destruct (can_get_entity self request entity); unfold ret; intros H;
    inversion H; subst. apply Hent. reflexivity.
Qed.

(** C8 as stated fails: [total] is a class method of [Widget], not an
    instance method, and reached through widget 7 it is bound, to the class,
    so that [call_entity_method] calls it and POST /7/total is answered with
    what it returns. *)
Lemma call_entity_method_calls_class_method :
  let env := sample_env false in
  let request := request_body PNone in
  assoc "total" (m_members (models env "Widget")) = Some (ClassMethod total) /\
  getattr_obj env (Val (PEntity widget7)) "total"
    = Some (AMethod (Some (SelfClass "Widget")) (total "Widget")) /\
  call_entity_method env WidgetView request (Val (PStr "7")) "total" PNone sample_db
    = (Ok (Val (PInt 2)), sample_db) /\
  post env WidgetView request ["7"; "total"] sample_db
    = (Ok {| status := 200; content := JsonDumps (PInt 2);
             content_type := "application/json" |}, sample_db).
Proof. repeat split; vm_compute; reflexivity. Qed.

(** C8 (amended): [call_collection_method] looks the name up on the model
    class and calls it with [(request, data)] when it is a static method or
    a method bound to the class; an unbound instance method and a name that
    is not callable are refused with a [TypeError], and no other attribute
    is called.  [call_entity_method] looks the name up on the resolved
    entity and calls it when it is a bound method: an instance method of the
    entity is one, and so is a class method, which is bound to the class; a
    static method, an unbound method and a name that is not callable are
    refused with a [TypeError]. *)
Theorem call_method_binding (env : Env) (self : RESTView) (request : Request)
    (gm : Request -> string) (method : string) (data : pyval) (db : DB) :
  get_model_impl self = Some gm ->
  let members := m_members (models env (gm request)) in
  let not_callable cls := "`" +++ cls +++ "." +++ method +++ "` is not a callable." in
  (forall f, assoc method members = Some (StaticMethod f) ->
     call_collection_method env self request method data db = f request data db) /\
  (forall f, assoc method members = Some (ClassMethod f) ->
     call_collection_method env self request method data db
       = f (gm request) request data db) /\
  (forall f, assoc method members = Some (InstanceMethod f) ->
     call_collection_method env self request method data db
       = (Raise (TypeError "Unbound methods are not allowed."), db)) /\
  (assoc method members = Some (Attribute true) ->
     call_collection_method env self request method data db
       = (Raise (AttributeError "object has no attribute 'im_self'"), db)) /\
  (assoc method members = Some (Attribute false) \/ assoc method members = None ->
     call_collection_method env self request method data db
       = (Raise (TypeError (not_callable (gm request))), db)) /\
  (forall x entity,
     fst (get_entity env self request x db) = Ok entity ->
     (forall s call, getattr_obj env entity method = Some (AMethod (Some s) call) ->
        call_entity_method env self request x method data db = call request data db) /\
     (forall call, getattr_obj env entity method = Some (AFunction call) ->
        call_entity_method env self request x method data db
          = (Raise (TypeError "Static methods are not allowed."), db)) /\
     (forall call, getattr_obj env entity method = Some (AMethod None call) ->
        call_entity_method env self request x method data db
          = (Raise (TypeError "Unbound methods are not allowed."), db)) /\
     (callable (getattr_obj env entity method) = false ->
        call_entity_method env self request x method data db
          = (Raise (TypeError (not_callable (class_name entity))), db))) /\
  (forall e, method <> "describe" -> e_model e = gm request ->
     (forall f, assoc method members = Some (InstanceMethod f) ->
        getattr_obj env (Val (PEntity e)) method
          = Some (AMethod (Some (SelfInstance e)) (f e))) /\
     (forall f, assoc method members = Some (ClassMethod f) ->
        getattr_obj env (Val (PEntity e)) method
          = Some (AMethod (Some (SelfClass (gm request))) (f (gm request)))) /\
     (forall f, assoc method members = Some (StaticMethod f) ->
        getattr_obj env (Val (PEntity e)) method = Some (AFunction f))) /\
  (forall x e,
     fst (get_entity env self request x db) = Ok (Val (PEntity e)) ->
     method <> "describe" ->
     (forall f, assoc method members = Some (InstanceMethod f) ->
        call_entity_method env self request x method data db
          = f e request data db) /\
     (forall f, assoc method members = Some (ClassMethod f) ->
        call_entity_method env self request x method data db
          = f (gm request) request data db) /\
     (forall f, assoc method members = Some (StaticMethod f) ->
        call_entity_method env self request x method data db
          = (Raise (TypeError "Static methods are not allowed."), db))).
Proof.
  intros Hgm members not_callable.
  assert (Hattr : forall e, method <> "describe" -> e_model e = gm request ->
            getattr_obj env (Val (PEntity e)) method =
            match assoc method members with
            | Some (StaticMethod f) => Some (AFunction f)
            | Some (ClassMethod f) =>
                Some (AMethod (Some (SelfClass (gm request))) (f (gm request)))
            | Some (InstanceMethod f) => Some (AMethod (Some (SelfInstance e)) (f e))
            | Some (Attribute c) => Some (AObject c)
            | None =>
                match find_field env (gm request) method with
                | Some _ => Some (AObject false)
                | None => None
                end
            end).
  { intros e Hd Hm. unfold getattr_obj.
    destruct (String.eqb method "describe") eqn:E;
      [apply String.eqb_eq in E; contradiction|].
    rewrite Hm. reflexivity. }
  repeat match goal with |- _ /\ _ => split end.
  - intros f Hf. unfold call_collection_method.
    rewrite (bind_ok _ _ _ _ _ (get_model_run _ request _ db Hgm)).
    unfold getattr_class. fold members. rewrite Hf. reflexivity.
  - intros f Hf. unfold call_collection_method.
    rewrite (bind_ok _ _ _ _ _ (get_model_run _ request _ db Hgm)).
    unfold getattr_class. fold members. rewrite Hf. reflexivity.
  - intros f Hf. unfold call_collection_method.
    rewrite (bind_ok _ _ _ _ _ (get_model_run _ request _ db Hgm)).
    unfold getattr_class. fold members. rewrite Hf. reflexivity.
  - intros Hf. unfold call_collection_method.
    rewrite (bind_ok _ _ _ _ _ (get_model_run _ request _ db Hgm)).
    unfold getattr_class. fold members. rewrite Hf. reflexivity.
  - intros Hf. unfold call_collection_method.
    rewrite (bind_ok _ _ _ _ _ (get_model_run _ request _ db Hgm)).
    unfold getattr_class. fold members. destruct Hf as [Hf|Hf]; rewrite Hf; reflexivity.
  - intros x entity Hent.
    apply (readonly_run _ db _ (readonly_get_entity _ _ _ _)) in Hent.
    repeat split.
    + intros s call Ha. unfold call_entity_method.
      rewrite (bind_ok _ _ _ _ _ Hent). rewrite Ha. reflexivity.
    + intros call Ha. unfold call_entity_method.
      rewrite (bind_ok _ _ _ _ _ Hent). rewrite Ha. reflexivity.
    + intros call Ha. unfold call_entity_method.
      rewrite (bind_ok _ _ _ _ _ Hent). rewrite Ha. reflexivity.
    + intros Ha. unfold call_entity_method.
      rewrite (bind_ok _ _ _ _ _ Hent). rewrite Ha. reflexivity.
  - intros e Hd Hm.
    repeat split; intros f Hf; rewrite (Hattr e Hd Hm), Hf; reflexivity.
  - intros x e Hent Hd.
    apply (readonly_run _ db _ (readonly_get_entity _ _ _ _)) in Hent.
    pose proof (get_entity_model env self request gm x db e db Hgm Hent) as Hm.
    repeat split; intros f Hf; unfold call_entity_method;
      rewrite (bind_ok _ _ _ _ _ Hent), (Hattr e Hd Hm), Hf; reflexivity.
Qed.

Lemma call_method_binding_witness :
  call_collection_method (sample_env false) WidgetView (request_body PNone)
    "count" PNone sample_db = (Ok (Val (PInt 1)), sample_db) /\
  call_collection_method (sample_env false) WidgetView (request_body PNone)
    "rename" PNone sample_db
    = (Raise (TypeError "Unbound methods are not allowed."), sample_db) /\
  call_entity_method (sample_env false) WidgetView (request_body PNone)
    (Val (PStr "7")) "rename" PNone sample_db
    = rename widget7 (request_body PNone) PNone sample_db /\
  call_entity_method (sample_env false) WidgetView (request_body PNone)
    (Val (PStr "7")) "count" PNone sample_db
    = (Raise (TypeError "Static methods are not allowed."), sample_db) /\
  call_entity_method (sample_env false) WidgetView (request_body PNone)
    (Val (PStr "7")) "total" PNone sample_db
    = total "Widget" (request_body PNone) PNone sample_db.
Proof.
  pose proof (call_method_binding (sample_env false) WidgetView
                (request_body PNone) (fun _ => "Widget") "count" PNone sample_db
                eq_refl) as [Hs [_ [_ [_ [_ [He _]]]]]].
  pose proof (call_method_binding (sample_env false) WidgetView
                (request_body PNone) (fun _ => "Widget") "rename" PNone sample_db
                eq_refl) as [_ [_ [Hi [_ [_ [He' _]]]]]].
  pose proof (call_method_binding (sample_env false) WidgetView
                (request_body PNone) (fun _ => "Widget") "total" PNone sample_db
                eq_refl) as [_ [_ [_ [_ [_ [_ [_ Hc]]]]]]].
  split; [apply (Hs count); reflexivity|].
  split; [apply (Hi rename); reflexivity|].
  split; [|split].
  - destruct (He' (Val (PStr "7")) (Val (PEntity widget7)) eq_refl) as [Hb _].
    apply (Hb (SelfInstance widget7) (rename widget7)). reflexivity.
  - destruct (He (Val (PStr "7")) (Val (PEntity widget7)) eq_refl) as [_ [Hf _]].
    apply (Hf count). reflexivity.
  - assert (Hd : "total" <> "describe") by discriminate.
    destruct (Hc (Val (PStr "7")) widget7 eq_refl Hd) as [_ [Hcls _]].
    apply (Hcls total). reflexivity.
Defined.

(** *** C7: linking an entity *)

Lemma get_linked_model_run env self request gm link f target db :
  get_model_impl self = Some gm ->
  find_field env (gm request) link = Some f ->
  f_kind f = ManyToManyField target ->
  get_linked_model env self request link db = (Ok target, db).
Proof.
  intros Hgm Hf Hk. unfold get_linked_model.
  rewrite (bind_ok _ _ _ _ _ (get_model_run _ request _ db Hgm)).
  unfold try_except, bind.
  rewrite (get_field_by_name_field env (gm request) link f db Hf).
  unfold is_m2m, rel_to, rel. simpl. rewrite Hk. reflexivity.
Qed.


Lemma unique_key_row (l : list Entity) (e r : Entity) :
  unique_keys l -> In e l -> In r l -> key e = key r -> e = r.
Proof.
  unfold unique_keys. induction l as [|x l IH]; simpl; [contradiction|].
  intros H He Hr Hk. inversion H as [|? ? Hx Hl]; subst.
  destruct He as [He|He], Hr as [Hr|Hr]; subst.
  - reflexivity.
  - exfalso. apply Hx. rewrite Hk. apply in_map. exact Hr.
  - exfalso. apply Hx. rewrite <- Hk. apply in_map. exact He.
  - apply IH; assumption.
Qed.

Lemma save_known_row (l : list Entity) (e : Entity) :
  unique_keys l -> In e l ->
  existsb (entity_eqb e) l = true /\
  map (fun r => if entity_eqb e r then e else r) l = l.
Proof.
  intros Hu He. split.
  - apply existsb_exists. exists e. split; [exact He|].
    apply entity_eqb_key. reflexivity.
  - rewrite <- (map_id l) at 2. apply map_ext_in. intros r Hr.
    destruct (entity_eqb e r) eqn:E; [|reflexivity].
    apply entity_eqb_key in E. apply (unique_key_row l e r Hu He Hr E).
Qed.

(** An entity found by key in the filtered collection is a row of its model. *)
Lemma resolved_is_stored env request model a0 db qs e :
  fst (filtered_collection env request model db) = Ok qs ->
  fst (qs_get_pk env qs (Val (PStr a0)) db) = Ok e ->
  In e (rows db) /\ e_model e = model.
Proof.
  intros Hqs He. apply qs_get_pk_row in He.
  unfold filtered_collection, objects, bind, get_db, ret in Hqs. simpl in Hqs.
  destruct (filter_queryset _ _ _ db) as [[q|ex] db1] eqn:E; [|discriminate].
  simpl in Hqs. inversion Hqs; subst q.
  apply filter_queryset_selects in E as [_ [p Hp]]. simpl in Hp.
  rewrite Hp in He. apply filter_In in He as [He _].
  apply filter_In in He as [He Hm]. apply String.eqb_eq in Hm. auto.
Qed.

Lemma kwargs_select env (d : list (string * pyval)) q0 db q db' :
  foldM (fun q kv => qs_filter env q (fst kv) (snd kv)) d q0 db = (Ok q, db') ->
  selects q q0.
Proof.
  revert q0 db. induction d as [|[k v] d IH]; intros q0 db H; simpl in H.
  - inversion H. apply selects_refl.
  - unfold bind in H.
    destruct (qs_filter env q0 k v db) as [[q1|ex] db1] eqn:F; [|discriminate].
    apply IH in H. apply qs_filter_selects in F.
    eapply selects_trans; eassumption.
Qed.

(** What [get_object_or_404] returns is a stored row of the model. *)
Lemma get_object_or_404_stored env model d db le :
  fst (get_object_or_404 env model d db) = Ok le ->
  In le (rows db) /\ e_model le = model.
Proof.
  unfold get_object_or_404, objects, bind, get_db, ret. simpl.
  destruct (foldM _ d _ db) as [[q|ex] db1] eqn:E; [|discriminate].
  unfold try_except.
  destruct (qs_get q db1) as [[x|ex] db2] eqn:G; simpl.
  - intros H. inversion H; subst.
    assert (Hx : In le (qs_rows q)).
    { apply (qs_get_row q db1). rewrite G. reflexivity. }
    apply kwargs_select in E as [_ [p Hp]]. simpl in Hp. rewrite Hp in Hx.
    apply filter_In in Hx as [Hx _]. apply filter_In in Hx as [Hx Hm].
    apply String.eqb_eq in Hm. auto.
  - destruct (is_DoesNotExist ex); discriminate.
Qed.

(** C7: [create_linked_entity] resolves the entity and the linked model,
    takes [data], which must be a dictionary, as the lookup of an existing
    linked entity and fails as that lookup fails, with [Http404] when no
    linked entity matches; it asks [can_create_linked_entity] before it
    writes, and answers with the 403 response, the store untouched, on a
    refusal; otherwise it adds the link and saves the owning entity, and
    makes no new row. *)
Theorem create_linked_entity_links_existing (env : Env) (self : RESTView)
    (request : Request) (gm : Request -> string) (a0 link : string)
    (f : Field) (target : string) (db : DB) (qs : QuerySet) (e : Entity) :
  get_model_impl self = Some gm ->
  unique_keys (rows db) ->
  fst (filtered_collection env request (gm request) db) = Ok qs ->
  fst (qs_get_pk env qs (Val (PStr a0)) db) = Ok e ->
  can_get_entity self request (Val (PEntity e)) = true ->
  find_field env (gm request) link = Some f ->
  f_kind f = ManyToManyField target ->
  let create := create_linked_entity env self request (Val (PStr a0)) link in
  (forall data, (forall d, data <> PDict d) ->
     create data db
       = (Raise (ValueError "POST data should contain dictionary"), db)) /\
  (forall d ex, fst (get_object_or_404 env target d db) = Raise ex ->
     create (PDict d) db = (Raise ex, db)) /\
  (forall d matching,
     fst (foldM (fun q kv => qs_filter env q (fst kv) (snd kv)) d
            {| qs_model := target;
               qs_rows := List.filter (fun r => String.eqb (e_model r) target) (rows db);
               qs_through := None |} db) = Ok matching ->
     qs_rows matching = [] ->
     create (PDict d) db
       = (Raise (Http404 (Some ("No " +++ target +++ " matches the given query."))),
          db)) /\
  (forall d le, fst (get_object_or_404 env target d db) = Ok le ->
     In le (rows db) /\
     (can_create_linked_entity self request (Val (PEntity e)) link (Val (PEntity le))
        = false ->
      create (PDict d) db = (Ok (Resp HttpResponseForbidden), db)) /\
     (can_create_linked_entity self request (Val (PEntity e)) link (Val (PEntity le))
        = true ->
      create (PDict d) db = (Ok (Val PNone), with_link db e link le) /\
      has_link (with_link db e link le) e link (e_pk le) = true)).
Proof.
  intros Hgm Hu Hqs He Hcan Hf Hk create.
  destruct (resolved_is_stored _ _ _ _ _ _ _ Hqs He) as [Hin Hm].
  pose proof (get_entity_by_pk env self request gm a0 db qs e Hgm Hqs He) as Hent.
  rewrite Hcan in Hent.
  assert (Hf' : find_field env (e_model e) link = Some f) by (rewrite Hm; exact Hf).
  assert (Hstart : forall data,
            create data db =
            match data with
            | PDict d =>
                (let* linked_entity := get_object_or_404 env target d in
                 if negb (can_create_linked_entity self request (Val (PEntity e)) link
                            (Val (PEntity linked_entity)))
                 then ret (Resp HttpResponseForbidden)
                 else
                   run qs_add {| qs_model := target;
                                 qs_rows := linked_rows db e link target;
                                 qs_through := Some (e, link) |} linked_entity in
                   run save e in ret (Val PNone)) db
            | _ => (Raise (ValueError "POST data should contain dictionary"), db)
            end).
  { intros data. unfold create, create_linked_entity.
    rewrite (bind_ok _ _ _ _ _ Hent).
    rewrite (bind_ok _ _ db db
               (target, {| qs_model := target;
                           qs_rows := linked_rows db e link target;
                           qs_through := Some (e, link) |})).
    - destruct data; reflexivity.
    - apply try_except_ok.
      rewrite (bind_ok _ _ _ _ _ (get_linked_model_run env self request gm link f target db Hgm Hf Hk)).
      rewrite (bind_ok _ _ _ _ _ (get_linked_queryset_run env request e link f target db Hf' Hk)).
      reflexivity. }
  repeat match goal with |- _ /\ _ => split end.
  - intros data Hd. rewrite Hstart. destruct data; try reflexivity.
    exfalso. apply (Hd d). reflexivity.
  - intros d ex Hex. rewrite Hstart.
    apply (readonly_run _ db _ (readonly_get_object_or_404 _ _ _)) in Hex.
    apply bind_raise. exact Hex.
  - intros d matching Hfold Hnone. rewrite Hstart. apply bind_raise.
    unfold get_object_or_404, objects, bind, get_db, ret. simpl.
    assert (Hro : readonly
              (foldM (fun q kv => qs_filter env q (fst kv) (snd kv)) d
                 {| qs_model := target;
                    qs_rows := List.filter (fun r => String.eqb (e_model r) target)
                                 (rows db);
                    qs_through := None |})) by ro.
    rewrite (readonly_run _ db _ Hro Hfold).
    unfold try_except, qs_get. rewrite Hnone. simpl.
    reflexivity.
  - intros d le Hle. split; [|split].
    + apply (get_object_or_404_stored env target d db le). exact Hle.
    + intros Hcc. rewrite Hstart.
      apply (readonly_run _ db _ (readonly_get_object_or_404 _ _ _)) in Hle.
      rewrite (bind_ok _ _ _ _ _ Hle). rewrite Hcc. reflexivity.
    + intros Hcc. split.
      * rewrite Hstart.
        apply (readonly_run _ db _ (readonly_get_object_or_404 _ _ _)) in Hle.
        rewrite (bind_ok _ _ _ _ _ Hle). rewrite Hcc.
        change (negb true) with false. cbv iota.
        destruct (save_known_row (rows db) e Hu Hin) as [Hex Hmap].
        unfold qs_add, save, with_link, bind, get_db, put_db, ret, log_op. simpl.
        destruct (has_link db e link (e_pk le)); simpl; rewrite Hex, Hmap;
          reflexivity.
      * unfold with_link, has_link. simpl.
        destruct (existsb (link_eqb (link_of e link (e_pk le))) (links db)) eqn:E;
          [exact E|].
        rewrite existsb_app. simpl. rewrite link_eqb_refl.
        rewrite orb_true_r. reflexivity.
Qed.

Lemma sample_db_unique_keys : unique_keys (rows sample_db).
Proof.
  unfold unique_keys. vm_compute.
  repeat constructor; simpl; intuition discriminate.
Qed.

Lemma create_linked_entity_links_existing_witness :
  create_linked_entity (sample_env false) WidgetView plain_request
    (Val (PStr "7")) "tags" (PDict [("label", PStr "blue")]) sample_db
  = (Ok (Val PNone), with_link sample_db widget7 "tags" tag4) /\
  create_linked_entity (sample_env false) WidgetView plain_request
    (Val (PStr "7")) "tags" (PDict [("label", PStr "green")]) sample_db
  = (Raise (Http404 (Some "No Tag matches the given query.")), sample_db).
Proof.
  pose proof (create_linked_entity_links_existing (sample_env false) WidgetView
                plain_request (fun _ => "Widget") "7" "tags"
                (field "tags" (ManyToManyField "Tag")) "Tag" sample_db
                {| qs_model := "Widget"; qs_rows := [widget7; widget8];
                   qs_through := None |} widget7
                eq_refl sample_db_unique_keys eq_refl eq_refl eq_refl eq_refl
                eq_refl)
    as [_ [_ [Hnone Hsome]]].
  split.
  - destruct (Hsome [("label", PStr "blue")] tag4 eq_refl) as [_ [_ Hadd]].
    apply Hadd. reflexivity.
  - apply (Hnone [("label", PStr "green")]
             {| qs_model := "Tag"; qs_rows := []; qs_through := None |});
      reflexivity.
Defined.

(** *** C1: POST with two segments *)



(** *** Computations that raise no [TypeError] *)

Lemma no_TypeError_ret {A} (a : A) : no_TypeError (ret a).
Proof. intros db e db' H. discriminate. Qed.

Lemma no_TypeError_raise {A} (e : exc) :
  is_TypeError e = false -> no_TypeError (@raise A e).
Proof. intros He db e' db' H. inversion H; subst. exact He. Qed.

Lemma no_TypeError_get_db : no_TypeError get_db.
Proof. intros db e db' H. discriminate. Qed.

Lemma no_TypeError_bind {A B} (c : M A) (k : A -> M B) :
  no_TypeError c -> (forall a, no_TypeError (k a)) -> no_TypeError (bind c k).
Proof.
  intros Hc Hk db e db'. unfold bind.
  destruct (c db) as [[a|ex] db1] eqn:E.
  - apply Hk.
  - intros H. inversion H; subst. apply (Hc _ _ _ E).
Qed.

Lemma no_TypeError_try_except {A} (c : M A) caught (handler : exc -> M A) :
  no_TypeError c -> (forall e, no_TypeError (handler e)) ->
  no_TypeError (try_except c caught handler).
Proof.
  intros Hc Hh db e db'. unfold try_except.
  destruct (c db) as [[a|ex] db1] eqn:E; [discriminate|].
  destruct (caught ex).
  - apply Hh.
  - intros H. inversion H; subst. apply (Hc _ _ _ E).
Qed.

Lemma no_TypeError_foldM {A B} (f : A -> B -> M A) (l : list B) :
  (forall a b, no_TypeError (f a b)) -> forall a, no_TypeError (foldM f l a).
Proof.
  intros Hf. induction l as [|b l IH]; intros a; simpl.
  - apply no_TypeError_ret.
  - apply no_TypeError_bind; [apply Hf|exact IH].
Qed.

Create HintDb nte.
#[local] Hint Resolve no_TypeError_ret no_TypeError_get_db : nte.

Ltac nte :=
  repeat first
    [ solve [auto with nte]
    | apply no_TypeError_raise; reflexivity
    | apply no_TypeError_bind; [|intros ?]
    | apply no_TypeError_try_except; [|intros ?]
    | apply no_TypeError_foldM; intros ? ?
    | match goal with
      | |- no_TypeError (match ?x with _ => _ end) => destruct x
      | |- no_TypeError (if ?x then _ else _) => destruct x
      end ].

(** A lookup value taken from the URL or the query string is text: making a
    key of it raises no [TypeError]. *)
Lemma no_TypeError_qs_filter_text env qs name txt :
  no_TypeError (qs_filter env qs name (PStr txt)).
Proof.
  unfold qs_filter.
  destruct (lookup_kind env (qs_model qs) name) as [kind|]; [|nte].
  apply no_TypeError_bind; [nte|intros d].
  apply no_TypeError_bind; [|intros k; nte].
  intros db e db'. unfold lift. intros H. inversion H as [[Hr Hd]].
  destruct kind; simpl in Hr; try discriminate;
    destruct (parse_int txt); inversion Hr; reflexivity.
Qed.

(** The reference of a filter is an instance, which stands for its key. *)
Lemma no_TypeError_qs_filter_reference env qs name f to r :
  pk_reserved env ->
  find_field env (qs_model qs) name = Some f ->
  rel f = Some to ->
  no_TypeError (qs_filter env qs name (PEntity r)).
Proof.
  intros Hpk Hf Hrel.
  assert (Hname : name <> "pk").
  { intros ->. apply find_field_some in Hf as [_ Hin]. apply (Hpk _ Hin). }
  unfold qs_filter. rewrite (lookup_kind_field _ _ _ _ Hname Hf).
  apply no_TypeError_bind; [nte|intros d].
  apply no_TypeError_bind; [|intros k; nte].
  intros db e db'. unfold lift. intros H. inversion H as [[Hr Hd]].
  unfold rel in Hrel. destruct (f_kind f); discriminate.
Qed.

Lemma no_TypeError_objects model : no_TypeError (objects model).
Proof. unfold objects. nte. Qed.
#[local] Hint Resolve no_TypeError_objects : nte.

Lemma no_TypeError_qs_get qs : no_TypeError (qs_get qs).
Proof. unfold qs_get. nte. Qed.
#[local] Hint Resolve no_TypeError_qs_get : nte.

Lemma no_TypeError_get_object_by_pk env model value :
  no_TypeError (get_object_or_404 env model [("pk", PStr value)]).
Proof.
  unfold get_object_or_404.
  apply no_TypeError_bind; [nte|intros qs].
  apply no_TypeError_bind; [|intros q; nte].
  simpl foldM. apply no_TypeError_bind; [|intros q; nte].
  apply no_TypeError_qs_filter_text.
Qed.
#[local] Hint Resolve no_TypeError_get_object_by_pk : nte.

Lemma no_TypeError_get_field env model name :
  no_TypeError (get_field env model name).
Proof. unfold get_field. nte. Qed.
#[local] Hint Resolve no_TypeError_get_field : nte.

Lemma no_TypeError_apply_filter env request qs field value :
  pk_reserved env ->
  no_TypeError (apply_filter env request qs field value).
Proof.
  intros Hpk. unfold apply_filter, get_field.
  destruct (find_field env (qs_model qs) field) as [f|] eqn:Hf; [|nte].
  assert (H : no_TypeError
                (match rel f with
                 | None => qs_filter env qs field (PStr value)
                 | Some to =>
                     let* reference :=
                       get_object_or_404 env to [("pk", PStr value)] in
                     qs_filter env qs field (PEntity reference)
                 end)).
  { destruct (rel f) as [to|] eqn:Hrel.
    - apply no_TypeError_bind; [nte|intros r].
      apply (no_TypeError_qs_filter_reference env qs field f to r Hpk Hf Hrel).
    - apply no_TypeError_qs_filter_text. }
  exact H.
Qed.

Lemma no_TypeError_filter_queryset env request qs :
  pk_reserved env ->
  no_TypeError (filter_queryset env request qs).
Proof.
  intros Hpk. unfold filter_queryset. apply no_TypeError_foldM. intros q fv.
  destruct (existsb _ _); [apply no_TypeError_apply_filter; exact Hpk|nte].
Qed.

Lemma no_TypeError_get_model self request : no_TypeError (get_model self request).
Proof. unfold get_model. nte. Qed.
#[local] Hint Resolve no_TypeError_get_model : nte.

Lemma no_TypeError_get_entity env self request a0 :
  pk_reserved env ->
  no_TypeError (get_entity env self request (Val (PStr a0))).
Proof.
  intros Hpk. unfold get_entity. simpl isinstance. cbv iota.
  apply no_TypeError_bind; [nte|intros model].
  apply no_TypeError_bind; [|intros entity; nte].
  apply no_TypeError_bind; [nte|intros model'].
  apply no_TypeError_bind; [nte|intros base].
  apply no_TypeError_bind; [apply no_TypeError_filter_queryset; exact Hpk|].
  intros queryset. apply no_TypeError_try_except; [|intros ex; nte].
  apply no_TypeError_bind; [|intros r; nte].
  unfold qs_get_pk. apply no_TypeError_bind; [|intros q; nte].
  apply no_TypeError_qs_filter_text.
Qed.

(** What [get_entity] returns: an instance, or the 403 response. *)
Lemma get_entity_returns env self request x db reply db' :
  get_entity env self request x db = (Ok reply, db') ->
  (exists e, reply = Val (PEntity e)) \/ reply = Resp HttpResponseForbidden.
Proof.
  unfold get_entity. unfold bind at 1.
  destruct (get_model self request db) as [[model|ex] db1]; [|discriminate].
  unfold bind at 1.
  destruct ((if isinstance x model then ret x else _) db1) as [[entity|ex] db2] eqn:E;
    [|discriminate].
  assert (Hent : exists e, entity = Val (PEntity e)).
  { destruct (isinstance x model) eqn:I.
    - unfold ret in E. inversion E; subst.
      destruct entity as [[]|]; try discriminate. eauto.
    - unfold bind, try_except in E.
      destruct (get_model self request db1) as [[m|ex] d1]; [|discriminate].
      destruct (objects m d1) as [[b|ex] d2]; [|discriminate].
      destruct (filter_queryset env request b d2) as [[q|ex] d3]; [|discriminate].
      destruct (qs_get_pk env q x d3) as [[r|ex] d4].
      + unfold ret in E. inversion E. eauto.
      + destruct (is_DoesNotExist ex || is_ValueError ex); discriminate. }
  destruct (can_get_entity self request entity); unfold ret; intros H;
    inversion H; subst; auto.
Qed.

Lemma mapR_raises {A B} (f : A -> result B) (l : list A) (e : exc) :
  mapR f l = Raise e -> exists a, In a l /\ f a = Raise e.
Proof.
  induction l as [|a l IH]; simpl; [discriminate|].
  destruct (f a) as [b|ex] eqn:E.
  - destruct (mapR f l) as [bs|ex]; [discriminate|].
    intros H. inversion H; subst. destruct (IH eq_refl) as [x [Hx Hf]].
    exists x. auto.
  - intros H. inversion H; subst. exists a. auto.
Qed.

(** [serialize_for_json] fails on the bound of the recursion only. *)
Lemma serialize_for_json_raises env depth request v e :
  serialize_for_json env depth request v = Raise e -> is_TypeError e = false.
Proof.
  revert v e. induction depth as [|depth IH]; intros v e; simpl.
  - intros H. inversion H. reflexivity.
  - destruct (json_dumps_ok v); [discriminate|].
    destruct v; try discriminate.
    + destruct (mapR (serialize_for_json env depth request) l) as [l'|ex] eqn:E;
        [discriminate|].
      intros H. inversion H; subst.
      apply mapR_raises in E as [a [_ Ha]]. apply (IH _ _ Ha).
    + destruct (mapR _ d) as [d'|ex] eqn:E; [discriminate|].
      intros H. inversion H; subst.
      apply mapR_raises in E as [a [_ Ha]].
      destruct (serialize_for_json env depth request (snd a)) as [x|ex'] eqn:F;
        [discriminate|].
      inversion Ha; subst. apply (IH _ _ F).
    + destruct (m_describe (models env (e_model e0))) as [describe|];
        [|discriminate].
      destruct (serialize_for_json env depth request (describe e0)) as [x|ex] eqn:F.
      * destruct (json_dumps_ok x); discriminate.
      * intros H. inversion H; subst. apply (IH _ _ F).
Qed.

(** What [reply_to_response] answers. *)
Lemma reply_to_response_answers env request reply db r db' :
  reply_to_response env request reply db = (r, db') ->
  match r with
  | Ok resp =>
      match reply with
      | Resp given => resp = given
      | Val PNone => status resp = 204
      | Val _ => status resp = 200
      end
  | Raise e => is_TypeError e = false
  end.
Proof.
  unfold reply_to_response.
  destruct reply as [v|given].
  - destruct v; try (unfold ret; intros H; inversion H; reflexivity);
      unfold bind, lift, ret;
      match goal with |- context [serialize_for_json ?a ?b ?c ?d] =>
        destruct (serialize_for_json a b c d) as [x|ex] eqn:E end;
      intros H; inversion H; subst; simpl;
      try reflexivity; apply (serialize_for_json_raises _ _ _ _ _ E).
  - unfold ret. intros H. inversion H. reflexivity.
Qed.

(** The status the two [except] clauses leave. *)
Lemma except_clauses_status env (c : M HttpResponse) db :
  status_of (fst (except_clauses env c db)) =
  match fst (c db) with
  | Ok resp => status resp
  | Raise e => if is_TypeError e then 404 else 400
  end.
Proof.
  unfold except_clauses, try_except.
  destruct (c db) as [[resp|e] db']; simpl; [reflexivity|].
  destruct (is_TypeError e), (DEBUG env); reflexivity.
Qed.

(** GET with one segment is never answered with a 404: whatever the key,
    the answer is 200, 403 or 400. *)
Lemma get_one_segment_status env self request a0 db :
  pk_reserved env ->
  let s := status_of (fst (get env self request [a0] db)) in
  s = 200 \/ s = 403 \/ s = 400.
Proof.
  intros Hpk.
  unfold get. rewrite except_clauses_status. unfold bind.
  destruct (get_entity env self request (Val (PStr a0)) db) as [[reply|e] db1] eqn:E.
  - destruct (reply_to_response env request reply db1) as [r db2] eqn:R.
    apply reply_to_response_answers in R. simpl.
    destruct r as [resp|ex].
    + apply get_entity_returns in E as [[x ->]| ->]; subst; simpl; auto.
    + rewrite R. auto.
  - simpl. rewrite (no_TypeError_get_entity env self request a0 Hpk _ _ _ E). auto.
Qed.

(** POST on the collection path is never answered with a redirect. *)
Lemma post_collection_status env self request db :
  let s := status_of (fst (post env self request [] db)) in
  s = 200 \/ s = 403 \/ s = 400 \/ s = 404.
Proof.
  unfold post. rewrite except_clauses_status. unfold bind.
  destruct (json_loads request db) as [[data|e] db1];
    [|simpl; destruct (is_TypeError e); auto].
  destruct (create_entity env self request data db1) as [[reply|e] db2] eqn:E;
    [|simpl; destruct (is_TypeError e); auto].
  destruct (reply_to_response env request reply db2) as [r db3] eqn:R.
  apply reply_to_response_answers in R. simpl.
  destruct r as [resp|ex]; [|rewrite R; auto].
  assert (Hreply : (exists x, reply = Val (PEntity x))
                   \/ (exists given, reply = Resp given
                                     /\ (status given = 403 \/ status given = 400))).
  { unfold create_entity in E. destruct data; try discriminate.
    destruct (negb (can_create_entity self request (PDict d))).
    - inversion E. right. eexists. split; [reflexivity|]. auto.
    - unfold bind at 1 in E.
      destruct (get_model_form env self request None db1) as [[[form|]|ex] d1];
        try discriminate.
      + unfold try_except, bind in E.
        destruct (form_save env form d d1) as [[x|ex] d2].
        * inversion E. eauto.
        * destruct (is_ValueError ex); inversion E.
          right. eexists. split; [reflexivity|]. auto.
      + inversion E. right. eexists. split; [reflexivity|]. auto. }
  destruct Hreply as [[x ->]|[given [-> Hs]]].
  - rewrite R. auto.
  - subst. destruct Hs as [-> | ->]; auto.
Qed.

(** *** C3 and C9: what the client is answered *)

(** C3: of the four NotFound conditions only the absent linked entity
    reaches the client as a 404.  An absent entity and a malformed primary
    key end in the [NameError] of [get_entity], and the [Http404] of an
    absent referenced filter value is caught by the handler's last clause:
    all three are answered with a 400, whose body carries the message when
    [settings.DEBUG] is set and is empty otherwise.  In any application
    whatever, GET with one segment is never answered with a 404. *)
Theorem get_not_found_statuses :
  (forall env self request a0 db,
     pk_reserved env ->
     status_of (fst (get env self request [a0] db)) <> 404) /\
  (* GET /9: no widget 9 *)
  fst (get (sample_env true) WidgetView plain_request ["9"] sample_db)
    = Ok (HttpResponseBadRequest "global name 'instance_pk' is not defined") /\
  fst (get (sample_env false) WidgetView plain_request ["9"] sample_db)
    = Ok (HttpResponseBadRequest "") /\
  (* GET /abc: malformed primary key *)
  fst (get (sample_env true) WidgetView plain_request ["abc"] sample_db)
    = Ok (HttpResponseBadRequest "global name 'instance_pk' is not defined") /\
  fst (get (sample_env false) WidgetView plain_request ["abc"] sample_db)
    = Ok (HttpResponseBadRequest "") /\
  (* GET /?owner=5: no user 5 *)
  fst (get (sample_env true) WidgetView (request_with [("owner", "5")]) [] sample_db)
    = Ok (HttpResponseBadRequest "No User matches the given query.") /\
  fst (get (sample_env false) WidgetView (request_with [("owner", "5")]) [] sample_db)
    = Ok (HttpResponseBadRequest "") /\
  (* GET /7/tags/4: tag 4 is not linked to widget 7 *)
  fst (get (sample_env true) WidgetView plain_request ["7"; "tags"; "4"] sample_db)
    = Raise (Http404 (Some "There is no Tag instance with primary key: 4")) /\
  fst (get (sample_env false) WidgetView plain_request ["7"; "tags"; "4"] sample_db)
    = Raise (Http404 None) /\
  (forall debug,
     status_of (fst (get (sample_env debug) WidgetView plain_request ["9"]
                       sample_db)) = 400 /\
     status_of (fst (get (sample_env debug) WidgetView plain_request ["abc"]
                       sample_db)) = 400 /\
     status_of (fst (get (sample_env debug) WidgetView
                       (request_with [("owner", "5")]) [] sample_db)) = 400 /\
     status_of (fst (get (sample_env debug) WidgetView plain_request
                       ["7"; "tags"; "4"] sample_db)) = 404).
Proof.
  split.
  - intros env self request a0 db Hpk.
    pose proof (get_one_segment_status env self request a0 db Hpk) as H.
    simpl in H. intros H404. rewrite H404 in H.
    destruct H as [H|[H|H]]; discriminate.
  - repeat split; try (vm_compute; reflexivity);
      destruct debug; vm_compute; reflexivity.
Qed.

(** C9: POST / with the body [{"name": "foo"}] stores a widget named foo
    under the key storage assigns, and answers with a 200 whose body is the
    serialized widget, not with the 302 that the documentation of the route
    announces.  In any application whatever, POST on the collection path is
    never answered with a 302. *)
Theorem post_collection_answers_200 :
  (forall env self request db,
     status_of (fst (post env self request [] db)) <> 302) /\
  let r := post (sample_env false) WidgetView
             (request_body (PDict [("name", PStr "foo")])) [] sample_db in
  let created := {| e_model := "Widget"; e_pk := 9;
                    e_text := [("name", "foo")]; e_fk := [] |} in
  fst r = Ok {| status := 200;
                content := JsonDumps (PStr "Widget object");
                content_type := "application/json" |} /\
  status_of (fst r) <> 302 /\
  rows (snd r) = rows sample_db ++ [created] /\
  oplog (snd r) = [OpInsert created].
Proof.
  split.
  - intros env self request db.
    pose proof (post_collection_status env self request db) as H.
    simpl in H. intros H302. rewrite H302 in H.
    destruct H as [H|[H|[H|H]]]; discriminate.
  - repeat split; try (vm_compute; reflexivity). vm_compute. discriminate.
Qed.

Lemma sample_pk_reserved (debug : bool) : pk_reserved (sample_env debug).
Proof.
  intros model. unfold field_names. simpl. unfold sample_models.
  destruct (String.eqb model "Widget"); [simpl; intuition discriminate|].
  destruct (String.eqb model "Tag"); [simpl; intuition discriminate|].
  destruct (String.eqb model "User"); simpl; intuition discriminate.
Qed.

Lemma get_not_found_statuses_witness :
  status_of (fst (get (sample_env false) WidgetView plain_request ["9"] sample_db))
    <> 404.
Proof.
  apply (proj1 get_not_found_statuses (sample_env false) WidgetView plain_request
           "9" sample_db).
  apply sample_pk_reserved.
Defined.

(** ** Part VI, continued: what the handlers do beyond the claims *)

Lemma readonly_get_linked_collection env self request x link :
  readonly (get_linked_collection env self request x link).
Proof. unfold get_linked_collection. ro. Qed.
#[local] Hint Resolve readonly_get_linked_collection : ro.

Lemma readonly_reply_to_response env request reply :
  readonly (reply_to_response env request reply).
Proof. unfold reply_to_response. ro. Qed.
#[local] Hint Resolve readonly_reply_to_response : ro.

Lemma readonly_except_clauses env (c : M HttpResponse) :
  readonly c -> readonly (except_clauses env c).
Proof.
  intros Hc. unfold except_clauses. apply readonly_try_except; [exact Hc|].
  intros e. destruct (is_TypeError e), (DEBUG env); ro.
Qed.

(** X6: GET is safe: whatever the view, the request, the segments and the
    store, the GET handler leaves the store exactly as it found it. *)
Theorem get_never_writes (env : Env) (self : RESTView) (request : Request)
    (args : list string) (db : DB) :
  snd (get env self request args db) = db.
Proof.
  apply readonly_except_clauses.
  destruct args as [|a0 [|a1 [|a2 [|a3 rest]]]]; ro.
Qed.

(** X8: a request with a number of segments its verb has no route for
    resolves nothing and writes nothing.  GET with four or more segments is
    answered with a 400 of empty body, because the [Http404] the handler
    raises is caught by its own last clause; DELETE with other than one or
    three segments and, once the body is decoded, PUT with other than one
    segment and POST with more than four leave the handler as [Http404]. *)
Theorem unrouted_segment_counts (env : Env) (self : RESTView)
    (request : Request) (args : list string) (db : DB) :
  let not_found := Raise (Http404 (if DEBUG env then Some "" else None)) in
  ((4 <= length args)%nat ->
     get env self request args db = (Ok (HttpResponseBadRequest ""), db)) /\
  (length args <> 1%nat -> length args <> 3%nat ->
     delete env self request args db = (not_found, db)) /\
  (forall data, body request = Some data -> length args <> 1%nat ->
     put env self request args db = (not_found, db)) /\
  (forall data, body request = Some data -> (5 <= length args)%nat ->
     post env self request args db = (not_found, db)).
Proof.
  intros not_found. unfold not_found. repeat match goal with |- _ /\ _ => split end.
  - intros H. destruct args as [|a0 [|a1 [|a2 [|a3 rest]]]]; simpl in H; try lia.
    unfold get, except_clauses, try_except, bind, raise. simpl.
    destruct (DEBUG env); reflexivity.
  - intros H1 H3.
    destruct args as [|a0 [|a1 [|a2 [|a3 rest]]]]; simpl in *; try congruence;
      unfold delete, except_clauses, try_except, bind, raise; simpl;
      destruct (DEBUG env); reflexivity.
  - intros data Hbody H1.
    destruct args as [|a0 [|a1 rest]]; simpl in *; try congruence;
      unfold put, except_clauses, try_except, bind, raise, json_loads;
      rewrite Hbody; simpl; destruct (DEBUG env); reflexivity.
  - intros data Hbody H5.
    destruct args as [|a0 [|a1 [|a2 [|a3 [|a4 rest]]]]]; simpl in H5; try lia.
    unfold post, except_clauses, try_except, bind, raise, json_loads.
    rewrite Hbody. simpl. destruct (DEBUG env); reflexivity.
Qed.

Lemma unrouted_segment_counts_witness :
  get (sample_env true) WidgetView plain_request ["7"; "tags"; "3"; "x"] sample_db
    = (Ok (HttpResponseBadRequest ""), sample_db) /\
  delete (sample_env false) WidgetView plain_request ["7"; "tags"] sample_db
    = (Raise (Http404 None), sample_db).
Proof.
  split.
  - apply (proj1 (unrouted_segment_counts (sample_env true) WidgetView
                    plain_request ["7"; "tags"; "3"; "x"] sample_db)).
    simpl. lia.
  - apply (proj1 (proj2 (unrouted_segment_counts (sample_env false) WidgetView
                           plain_request ["7"; "tags"] sample_db)));
      simpl; lia.
Defined.

(** X9: a POST or PUT whose body is no JSON, and a create or an edit whose
    body decodes to something other than a dictionary, writes nothing and is
    answered with a 400; for the edit this holds whether or not the entity
    exists, because the body is looked at first. *)
Theorem body_must_be_a_dictionary (env : Env) (self : RESTView)
    (request : Request) (db : DB) :
  (body request = None ->
     forall args,
       let answer :=
         (Ok (HttpResponseBadRequest
                (if DEBUG env then "No JSON object could be decoded" else "")), db) in
       post env self request args db = answer /\
       put env self request args db = answer) /\
  (forall data, body request = Some data -> (forall d, data <> PDict d) ->
     post env self request [] db
       = (Ok (HttpResponseBadRequest
                (if DEBUG env then "POST data should contain dictionary" else "")), db) /\
     forall a0,
       put env self request [a0] db
         = (Ok (HttpResponseBadRequest
                  (if DEBUG env then "PUT data should contain dictionary" else "")), db)).
Proof.
  split.
  - intros Hbody args.
    unfold post, put, except_clauses, try_except, bind, raise, json_loads.
    rewrite Hbody. simpl. destruct (DEBUG env); split; reflexivity.
  - intros data Hbody Hd.
    assert (Hc : create_entity env self request data db
                 = (Raise (ValueError "POST data should contain dictionary"), db)).
    { unfold create_entity. destruct data; try reflexivity.
      exfalso. apply (Hd d). reflexivity. }
    assert (He : forall x, edit_entity env self request x data db
                 = (Raise (ValueError "PUT data should contain dictionary"), db)).
    { intros x. unfold edit_entity. destruct data; try reflexivity.
      exfalso. apply (Hd d). reflexivity. }
    split.
    + unfold post, except_clauses, try_except, bind, json_loads.
      rewrite Hbody. unfold ret at 1. rewrite Hc. simpl.
      destruct (DEBUG env); reflexivity.
    + intros a0. unfold put, except_clauses, try_except, bind, json_loads.
      rewrite Hbody. unfold ret at 1. rewrite He. simpl.
      destruct (DEBUG env); reflexivity.
Qed.

Lemma body_must_be_a_dictionary_witness :
  put (sample_env true) WidgetView (request_body (PList [])) ["99"] sample_db
    = (Ok (HttpResponseBadRequest "PUT data should contain dictionary"), sample_db).
Proof.
  apply (proj2 (body_must_be_a_dictionary (sample_env true) WidgetView
                  (request_body (PList [])) sample_db) (PList []) eq_refl).
  intros d. discriminate.
Defined.

(** X11: on a view that does not implement [get_model], every GET and every
    DELETE of an entity or a link is answered with a 400, never with a
    server error, and nothing is written. *)
Theorem get_model_not_implemented (env : Env) (self : RESTView)
    (request : Request) (db : DB) :
  get_model_impl self = None ->
  let answer :=
    (Ok (HttpResponseBadRequest
           (if DEBUG env then "You must implement the get_model method." else "")),
     db) in
  (forall args, (length args <= 3)%nat -> get env self request args db = answer) /\
  (forall args, status_of (fst (get env self request args db)) = 400) /\
  (forall a0, delete env self request [a0] db = answer) /\
  (forall a0 a1 a2, delete env self request [a0; a1; a2] db = answer).
Proof.
  intros Hgm answer.
  assert (Hm : get_model self request db
               = (Raise (NotImplementedError "You must implement the get_model method."),
                  db)).
  { unfold get_model. rewrite Hgm. reflexivity. }
  assert (He : forall x, get_entity env self request x db
               = (Raise (NotImplementedError "You must implement the get_model method."),
                  db)).
  { intros x. unfold get_entity. apply bind_raise. exact Hm. }
  assert (Hget : forall args, (length args <= 3)%nat ->
                              get env self request args db = answer).
  { intros args Hlen.
    destruct args as [|a0 [|a1 [|a2 [|a3 rest]]]]; simpl in Hlen; try lia;
      unfold get, except_clauses, try_except, answer.
    - unfold get_collection.
      rewrite (bind_raise _ _ db db _ (bind_raise _ _ db db _ (bind_raise _ _ db db _ Hm))).
      simpl. destruct (DEBUG env); reflexivity.
    - rewrite (bind_raise _ _ db db _ (He _)).
      simpl. destruct (DEBUG env); reflexivity.
    - unfold get_linked_collection.
      rewrite (bind_raise _ _ db db _ (bind_raise _ _ db db _ (bind_raise _ _ db db _ (He _)))).
      simpl. destruct (DEBUG env); reflexivity.
    - unfold get_linked_entity.
      rewrite (bind_raise _ _ db db _ (bind_raise _ _ db db _ (He _))).
      simpl. destruct (DEBUG env); reflexivity. }
  repeat match goal with |- _ /\ _ => split end.
  - exact Hget.
  - intros args. destruct (Nat.le_gt_cases (length args) 3) as [Hle|Hgt].
    + rewrite (Hget args Hle). unfold answer. reflexivity.
    + destruct args as [|a0 [|a1 [|a2 [|a3 rest]]]]; simpl in Hgt; try lia.
      unfold get, except_clauses, try_except, bind, raise. simpl.
      destruct (DEBUG env); reflexivity.
  - intros a0. unfold delete, except_clauses, try_except, delete_entity, answer.
    rewrite (bind_raise _ _ db db _ (bind_raise _ _ db db _ (He _))).
    simpl. destruct (DEBUG env); reflexivity.
  - intros a0 a1 a2.
    unfold delete, except_clauses, try_except, delete_linked_entity, answer.
    rewrite (bind_raise _ _ db db _ (bind_raise _ _ db db _ (He _))).
    simpl. destruct (DEBUG env); reflexivity.
Qed.

Lemma get_model_not_implemented_witness :
  delete (sample_env true) BareView plain_request ["7"] sample_db
  = (Ok (HttpResponseBadRequest "You must implement the get_model method."),
     sample_db).
Proof.
  apply (proj1 (proj2 (proj2 (get_model_not_implemented (sample_env true) BareView
                                plain_request sample_db eq_refl))) "7").
Defined.

(** *** Serialization *)

Lemma mapR_total {A B} (f : A -> result B) (l : list A) :
  (forall a, In a l -> exists b, f a = Ok b) -> exists l', mapR f l = Ok l'.
Proof.
  induction l as [|a l IH]; intros H; simpl; [eauto|].
  destruct (H a (or_introl eq_refl)) as [b Hb]. rewrite Hb.
  destruct IH as [l' Hl']; [intros x Hx; apply H; right; exact Hx|].
  rewrite Hl'. eauto.
Qed.

Lemma height_list_elem (l : list pyval) (x : pyval) :
  In x l -> (height x < height (PList l))%nat.
Proof.
  simpl. induction l as [|y l IH]; simpl; [contradiction|].
  intros [->|Hx]; [lia|]. specialize (IH Hx). lia.
Qed.

Lemma height_dict_elem (d : list (string * pyval)) (kv : string * pyval) :
  In kv d -> (height (snd kv) < height (PDict d))%nat.
Proof.
  simpl. induction d as [|[k y] d IH]; simpl; [contradiction|].
  intros [<-|Hx]; [simpl; lia|]. specialize (IH Hx). lia.
Qed.

(** X13: when no model defines [describe], [serialize_for_json] returns as
    soon as the bound on the recursion exceeds the nesting of the value: the
    recursion ends on the leaves, and no [RuntimeError] is raised. *)
Theorem serialize_for_json_returns (env : Env) (depth : nat)
    (request : Request) (v : pyval) :
  (forall model, m_describe (models env model) = None) ->
  (height v < depth)%nat ->
  exists r, serialize_for_json env depth request v = Ok r.
Proof.
  intros Hnone. revert v. induction depth as [|depth IH]; intros v Hlt; [lia|].
  simpl. destruct (json_dumps_ok v); [eauto|].
  destruct v; eauto.
  - destruct (mapR_total (serialize_for_json env depth request) l) as [l' Hl'].
    + intros a Ha. apply IH. pose proof (height_list_elem l a Ha). lia.
    + rewrite Hl'. eauto.
  - destruct (mapR_total
                (fun kv => match serialize_for_json env depth request (snd kv) with
                           | Ok x => Ok (fst kv, x)
                           | Raise e => Raise e
                           end) d) as [d' Hd'].
    + intros a Ha. destruct (IH (snd a)) as [x Hx].
      * pose proof (height_dict_elem d a Ha). lia.
      * rewrite Hx. eauto.
    + rewrite Hd'. eauto.
  - rewrite Hnone. eauto.
Qed.

Lemma serialize_for_json_returns_witness :
  exists r,
    serialize_for_json (sample_env false) 3 plain_request
      (PList [PDict [("w", PEntity widget7)]]) = Ok r.
Proof.
  apply (serialize_for_json_returns (sample_env false) 3 plain_request
           (PList [PDict [("w", PEntity widget7)]])).
  - intros model. unfold sample_env, sample_models. simpl.
    destruct (String.eqb model "Widget"); [reflexivity|].
    destruct (String.eqb model "Tag"); [reflexivity|].
    destruct (String.eqb model "User"); reflexivity.
  - simpl. lia.
Defined.

(** *** Collections *)

(** X14: [filter_queryset] only narrows: whatever the query parameters, the
    queryset it returns is of the same model and selects some of the rows of
    the one it was given, in the same order, and the store is not
    touched. *)
Theorem filter_queryset_narrows (env : Env) (request : Request)
    (qs qs' : QuerySet) (db db' : DB) :
  filter_queryset env request qs db = (Ok qs', db') ->
  db' = db /\
  qs_model qs' = qs_model qs /\
  (exists p, qs_rows qs' = List.filter p (qs_rows qs)) /\
  incl (qs_rows qs') (qs_rows qs) /\
  (length (qs_rows qs') <= length (qs_rows qs))%nat.
Proof.
  intros H.
  pose proof (readonly_filter_queryset env request qs db) as Hro.
  rewrite H in Hro. simpl in Hro.
  destruct (filter_queryset_selects _ _ _ _ _ _ H) as [Hm [p Hp]].
  split; [exact Hro|]. split; [exact Hm|]. split; [eauto|]. split.
  - rewrite Hp. apply incl_filter.
  - rewrite Hp. apply filter_length_le.
Qed.

Lemma filter_queryset_narrows_witness :
  incl [widget8] [widget7; widget8].
Proof.
  apply (filter_queryset_narrows (sample_env false)
           (request_with [("owner", "1"); ("name", "bar")])
           {| qs_model := "Widget"; qs_rows := [widget7; widget8];
              qs_through := None |}
           {| qs_model := "Widget"; qs_rows := [widget8];
              qs_through := None |} sample_db sample_db eq_refl).
Defined.

(** X15: GET of a linked collection lists exactly the entities linked to
    the resolved entity through the link that [can_get_linked_entity]
    admits; the others are left out of the listing. *)
Theorem get_linked_collection_lists_permitted (env : Env) (self : RESTView)
    (request : Request) (gm : Request -> string) (a0 link : string)
    (f : Field) (target : string) (e : Entity) (db : DB) :
  GET request = [] ->
  get_model_impl self = Some gm ->
  unique_keys (rows db) ->
  parse_int a0 = Some (e_pk e) ->
  rows_with_pk db (gm request) (e_pk e) = [e] ->
  can_get_entity self request (Val (PEntity e)) = true ->
  find_field env (gm request) link = Some f ->
  f_kind f = ManyToManyField target ->
  exists l,
    get_linked_collection env self request (Val (PStr a0)) link db = (Ok l, db) /\
    (forall x, In x l <->
               In x (linked_rows db e link target) /\
               can_get_linked_entity self request (Val (PEntity e)) link
                 (Val (PEntity x)) = true).
Proof.
  intros HG Hgm Hu Hk Hrows Hcan Hf Hkind.
  assert (Hm : e_model e = gm request).
  { apply (rows_with_pk_model db (gm request) (e_pk e) e).
    rewrite Hrows. left. reflexivity. }
  assert (Hf' : find_field env (e_model e) link = Some f) by (rewrite Hm; exact Hf).
  pose proof (get_entity_plain env self request gm a0 (e_pk e) e db HG Hgm Hk Hrows)
    as Hent.
  rewrite Hcan in Hent.
  eexists. split.
  - unfold get_linked_collection.
    rewrite (bind_ok _ _ _ _ _ Hent).
    rewrite (bind_ok _ _ _ _ _ (get_linked_queryset_run env request e link f target db Hf' Hkind)).
    rewrite (bind_ok _ _ _ _ _ (filter_queryset_plain env request _ db HG)).
    unfold ret, qs_all. simpl.
    rewrite py_set_unique; [reflexivity|].
    apply unique_keys_filter. exact Hu.
  - intros x. rewrite filter_In. reflexivity.
Qed.

Lemma get_linked_collection_lists_permitted_witness :
  exists l,
    get_linked_collection (sample_env false) WidgetView plain_request
      (Val (PStr "7")) "tags" sample_db = (Ok l, sample_db) /\
    (forall x, In x l <->
               In x (linked_rows sample_db widget7 "tags" "Tag") /\
               can_get_linked_entity WidgetView plain_request
                 (Val (PEntity widget7)) "tags" (Val (PEntity x)) = true).
Proof.
  apply (get_linked_collection_lists_permitted (sample_env false) WidgetView
           plain_request (fun _ => "Widget") "7" "tags"
           (field "tags" (ManyToManyField "Tag")) "Tag" widget7 sample_db
           eq_refl eq_refl sample_db_unique_keys eq_refl eq_refl eq_refl
           eq_refl eq_refl).
Defined.

(** *** Hooks that delegate *)

Lemma get_entity_never_admits env self request x db r db' :
  (forall y, can_get_entity self request y = false) ->
  get_entity env self request x db = (Ok r, db') ->
  r = Resp HttpResponseForbidden /\ db' = db.
Proof.
  intros Hcan H.
  pose proof (readonly_get_entity env self request x db) as Hro.
  rewrite H in Hro. simpl in Hro. split; [|exact Hro].
  revert H. unfold get_entity. unfold bind at 1.
  destruct (get_model self request db) as [[model|ex] db1]; [|discriminate].
  unfold bind at 1.
  destruct ((if isinstance x model then ret x else _) db1) as [[entity|ex] db2];
    [|discriminate].
  rewrite Hcan. unfold ret. intros H. inversion H. reflexivity.
Qed.

(** X16: a view that overrides [can_get_entity] to refuse everything and
    leaves [can_edit_entity] and [can_delete_entity] as inherited can
    neither delete nor edit an entity: DELETE and PUT of one segment write
    nothing, and what they answer for an existing entity is the 403. *)
Theorem refusing_reads_refuses_writes (env : Env) (self : RESTView)
    (request : Request) (a0 : string) (db : DB) :
  (forall x, can_get_entity self request x = false) ->
  can_edit_entity_impl self = None ->
  can_delete_entity_impl self = None ->
  snd (delete env self request [a0] db) = db /\
  snd (put env self request [a0] db) = db /\
  (forall r, fst (get_entity env self request (Val (PStr a0)) db) = Ok r ->
     delete env self request [a0] db = (Ok HttpResponseForbidden, db) /\
     (forall d, body request = Some (PDict d) ->
        put env self request [a0] db = (Ok HttpResponseForbidden, db))).
Proof.
  intros Hcan Hedit Hdel.
  assert (Hce : forall x, can_edit_entity self request x = false).
  { intros x. unfold can_edit_entity. rewrite Hedit. apply Hcan. }
  assert (Hcd : forall x, can_delete_entity self request x = false).
  { intros x. unfold can_delete_entity. rewrite Hdel. apply Hce. }
  assert (Hde : forall r db1,
            get_entity env self request (Val (PStr a0)) db = (r, db1) ->
            delete_entity env self request (Val (PStr a0)) db =
            (match r with Ok _ => Ok (Resp HttpResponseForbidden) | Raise ex => Raise ex end,
             db)).
  { intros r db1 H. unfold delete_entity, bind. rewrite H.
    pose proof (readonly_get_entity env self request (Val (PStr a0)) db) as Hro.
    rewrite H in Hro. simpl in Hro. subst db1.
    destruct r as [entity|ex]; [|reflexivity]. rewrite Hcd. reflexivity. }
  assert (Hed : forall d r db1,
            get_entity env self request (Val (PStr a0)) db = (r, db1) ->
            edit_entity env self request (Val (PStr a0)) (PDict d) db =
            (match r with Ok _ => Ok (Resp HttpResponseForbidden) | Raise ex => Raise ex end,
             db)).
  { intros d r db1 H. unfold edit_entity, bind. rewrite H.
    pose proof (readonly_get_entity env self request (Val (PStr a0)) db) as Hro.
    rewrite H in Hro. simpl in Hro. subst db1.
    destruct r as [entity|ex]; [|reflexivity]. rewrite Hce. reflexivity. }
  destruct (get_entity env self request (Val (PStr a0)) db) as [r db1] eqn:E.
  split; [|split].
  - unfold delete, except_clauses, try_except, bind.
    rewrite (Hde r db1 eq_refl).
    destruct r as [entity|ex]; simpl; [reflexivity|].
    destruct (is_TypeError ex), (DEBUG env); reflexivity.
  - unfold put, except_clauses, try_except, bind, json_loads.
    destruct (body request) as [data|]; simpl;
      [|destruct (DEBUG env); reflexivity].
    destruct data;
      try (simpl; destruct (DEBUG env); reflexivity).
    rewrite (Hed d r db1 eq_refl).
    destruct r as [entity|ex]; simpl; [reflexivity|].
    destruct (is_TypeError ex), (DEBUG env); reflexivity.
  - intros r0 Hr0. simpl in Hr0. subst r. split.
    + unfold delete, except_clauses, try_except, bind.
      rewrite (Hde _ db1 eq_refl). reflexivity.
    + intros d Hbody. unfold put, except_clauses, try_except, bind, json_loads.
      rewrite Hbody. unfold ret at 1. rewrite (Hed d _ db1 eq_refl). reflexivity.
Qed.

Lemma refusing_reads_refuses_writes_witness :
  delete (sample_env false) LockedView plain_request ["7"] sample_db
    = (Ok HttpResponseForbidden, sample_db).
Proof.
  destruct (refusing_reads_refuses_writes (sample_env false) LockedView
              plain_request "7" sample_db (fun _ => eq_refl) eq_refl eq_refl)
    as [_ [_ H]].
  apply (H (Resp HttpResponseForbidden)). reflexivity.
Defined.

(** *** Creating an entity *)

Lemma max_pk_bound (l : list Z) (z : Z) : In z l -> z <= fold_right Z.max 0 l.
Proof.
  induction l as [|x l IH]; simpl; [contradiction|].
  intros [->|H]; [lia|]. specialize (IH H). lia.
Qed.

Lemma fresh_pk_above (db : DB) (model : string) (r : Entity) :
  In r (rows db) -> e_model r = model -> e_pk r < fresh_pk db model.
Proof.
  intros Hin Hm. unfold fresh_pk.
  assert (H : In (e_pk r)
                (map e_pk (List.filter (fun x => String.eqb (e_model x) model)
                             (rows db)))).
  { apply in_map. apply filter_In. split; [exact Hin|].
    apply String.eqb_eq. exact Hm. }
  apply max_pk_bound in H. lia.
Qed.

Lemma clean_field_key env db data f e e' :
  clean_field env db data f e = Some e' -> key e' = key e.
Proof.
  unfold clean_field.
  destruct (f_kind f); try (intros H; inversion H; reflexivity).
  - destruct (is_empty_value _); [destruct (f_blank f)|];
      intros H; inversion H; reflexivity.
  - destruct (is_empty_value _).
    + destruct (f_blank f); intros H; inversion H; reflexivity.
    + destruct (int_of _) as [[k|]|]; try discriminate.
      destruct (existsb _ _); intros H; inversion H; reflexivity.
Qed.

Lemma clean_fields_key env db data fs e e' :
  clean_fields env db data fs e = Some e' -> key e' = key e.
Proof.
  revert e. induction fs as [|f fs IH]; intros e; simpl.
  - intros H. inversion H. reflexivity.
  - destruct (clean_field env db data f e) as [e1|] eqn:E; [|discriminate].
    intros H. rewrite (IH _ H). apply (clean_field_key _ _ _ _ _ _ E).
Qed.

(** What [form.save()] does for a new instance. *)
Lemma form_save_run env form d db r db' :
  form_save env form d db = (r, db') ->
  (exists ex, r = Raise ex /\ db' = db) \/
  (exists e, r = Ok e /\ e_model e = form_model form /\
             e_pk e = fresh_pk db (form_model form) /\
             rows db' = rows db ++ [e] /\ links db' = links db /\
             oplog db' = oplog db ++ [OpInsert e] /\
             clean_fields env db d
               (List.filter (fun f => existsb (String.eqb (f_name f)) (form_fields form))
                  (m_fields (models env (form_model form))))
               {| e_model := form_model form;
                  e_pk := fresh_pk db (form_model form);
                  e_text := []; e_fk := [] |} = Some e).
Proof.
  unfold form_save, bind, get_db, raise.
  destruct (clean_fields _ _ _ _ _) as [e|] eqn:C.
  - pose proof (clean_fields_key _ _ _ _ _ _ C) as Hk.
    unfold key in Hk. simpl in Hk. inversion Hk as [[Hm Hp]].
    assert (Hnew : existsb (entity_eqb e) (rows db) = false).
    { destruct (existsb (entity_eqb e) (rows db)) eqn:X; [|reflexivity].
      apply existsb_exists in X as [x [Hx Heq]].
      apply entity_eqb_key in Heq. unfold key in Heq. inversion Heq as [[Hxm Hxp]].
      pose proof (fresh_pk_above db (form_model form) x Hx) as Hlt.
      rewrite <- Hxm, Hm in Hlt. specialize (Hlt eq_refl).
      exfalso. rewrite Hm in Hp. lia. }
    unfold save, bind, get_db, put_db, ret, log_op. rewrite Hnew.
    intros H. inversion H; subst. right. exists e. simpl. auto 10.
  - intros H. inversion H; subst. left. eauto.
Qed.

Lemma readonly_get_model_form env self request desired :
  readonly (get_model_form env self request desired).
Proof. unfold get_model_form, get_model_form_fields. ro. Qed.
#[local] Hint Resolve readonly_get_model_form : ro.

Lemma unique_keys_app_new (l : list Entity) (e : Entity) :
  unique_keys l -> (forall x, In x l -> key x <> key e) -> unique_keys (l ++ [e]).
Proof.
  unfold unique_keys. intros Hu Hnew. rewrite map_app. simpl.
  induction l as [|x l IH]; simpl.
  - constructor; [intros []|constructor].
  - inversion Hu as [|? ? Hx Hl]; subst. constructor.
    + rewrite in_app_iff. intros [H|[H|[]]]; [apply Hx; exact H|].
      apply (Hnew x (or_introl eq_refl)). symmetry. exact H.
    + apply IH; [exact Hl|]. intros y Hy. apply Hnew. right. exact Hy.
Qed.

(** X17: [create_entity] writes at most one thing: either it leaves the
    store as it found it and returns no entity, or it appends one row, whose
    key is larger than every key of the model and so unused, and returns
    that row; it never changes or removes a row or a link, and primary keys
    stay unique. *)
Theorem create_entity_appends_one_row (env : Env) (self : RESTView)
    (request : Request) (data : pyval) (db db' : DB) (r : result obj) :
  create_entity env self request data db = (r, db') ->
  links db' = links db /\
  ((db' = db /\ forall e, r <> Ok (Val (PEntity e))) \/
   (exists e,
      r = Ok (Val (PEntity e)) /\
      e_pk e = fresh_pk db (e_model e) /\
      (forall x, In x (rows db) -> key x <> key e) /\
      rows db' = rows db ++ [e] /\
      oplog db' = oplog db ++ [OpInsert e] /\
      (unique_keys (rows db) -> unique_keys (rows db')))).
Proof.
  unfold create_entity. destruct data;
    try (unfold raise; intros H; inversion H; subst; split; [reflexivity|];
         left; split; [reflexivity|intros ?; discriminate]).
  destruct (negb (can_create_entity self request (PDict d))).
  - unfold ret. intros H. inversion H; subst. split; [reflexivity|].
    left. split; [reflexivity|intros ?; discriminate].
  - unfold bind at 1.
    pose proof (readonly_get_model_form env self request None db) as Hro.
    destruct (get_model_form env self request None db) as [[[form|]|ex] db1];
      simpl in Hro; subst db1.
    + unfold try_except, bind.
      destruct (form_save env form d db) as [r1 db2] eqn:F.
      apply form_save_run in F
        as [[ex [-> ->]]|[e [-> [Hm [Hp [Hr [Hl [Ho _]]]]]]]].
      * destruct (is_ValueError ex); unfold ret; intros H; inversion H; subst;
          (split; [reflexivity|]); left; (split; [reflexivity|]);
          intros ?; discriminate.
      * unfold ret. intros H. inversion H; subst. split; [exact Hl|].
        right. exists e.
        assert (Hnew : forall x, In x (rows db) -> key x <> key e).
        { intros x Hx Hk. unfold key in Hk. inversion Hk as [[Hxm Hxp]].
          pose proof (fresh_pk_above db (e_model e) x Hx Hxm). rewrite Hm in *. lia. }
        split; [reflexivity|]. split; [rewrite Hm; exact Hp|].
        split; [exact Hnew|]. split; [exact Hr|]. split; [exact Ho|].
        intros Hu. rewrite Hr. apply unique_keys_app_new; assumption.
    + unfold ret. intros H. inversion H; subst. split; [reflexivity|].
      left. split; [reflexivity|intros ?; discriminate].
    + intros H. inversion H; subst. split; [reflexivity|].
      left. split; [reflexivity|intros ?; discriminate].
Qed.

Lemma create_entity_appends_one_row_witness :
  let created := {| e_model := "Widget"; e_pk := 9;
                    e_text := [("name", "baz")]; e_fk := [] |} in
  let db' := {| rows := rows sample_db ++ [created]; links := links sample_db;
                oplog := [OpInsert created] |} in
  links db' = links sample_db /\
  ((db' = sample_db /\ forall e, Ok (Val (PEntity created)) <> Ok (Val (PEntity e))) \/
   (exists e,
      Ok (Val (PEntity created)) = Ok (Val (PEntity e)) /\
      e_pk e = fresh_pk sample_db (e_model e) /\
      (forall x, In x (rows sample_db) -> key x <> key e) /\
      rows db' = rows sample_db ++ [e] /\
      oplog db' = oplog sample_db ++ [OpInsert e] /\
      (unique_keys (rows sample_db) -> unique_keys (rows db')))).
Proof.
  intros created db'.
  apply (create_entity_appends_one_row (sample_env false) WidgetView
           plain_request (PDict [("name", PStr "baz")]) sample_db db'
           (Ok (Val (PEntity created)))).
  vm_compute. reflexivity.
Defined.

Lemma get_model_form_run env self request gm db :
  get_model_impl self = Some gm ->
  get_model_form env self request None db =
  (Ok (match List.filter (fun x => f_editable x && negb (primary_key x))
               (List.filter (fun x => negb (is_m2m x))
                  (m_fields (models env (gm request)))) with
       | [] => None
       | fields =>
           Some {| form_model := gm request; form_fields := map f_name fields |}
       end), db).
Proof.
  intros Hgm. unfold get_model_form, get_model_form_fields.
  rewrite (bind_ok _ _ _ _ _ (get_model_run _ request _ db Hgm)).
  rewrite (bind_ok _ _ db db
             (List.filter (fun x => f_editable x && negb (primary_key x))
                (List.filter (fun x => negb (is_m2m x))
                   (m_fields (models env (gm request)))))).
  - destruct (List.filter _ _); reflexivity.
  - rewrite (bind_ok _ _ _ _ _ (get_model_run _ request _ db Hgm)). reflexivity.
Qed.

(** The text columns a form fills in, in the order of the fields. *)
Lemma clean_fields_text env db d fs e0 e :
  clean_fields env db d fs e0 = Some e ->
  e_text e =
  e_text e0 ++
  flat_map (fun f => match f_kind f with
                     | CharField => [(f_name f, cleaned_text env d (f_name f))]
                     | _ => []
                     end) fs.
Proof.
  revert e0. induction fs as [|f fs IH]; intros e0; simpl.
  - intros H. inversion H. rewrite app_nil_r. reflexivity.
  - destruct (clean_field env db d f e0) as [e1|] eqn:E; [|discriminate].
    intros H. rewrite (IH _ H). clear IH H.
    unfold clean_field, cleaned_text in *.
    destruct (f_kind f).
    + inversion E. reflexivity.
    + destruct (is_empty_value (assoc (f_name f) d)).
      * destruct (f_blank f); inversion E. simpl. rewrite <- app_assoc. reflexivity.
      * inversion E. simpl. rewrite <- app_assoc. reflexivity.
    + destruct (is_empty_value (assoc (f_name f) d)).
      * destruct (f_blank f); inversion E. reflexivity.
      * destruct (int_of _) as [[k|]|]; try discriminate.
        destruct (existsb _ _); inversion E. reflexivity.
    + inversion E. reflexivity.
Qed.

Lemma NoDup_map_filter {A B} (g : A -> B) (p : A -> bool) (l : list A) :
  List.NoDup (map g l) -> List.NoDup (map g (List.filter p l)).
Proof.
  induction l as [|x l IH]; simpl; intros H; [exact H|].
  inversion H as [|? ? Hx Hl]; subst. destruct (p x); simpl.
  - constructor; [|apply IH; exact Hl].
    intros Hin. apply Hx. apply in_map_iff in Hin as [y [Hy Hin]].
    apply in_map_iff. exists y. split; [exact Hy|].
    apply filter_In in Hin. apply Hin.
  - apply IH; exact Hl.
Qed.

Lemma assoc_form_entry env d (fs : list Field) (f : Field) :
  List.NoDup (map f_name fs) -> In f fs -> f_kind f = CharField ->
  assoc (f_name f)
    (flat_map (fun f => match f_kind f with
                        | CharField => [(f_name f, cleaned_text env d (f_name f))]
                        | _ => []
                        end) fs)
  = Some (cleaned_text env d (f_name f)).
Proof.
  induction fs as [|g fs IH]; simpl; [contradiction|].
  intros Hnd Hin Hk. inversion Hnd as [|? ? Hg Hfs]; subst.
  destruct Hin as [->|Hin].
  - rewrite Hk. simpl. rewrite String.eqb_refl. reflexivity.
  - assert (Hne : String.eqb (f_name f) (f_name g) = false).
    { destruct (String.eqb (f_name f) (f_name g)) eqn:E; [|reflexivity].
      apply String.eqb_eq in E. exfalso. apply Hg. rewrite <- E.
      apply in_map. exact Hin. }
    destruct (f_kind g); simpl; try rewrite Hne; apply IH; assumption.
Qed.

(** X18: an entity that [create_entity] returns can be read back: it is an
    instance of the view's model, every editable text field holds the text
    that was submitted for it (the empty text when none was), and a GET of
    its key, on a request without query parameters, resolves to it. *)
Theorem create_entity_then_get_entity (env : Env) (self : RESTView)
    (request : Request) (gm : Request -> string) (d : list (string * pyval))
    (a0 : string) (e : Entity) (db db' : DB) :
  GET request = [] ->
  get_model_impl self = Some gm ->
  List.NoDup (field_names env (gm request)) ->
  create_entity env self request (PDict d) db = (Ok (Val (PEntity e)), db') ->
  parse_int a0 = Some (e_pk e) ->
  can_get_entity self request (Val (PEntity e)) = true ->
  e_model e = gm request /\
  (forall f, In f (m_fields (models env (gm request))) ->
             f_kind f = CharField -> f_editable f = true ->
             assoc (f_name f) (e_text e) = Some (cleaned_text env d (f_name f))) /\
  get_entity env self request (Val (PStr a0)) db' = (Ok (Val (PEntity e)), db').
Proof.
  intros HG Hgm Hnd Hcreate Hk Hcan.
  unfold create_entity in Hcreate.
  destruct (negb (can_create_entity self request (PDict d))); [discriminate|].
  rewrite (bind_ok _ _ _ _ _ (get_model_form_run env self request gm db Hgm))
    in Hcreate.
  set (fields := List.filter (fun x => f_editable x && negb (primary_key x))
                   (List.filter (fun x => negb (is_m2m x))
                      (m_fields (models env (gm request))))) in *.
  destruct fields as [|f0 fields'] eqn:Hfields; [discriminate|].
  rewrite <- Hfields in Hcreate.
  unfold try_except, bind in Hcreate.
  destruct (form_save env _ d db) as [r1 db1] eqn:F.
  apply form_save_run in F
    as [[ex [-> ->]]|[x [-> [Hm [Hp [Hr [Hl [Ho Hc]]]]]]]].
  { destruct (is_ValueError ex); discriminate. }
  unfold ret in Hcreate. inversion Hcreate; subst x db1. simpl in *.
  split; [exact Hm|]. split.
  - intros f Hf Hkind Hed.
    rewrite (clean_fields_text _ _ _ _ _ _ Hc). simpl.
    apply assoc_form_entry.
    + apply NoDup_map_filter. exact Hnd.
    + apply filter_In. split; [exact Hf|].
      apply existsb_exists. exists (f_name f). split; [|apply String.eqb_refl].
      apply in_map. unfold fields. apply filter_In. split.
      * apply filter_In. split; [exact Hf|]. unfold is_m2m. rewrite Hkind. reflexivity.
      * rewrite Hed. unfold primary_key. rewrite Hkind. reflexivity.
    + exact Hkind.
  - rewrite (get_entity_plain env self request gm a0 (e_pk e) e db' HG Hgm Hk).
    + rewrite Hcan. reflexivity.
    + unfold rows_with_pk. rewrite Hr, !List.filter_app. simpl.
      rewrite Hm, String.eqb_refl. simpl. unfold pk_equals at 2.
      rewrite Z.eqb_refl.
      rewrite (filter_nothing (pk_equals (e_pk e))); [reflexivity|].
      intros y Hy. apply filter_In in Hy as [Hy Hym]. apply String.eqb_eq in Hym.
      pose proof (fresh_pk_above db (gm request) y Hy Hym) as Hlt.
      unfold pk_equals. apply Z.eqb_neq. rewrite Hp. lia.
Qed.

Lemma create_entity_then_get_entity_witness :
  let created := {| e_model := "Widget"; e_pk := 9;
                    e_text := [("name", "baz")]; e_fk := [] |} in
  let db' := {| rows := rows sample_db ++ [created]; links := links sample_db;
                oplog := [OpInsert created] |} in
  get_entity (sample_env false) WidgetView plain_request (Val (PStr "9")) db'
    = (Ok (Val (PEntity created)), db').
Proof.
  intros created db'.
  apply (create_entity_then_get_entity (sample_env false) WidgetView
           plain_request (fun _ => "Widget") [("name", PStr "baz")] "9"
           created sample_db db'); try reflexivity.
  vm_compute. repeat constructor; simpl; intuition discriminate.
Defined.

(** *** Deleting an entity *)

Lemma cascade_keeps env fuel all doomed x :
  In x doomed -> In x (cascade env fuel all doomed).
Proof.
  revert doomed. induction fuel as [|fuel IH]; intros doomed Hx; simpl; [exact Hx|].
  destruct (List.filter _ all) as [|y more]; [exact Hx|].
  apply IH. apply in_app_iff. left. exact Hx.
Qed.

Lemma get_entity_absent env self request gm a0 k db :
  GET request = [] ->
  get_model_impl self = Some gm ->
  parse_int a0 = Some k ->
  rows_with_pk db (gm request) k = [] ->
  get_entity env self request (Val (PStr a0)) db =
  (Raise (NameError "global name 'instance_pk' is not defined"), db).
Proof.
  intros HG Hgm Hk Hrows. unfold get_entity.
  rewrite (bind_ok _ _ _ _ _ (get_model_run _ request _ db Hgm)).
  simpl isinstance. cbv iota. apply bind_raise.
  rewrite (bind_ok _ _ _ _ _ (get_model_run _ request _ db Hgm)).
  unfold objects, bind at 1, get_db, bind at 1, ret at 1.
  rewrite (bind_ok _ _ _ _ _ (filter_queryset_plain env request _ db HG)).
  unfold try_except, bind. rewrite (qs_get_pk_run _ _ _ _ _ Hk).
  unfold qs_get. simpl. unfold rows_with_pk in Hrows. rewrite Hrows. reflexivity.
Qed.

(** X19: DELETE of an entity that resolves and may be deleted answers 204
    and removes it: no row with its key is left, no link row starts or ends
    at it, and nothing is added to the store; the entity does not resolve
    any more, so the same DELETE again is answered with a 400. *)
Theorem delete_entity_removes (env : Env) (self : RESTView)
    (request : Request) (gm : Request -> string) (a0 : string) (e : Entity)
    (db : DB) :
  GET request = [] ->
  get_model_impl self = Some gm ->
  parse_int a0 = Some (e_pk e) ->
  rows_with_pk db (gm request) (e_pk e) = [e] ->
  can_get_entity self request (Val (PEntity e)) = true ->
  can_delete_entity self request (Val (PEntity e)) = true ->
  exists db',
    delete env self request [a0] db = (Ok (HttpResponse_status 204), db') /\
    rows_with_pk db' (gm request) (e_pk e) = [] /\
    incl (rows db') (rows db) /\
    incl (links db') (links db) /\
    (forall l, In l (links db') -> link_touches env e l = false) /\
    get_entity env self request (Val (PStr a0)) db'
      = (Raise (NameError "global name 'instance_pk' is not defined"), db') /\
    status_of (fst (delete env self request [a0] db')) = 400.
Proof.
  intros HG Hgm Hk Hrows Hcan Hdel.
  assert (Hm : e_model e = gm request).
  { apply (rows_with_pk_model db (gm request) (e_pk e) e).
    rewrite Hrows. left. reflexivity. }
  pose proof (get_entity_plain env self request gm a0 (e_pk e) e db HG Hgm Hk Hrows)
    as Hent.
  rewrite Hcan in Hent.
  set (doomed := cascade env (length (rows db)) (rows db) [e]).
  set (db' := {| rows := List.filter (fun r => negb (existsb (entity_eqb r) doomed))
                           (rows db);
                 links := List.filter
                            (fun l => negb (existsb (fun d => link_touches env d l) doomed))
                            (links db);
                 oplog := oplog db ++ map OpDelete doomed |}).
  assert (Hin : In e doomed) by (apply cascade_keeps; left; reflexivity).
  assert (Hgone : rows_with_pk db' (gm request) (e_pk e) = []).
  { unfold rows_with_pk. apply filter_nothing. intros y Hy.
    apply filter_In in Hy as [Hy Hym]. apply String.eqb_eq in Hym.
    simpl in Hy. apply filter_In in Hy as [_ Hkeep].
    unfold pk_equals. destruct (Z.eqb (e_pk y) (e_pk e)) eqn:E; [|reflexivity].
    apply Z.eqb_eq in E. exfalso.
    assert (Hex : existsb (entity_eqb y) doomed = true).
    { apply existsb_exists. exists e. split; [exact Hin|].
      apply entity_eqb_key. unfold key. rewrite Hym, Hm, E. reflexivity. }
    rewrite Hex in Hkeep. discriminate. }
  assert (Habsent := get_entity_absent env self request gm a0 (e_pk e) db'
                       HG Hgm Hk Hgone).
  exists db'. repeat match goal with |- _ /\ _ => split end.
  - assert (Hd : delete_entity env self request (Val (PStr a0)) db
                 = (Ok (Val PNone), db')).
    { unfold delete_entity. rewrite (bind_ok _ _ _ _ _ Hent). rewrite Hdel.
      reflexivity. }
    unfold delete, except_clauses, try_except.
    rewrite (bind_ok _ _ _ _ _ Hd). reflexivity.
  - exact Hgone.
  - apply incl_filter.
  - apply incl_filter.
  - intros l Hl. simpl in Hl. apply filter_In in Hl as [_ Hl].
    destruct (link_touches env e l) eqn:T; [|reflexivity].
    assert (Hex : existsb (fun d => link_touches env d l) doomed = true).
    { apply existsb_exists. exists e. auto. }
    rewrite Hex in Hl. discriminate.
  - exact Habsent.
  - unfold delete, except_clauses, try_except, delete_entity.
    rewrite (bind_raise _ _ _ _ _ (bind_raise _ _ _ _ _ Habsent)).
    simpl. destruct (DEBUG env); reflexivity.
Qed.

Lemma delete_entity_removes_witness :
  exists db',
    delete (sample_env false) WidgetView plain_request ["7"] sample_db
      = (Ok (HttpResponse_status 204), db') /\
    rows_with_pk db' "Widget" 7 = [] /\
    incl (rows db') (rows sample_db) /\
    incl (links db') (links sample_db) /\
    (forall l, In l (links db') -> link_touches (sample_env false) widget7 l = false) /\
    get_entity (sample_env false) WidgetView plain_request (Val (PStr "7")) db'
      = (Raise (NameError "global name 'instance_pk' is not defined"), db') /\
    status_of (fst (delete (sample_env false) WidgetView plain_request ["7"] db'))
      = 400.
Proof.
  apply (delete_entity_removes (sample_env false) WidgetView plain_request
           (fun _ => "Widget") "7" widget7 sample_db); reflexivity.
Defined.

(** *** Editing an entity *)

Lemma assoc_set_assoc_ne {A} (k k' : string) (a : A) (l : list (string * A)) :
  k <> k' -> assoc k (set_assoc k' a l) = assoc k l.
Proof.
  intros Hne. induction l as [|[k0 a0] l IH]; simpl.
  - destruct (String.eqb k k') eqn:E; [|reflexivity].
    apply String.eqb_eq in E. contradiction.
  - destruct (String.eqb k' k0) eqn:E0; simpl.
    + apply String.eqb_eq in E0. subst k0.
      destruct (String.eqb k k') eqn:E; [|reflexivity].
      apply String.eqb_eq in E. contradiction.
    + destruct (String.eqb k k0); [reflexivity|exact IH].
Qed.

Lemma assoc_del_assoc_ne {A} (k k' : string) (l : list (string * A)) :
  k <> k' -> assoc k (del_assoc k' l) = assoc k l.
Proof.
  intros Hne. induction l as [|[k0 a0] l IH]; simpl; [reflexivity|].
  destruct (String.eqb k' k0) eqn:E0; simpl.
  - apply String.eqb_eq in E0. subst k0.
    destruct (String.eqb k k') eqn:E; [|exact IH].
    apply String.eqb_eq in E. contradiction.
  - destruct (String.eqb k k0); [reflexivity|exact IH].
Qed.

Lemma update_field_frame env db d f e e' :
  update_field env db d f e = Some e' ->
  key e' = key e /\
  forall name, name <> f_name f ->
    assoc name (e_text e') = assoc name (e_text e) /\
    assoc name (e_fk e') = assoc name (e_fk e).
Proof.
  unfold update_field. destruct (f_kind f).
  - intros H. inversion H. auto.
  - destruct (is_empty_value _); [destruct (f_blank f)|];
      intros H; inversion H; (split; [reflexivity|]); intros name Hn; simpl;
      (split; [apply assoc_set_assoc_ne; exact Hn|reflexivity]).
  - destruct (is_empty_value _).
    + destruct (f_blank f); intros H; inversion H.
      split; [reflexivity|]. intros name Hn. simpl.
      split; [reflexivity|apply assoc_del_assoc_ne; exact Hn].
    + destruct (int_of _) as [[k|]|]; try discriminate.
      destruct (existsb _ _); intros H; inversion H.
      split; [reflexivity|]. intros name Hn. simpl.
      split; [reflexivity|apply assoc_set_assoc_ne; exact Hn].
  - intros H. inversion H. auto.
Qed.

Lemma update_fields_frame env db d fs e e' :
  update_fields env db d fs e = Some e' ->
  key e' = key e /\
  forall name, (forall f, In f fs -> name <> f_name f) ->
    assoc name (e_text e') = assoc name (e_text e) /\
    assoc name (e_fk e') = assoc name (e_fk e).
Proof.
  revert e. induction fs as [|f fs IH]; intros e; simpl.
  - intros H. inversion H. auto.
  - destruct (update_field env db d f e) as [e1|] eqn:E; [|discriminate].
    intros H. destruct (IH _ H) as [Hk Hrest].
    destruct (update_field_frame _ _ _ _ _ _ E) as [Hk1 Hone].
    split; [congruence|]. intros name Hn.
    destruct (Hrest name (fun g Hg => Hn g (or_intror Hg))) as [Ht Hf].
    destruct (Hone name (Hn f (or_introl eq_refl))) as [Ht1 Hf1].
    split; congruence.
Qed.

Lemma get_model_form_desired env self request gm desired db :
  get_model_impl self = Some gm ->
  get_model_form env self request (Some desired) db =
  (Ok (match List.filter (fun x => existsb (String.eqb (f_name x)) desired)
               (List.filter (fun x => f_editable x && negb (primary_key x))
                  (List.filter (fun x => negb (is_m2m x))
                     (m_fields (models env (gm request))))) with
       | [] => None
       | fields =>
           Some {| form_model := gm request; form_fields := map f_name fields |}
       end), db).
Proof.
  intros Hgm. unfold get_model_form, get_model_form_fields.
  rewrite (bind_ok _ _ _ _ _ (get_model_run _ request _ db Hgm)).
  rewrite (bind_ok _ _ db db
             (List.filter (fun x => f_editable x && negb (primary_key x))
                (List.filter (fun x => negb (is_m2m x))
                   (m_fields (models env (gm request)))))).
  - destruct (List.filter _ (List.filter _ (List.filter _ _))); reflexivity.
  - rewrite (bind_ok _ _ _ _ _ (get_model_run _ request _ db Hgm)). reflexivity.
Qed.

(** X20: [edit_entity] on an entity that resolves and may be edited writes
    at most the row of that entity: its key and model stay, every column
    that the submitted dictionary does not name keeps its value, no link
    and no other row changes; and a dictionary that names no editable field
    of the model, the empty one included, is answered with the 403 and
    writes nothing. *)
Theorem edit_entity_changes_named_fields (env : Env) (self : RESTView)
    (request : Request) (gm : Request -> string) (a0 : string)
    (d : list (string * pyval)) (qs : QuerySet) (e : Entity) (db : DB) :
  get_model_impl self = Some gm ->
  fst (filtered_collection env request (gm request) db) = Ok qs ->
  fst (qs_get_pk env qs (Val (PStr a0)) db) = Ok e ->
  can_get_entity self request (Val (PEntity e)) = true ->
  can_edit_entity self request (Val (PEntity e)) = true ->
  ((forall f, In f (m_fields (models env (gm request))) ->
              In (f_name f) (map fst d) ->
              f_editable f && negb (primary_key f) && negb (is_m2m f) = false) ->
   edit_entity env self request (Val (PStr a0)) (PDict d) db
     = (Ok (Resp HttpResponseForbidden), db)) /\
  (forall r db',
     edit_entity env self request (Val (PStr a0)) (PDict d) db = (r, db') ->
     links db' = links db /\
     ((db' = db /\ forall e', r <> Ok (Val (PEntity e'))) \/
      (exists e',
         r = Ok (Val (PEntity e')) /\
         key e' = key e /\
         (forall name, ~ In name (map fst d) ->
            assoc name (e_text e') = assoc name (e_text e) /\
            assoc name (e_fk e') = assoc name (e_fk e)) /\
         rows db' = map (fun x => if entity_eqb e' x then e' else x) (rows db) /\
         oplog db' = oplog db ++ [OpUpdate e']))).
Proof.
  intros Hgm Hqs He Hcan Hedit.
  destruct (resolved_is_stored _ _ _ _ _ _ _ Hqs He) as [Hin Hm].
  pose proof (get_entity_by_pk env self request gm a0 db qs e Hgm Hqs He) as Hent.
  rewrite Hcan in Hent.
  set (fields := List.filter (fun x => existsb (String.eqb (f_name x)) (map fst d))
                   (List.filter (fun x => f_editable x && negb (primary_key x))
                      (List.filter (fun x => negb (is_m2m x))
                         (m_fields (models env (gm request)))))).
  assert (Hstart :
            edit_entity env self request (Val (PStr a0)) (PDict d) db =
            match fields with
            | [] => (Ok (Resp HttpResponseForbidden), db)
            | _ =>
                try_except
                  (let* entity :=
                     form_save_instance env
                       {| form_model := gm request; form_fields := map f_name fields |}
                       d e in
                   ret (Val (PEntity entity)))
                  is_ValueError
                  (fun ex => ret (Resp (HttpResponseBadRequest (str_exc ex)))) db
            end).
  { unfold edit_entity. rewrite (bind_ok _ _ _ _ _ Hent). rewrite Hedit.
    change (negb true) with false. cbv iota.
    rewrite (bind_ok _ _ _ _ _ (get_model_form_desired env self request gm (map fst d) db Hgm)).
    fold fields. destruct fields; reflexivity. }
  split.
  - intros Hnone. rewrite Hstart.
    assert (Hempty : fields = []).
    { unfold fields. apply filter_nothing. intros f Hf.
      apply filter_In in Hf as [Hf Hed]. apply filter_In in Hf as [Hf Hm2m].
      destruct (existsb (String.eqb (f_name f)) (map fst d)) eqn:X; [|reflexivity].
      apply existsb_exists in X as [n [Hn Heq]]. apply String.eqb_eq in Heq. subst n.
      specialize (Hnone f Hf Hn). rewrite Hed, Hm2m in Hnone. discriminate. }
    rewrite Hempty. reflexivity.
  - intros r db'. rewrite Hstart. destruct fields as [|f0 fields'] eqn:Hfields.
    + intros H. inversion H; subst. split; [reflexivity|].
      left. split; [reflexivity|intros ?; discriminate].
    + rewrite <- Hfields. clear Hstart.
      unfold form_save_instance, try_except, bind, get_db, raise.
      simpl form_model. simpl form_fields.
      match goal with |- context [update_fields env db d ?fs e] =>
        destruct (update_fields env db d fs e) as [e'|] eqn:U end.
      * destruct (update_fields_frame _ _ _ _ _ _ U) as [Hk Hframe].
        assert (Hex : existsb (entity_eqb e') (rows db) = true).
        { apply existsb_exists. exists e. split; [exact Hin|].
          apply entity_eqb_key. exact Hk. }
        unfold save, bind, get_db, put_db, ret, log_op. rewrite Hex.
        intros H. inversion H; subst. simpl. split; [reflexivity|].
        right. exists e'. split; [reflexivity|]. split; [exact Hk|].
        split; [|split; reflexivity].
        intros name Hname. apply Hframe. intros f Hf Heq. apply Hname.
        apply filter_In in Hf as [_ Hf].
        apply existsb_exists in Hf as [n [Hn Hfn]]. apply String.eqb_eq in Hfn.
        apply in_map_iff in Hn as [g [Hg Hgin]].
        assert (Hgd : In g fields) by exact Hgin.
        unfold fields in Hgd. apply filter_In in Hgd as [_ Hgd].
        apply existsb_exists in Hgd as [m [Hmd Hmeq]]. apply String.eqb_eq in Hmeq.
        congruence.
      * simpl. unfold ret. intros H. inversion H; subst. split; [reflexivity|].
        left. split; [reflexivity|intros ?; discriminate].
Qed.

Lemma edit_entity_changes_named_fields_witness :
  edit_entity (sample_env false) WidgetView plain_request (Val (PStr "7"))
    (PDict [("colour", PStr "red")]) sample_db
  = (Ok (Resp HttpResponseForbidden), sample_db).
Proof.
  apply (proj1 (edit_entity_changes_named_fields (sample_env false) WidgetView
                  plain_request (fun _ => "Widget") "7" [("colour", PStr "red")]
                  {| qs_model := "Widget"; qs_rows := [widget7; widget8];
                     qs_through := None |} widget7 sample_db
                  eq_refl eq_refl eq_refl eq_refl eq_refl)).
  intros f Hf Hn. simpl in Hn. destruct Hn as [Hn|[]].
  simpl in Hf. destruct Hf as [<-|[<-|[<-|[<-|[]]]]]; discriminate.
Defined.

(** *** Links *)

Lemma getattr_link_rows env entity link db q db' :
  getattr_link env entity link db = (Ok q, db') ->
  exists e target,
    entity = Val (PEntity e) /\ qs_rows q = linked_rows db e link target.
Proof.
  unfold getattr_link. destruct entity as [[]|]; try discriminate.
  destruct (option_map f_kind (find_field env (e_model e) link)) as [[]|];
    try discriminate.
  unfold related_manager, bind, get_db, ret. intros H. inversion H; subst.
  exists e, to. split; reflexivity.
Qed.

(** X21: what [get_linked_entity] returns as an entity is stored and is
    linked to the resolved entity through the link: an entity of the linked
    model that is not linked is never returned, whatever the query
    parameters; and the store is not touched. *)
Theorem get_linked_entity_is_linked (env : Env) (self : RESTView)
    (request : Request) (x : obj) (link pk : string) (e le : Entity)
    (db db' : DB) :
  fst (get_entity env self request x db) = Ok (Val (PEntity e)) ->
  get_linked_entity env self request x link pk db = (Ok (Val (PEntity le)), db') ->
  db' = db /\ In le (rows db) /\ has_link db e link (e_pk le) = true.
Proof.
  intros Hent H.
  pose proof (readonly_get_linked_entity env self request x link pk db) as Hro.
  rewrite H in Hro. simpl in Hro. split; [exact Hro|]. subst db'.
  apply (readonly_run _ db _ (readonly_get_entity _ _ _ _)) in Hent.
  unfold get_linked_entity in H. rewrite (bind_ok _ _ _ _ _ Hent) in H.
  unfold bind at 1 in H.
  destruct (get_linked_queryset env request (Val (PEntity e)) link db)
    as [[base|ex] db1] eqn:B; [|discriminate].
  pose proof (readonly_get_linked_queryset env request (Val (PEntity e)) link db) as R1.
  rewrite B in R1. simpl in R1. subst db1.
  assert (Hbase : exists target, qs_rows base = linked_rows db e link target).
  { unfold get_linked_queryset in B. unfold bind at 1 in B.
    destruct (try_except _ _ _ db) as [[m2m|ex] db2] eqn:T; [|discriminate].
    match type of T with ?c db = _ =>
      assert (Hr : readonly c) by ro;
      pose proof (Hr db) as Hd; rewrite T in Hd; simpl in Hd end.
    subst db2. destruct (negb m2m); [discriminate|].
    apply getattr_link_rows in B as [e0 [target [He0 Hrows]]].
    inversion He0; subst e0. eauto. }
  destruct Hbase as [target Hbase].
  unfold bind at 1 in H.
  destruct (filter_queryset env request base db) as [[q|ex] db2] eqn:F;
    [|discriminate].
  pose proof (readonly_filter_queryset env request base db) as R2.
  rewrite F in R2. simpl in R2. subst db2.
  destruct (filter_queryset_selects _ _ _ _ _ _ F) as [_ [p Hp]].
  unfold bind at 1, try_except in H.
  destruct (qs_get_pk env q (Val (PStr pk)) db) as [[found|ex] db3] eqn:G.
  - assert (Hfound : In found (qs_rows q)).
    { apply (qs_get_pk_row env q (Val (PStr pk)) db). rewrite G. reflexivity. }
    destruct (can_get_linked_entity self request (Val (PEntity e)) link
                (Val (PEntity found))); unfold ret in H; inversion H; subst.
    rewrite Hp, Hbase in Hfound. apply filter_In in Hfound as [Hfound _].
    unfold linked_rows in Hfound. apply filter_In in Hfound as [Hin Hl].
    apply andb_true_iff in Hl as [_ Hl]. auto.
  - destruct (is_DoesNotExist ex || is_ValueError ex); [|discriminate].
    destruct (is_DoesNotExist ex); discriminate.
Qed.

Lemma get_linked_entity_is_linked_witness :
  sample_db = sample_db /\ In tag3 (rows sample_db) /\
  has_link sample_db widget7 "tags" (e_pk tag3) = true.
Proof.
  apply (get_linked_entity_is_linked (sample_env false) WidgetView
           plain_request (Val (PStr "7")) "tags" "3" widget7 tag3
           sample_db sample_db); reflexivity.
Defined.

Lemma singleton_by_key (l : list Entity) (a : Entity) :
  unique_keys l -> In a l ->
  List.filter (fun r => String.eqb (e_model r) (e_model a) && Z.eqb (e_pk r) (e_pk a)) l
  = [a].
Proof.
  unfold unique_keys. induction l as [|x l IH]; simpl; [contradiction|].
  intros Hu Hin. inversion Hu as [|? ? Hx Hl]; subst.
  destruct Hin as [->|Hin].
  - rewrite String.eqb_refl, Z.eqb_refl. simpl. f_equal.
    apply filter_nothing. intros y Hy.
    destruct (String.eqb (e_model y) (e_model a) && Z.eqb (e_pk y) (e_pk a)) eqn:E;
      [|reflexivity].
    exfalso. apply Hx. apply andb_true_iff in E as [E1 E2].
    apply String.eqb_eq in E1. apply Z.eqb_eq in E2.
    apply in_map_iff. exists y. split; [|exact Hy].
    unfold key. rewrite E1, E2. reflexivity.
  - destruct (String.eqb (e_model x) (e_model a) && Z.eqb (e_pk x) (e_pk a)) eqn:E.
    + exfalso. apply Hx. apply andb_true_iff in E as [E1 E2].
      apply String.eqb_eq in E1. apply Z.eqb_eq in E2.
      apply in_map_iff. exists a. split; [|exact Hin].
      unfold key. rewrite E1, E2. reflexivity.
    + apply IH; assumption.
Qed.

Lemma filter_ext_in_bool {A} (p q : A -> bool) (l : list A) :
  (forall x, In x l -> p x = q x) -> List.filter p l = List.filter q l.
Proof.
  induction l as [|x l IH]; simpl; intros H; [reflexivity|].
  rewrite (H x (or_introl eq_refl)).
  rewrite IH; [reflexivity|]. intros y Hy. apply H. right. exact Hy.
Qed.

(** X22: linking and unlinking undo each other: when POST links a stored
    entity that was not linked and DELETE then names it, both complete, and
    the rows and the link rows of the store are as they were before. *)
Theorem link_then_unlink (env : Env) (self : RESTView) (request : Request)
    (gm : Request -> string) (a0 link a2 : string) (f : Field)
    (target : string) (d : list (string * pyval)) (e le : Entity) (db : DB) :
  GET request = [] ->
  get_model_impl self = Some gm ->
  unique_keys (rows db) ->
  parse_int a0 = Some (e_pk e) ->
  rows_with_pk db (gm request) (e_pk e) = [e] ->
  find_field env (gm request) link = Some f ->
  f_kind f = ManyToManyField target ->
  fst (get_object_or_404 env target d db) = Ok le ->
  parse_int a2 = Some (e_pk le) ->
  has_link db e link (e_pk le) = false ->
  can_get_entity self request (Val (PEntity e)) = true ->
  can_create_linked_entity self request (Val (PEntity e)) link (Val (PEntity le)) = true ->
  can_get_linked_entity self request (Val (PEntity e)) link (Val (PEntity le)) = true ->
  can_delete_linked_entity self request (Val (PEntity e)) link (Val (PEntity le)) = true ->
  exists db1 db2,
    create_linked_entity env self request (Val (PStr a0)) link (PDict d) db
      = (Ok (Val PNone), db1) /\
    has_link db1 e link (e_pk le) = true /\
    delete_linked_entity env self request (Val (PStr a0)) link a2 db1
      = (Ok (Val PNone), db2) /\
    rows db2 = rows db /\ links db2 = links db.
Proof.
  intros HG Hgm Hu Hk Hrows Hf Hkind Hle Hk2 Hno Hcan Hcc Hcgl Hcdl.
  assert (Hm : e_model e = gm request /\ In e (rows db)).
  { assert (Hin : In e (rows_with_pk db (gm request) (e_pk e)))
      by (rewrite Hrows; left; reflexivity).
    split; [apply (rows_with_pk_model db (gm request) (e_pk e) e Hin)|].
    unfold rows_with_pk in Hin. rewrite !filter_In in Hin. tauto. }
  destruct Hm as [Hm Hin].
  assert (Hf' : find_field env (e_model e) link = Some f) by (rewrite Hm; exact Hf).
  destruct (get_object_or_404_stored env target d db le Hle) as [Hlin Hlm].
  apply (readonly_run _ db _ (readonly_get_object_or_404 _ _ _)) in Hle.
  set (l := link_of e link (e_pk le)).
  set (db1 := {| rows := rows db; links := links db ++ [l];
                 oplog := (oplog db ++ [OpLinkAdd l]) ++ [OpUpdate e] |}).
  assert (Hent : forall dbx, rows dbx = rows db ->
            get_entity env self request (Val (PStr a0)) dbx
              = (Ok (Val (PEntity e)), dbx)).
  { intros dbx Hd.
    rewrite (get_entity_plain env self request gm a0 (e_pk e) e dbx HG Hgm Hk).
    - rewrite Hcan. reflexivity.
    - unfold rows_with_pk in *. rewrite Hd. exact Hrows. }
  assert (Hcreate : create_linked_entity env self request (Val (PStr a0)) link
                      (PDict d) db = (Ok (Val PNone), db1)).
  { unfold create_linked_entity.
    rewrite (bind_ok _ _ _ _ _ (Hent db eq_refl)).
    rewrite (bind_ok _ _ db db
               (target, {| qs_model := target;
                           qs_rows := linked_rows db e link target;
                           qs_through := Some (e, link) |})).
    - rewrite (bind_ok _ _ _ _ _ Hle). rewrite Hcc.
      change (negb true) with false. cbv iota.
      destruct (save_known_row (rows db) e Hu Hin) as [Hex Hmap].
      unfold qs_add, save, bind, get_db, put_db, ret, log_op. simpl.
      rewrite Hno. simpl. rewrite Hex, Hmap. reflexivity.
    - apply try_except_ok.
      rewrite (bind_ok _ _ _ _ _ (get_linked_model_run env self request gm link f target db Hgm Hf Hkind)).
      rewrite (bind_ok _ _ _ _ _ (get_linked_queryset_run env request e link f target db Hf' Hkind)).
      reflexivity. }
  assert (Hhas : has_link db1 e link (e_pk le) = true).
  { unfold has_link, db1. simpl. rewrite existsb_app. simpl.
    fold l. rewrite link_eqb_refl, orb_true_r. reflexivity. }
  assert (Hlinked : List.filter (pk_equals (e_pk le)) (linked_rows db1 e link target)
                    = [le]).
  { unfold linked_rows. rewrite filter_twice. simpl rows.
    rewrite <- (singleton_by_key (rows db) le Hu Hlin).
    apply filter_ext_in_bool. intros y Hy. unfold pk_equals. rewrite Hlm.
    destruct (String.eqb (e_model y) target); simpl; [|reflexivity].
    destruct (Z.eqb (e_pk y) (e_pk le)) eqn:E; [|apply andb_false_r].
    apply Z.eqb_eq in E. rewrite E, Hhas. reflexivity. }
  exists db1, (without_link db1 e link le).
  split; [exact Hcreate|]. split; [exact Hhas|]. split; [|split].
  - unfold delete_linked_entity.
    rewrite (bind_ok _ _ _ _ _ (Hent db1 eq_refl)).
    rewrite (bind_ok _ _ db1 db1 (Val (PEntity le))).
    + rewrite Hcdl. change (negb true) with false. cbv iota.
      rewrite (bind_ok _ _ _ _ _ (get_linked_queryset_run env request e link f target db1 Hf' Hkind)).
      reflexivity.
    + rewrite (get_linked_entity_run env self request gm e link f target a2 (e_pk le) db1
                 HG Hgm Hm Hcan Hf' Hkind Hk2).
      rewrite Hlinked, Hcgl. reflexivity.
  - reflexivity.
  - unfold without_link, db1. simpl. fold l. rewrite List.filter_app. simpl.
    rewrite link_eqb_refl. simpl. rewrite app_nil_r.
    rewrite <- (filter_all (links db)) at 2.
    apply filter_ext_in_bool. intros y Hy.
    destruct (link_eqb l y) eqn:E; [|reflexivity].
    exfalso. unfold has_link in Hno. fold l in Hno.
    assert (Hex : existsb (link_eqb l) (links db) = true)
      by (apply existsb_exists; eauto).
    rewrite Hex in Hno. discriminate.
Qed.

Lemma link_then_unlink_witness :
  exists db1 db2,
    create_linked_entity (sample_env false) WidgetView plain_request
      (Val (PStr "7")) "tags" (PDict [("label", PStr "blue")]) sample_db
      = (Ok (Val PNone), db1) /\
    has_link db1 widget7 "tags" (e_pk tag4) = true /\
    delete_linked_entity (sample_env false) WidgetView plain_request
      (Val (PStr "7")) "tags" "4" db1 = (Ok (Val PNone), db2) /\
    rows db2 = rows sample_db /\ links db2 = links sample_db.
Proof.
  apply (link_then_unlink (sample_env false) WidgetView plain_request
           (fun _ => "Widget") "7" "tags" "4"
           (field "tags" (ManyToManyField "Tag")) "Tag"
           [("label", PStr "blue")] widget7 tag4 sample_db);
    try reflexivity.
  apply sample_db_unique_keys.
Defined.

End DispatcherFacts.

(** ** Part VII: more on the registry *)

Section RegistryExtras.
Import RESTAPI RegistryVocabulary.

Lemma Model_induction (P : Model -> Prop) :
  (forall i n bs, Forall P bs -> P (Class i n bs)) -> forall M, P M.
Proof.
  intros H. fix IH 1. intros [i n bs]. apply H.
  induction bs as [|B bs IHbs]; constructor; [apply IH|exact IHbs].
Qed.

Lemma get_name_by_model_unfold (reg : Registry) (M : Model) :
  get_name_by_model reg M =
  match name_by_model reg !! cls_id M with
  | Some v => v
  | None => first_base (get_name_by_model reg) (bases M)
  end.
Proof.
  destruct M as [i n bs]; simpl.
  destruct (name_by_model reg !! i); [reflexivity|].
  induction bs as [|B bs IH]; simpl; [reflexivity|].
  destruct (get_name_by_model reg B); [reflexivity|exact IH].
Qed.

Lemma ancestry_unfold (M : Model) :
  ancestry M = cls_id M :: concat (map ancestry (bases M)).
Proof.
  destruct M as [i n bs]; simpl. f_equal.
  induction bs as [|B bs IH]; simpl; [reflexivity|]. rewrite IH. reflexivity.
Qed.

Lemma first_base_ext {A} (f g : Model -> option A) (bs : list Model) :
  Forall (fun B => f B = g B) bs -> first_base f bs = first_base g bs.
Proof.
  induction 1 as [|B bs HB _ IH]; simpl; [reflexivity|].
  rewrite HB, IH. reflexivity.
Qed.

(** X1: what [register] stores is what both lookups return for that model,
    whatever was registered before and whatever its bases are: a second
    registration of the model overwrites the first. *)
Theorem register_then_lookup (reg : Registry) (M : Model) (V : View)
    (name : option string) :
  get_view_by_model (register reg M V name) M = Some V /\
  get_name_by_model (register reg M V name) M =
    Some (match name with
          | Some n => n
          | None => remove_spaces (lower (verbose_name_plural M))
          end) /\
  (forall V' name',
     get_view_by_model (register (register reg M V' name') M V name) M = Some V).
Proof.
  split; [|split].
  - rewrite get_view_by_model_unfold. simpl. rewrite lookup_insert_eq. reflexivity.
  - rewrite get_name_by_model_unfold. simpl. rewrite lookup_insert_eq.
    destruct name; reflexivity.
  - intros V' name'. rewrite get_view_by_model_unfold. simpl.
    rewrite lookup_insert_eq. reflexivity.
Qed.

Lemma lower_ascii_not_upper (c : ascii) :
  (Nat.leb 65 (nat_of_ascii (lower_ascii c))
   && Nat.leb (nat_of_ascii (lower_ascii c)) 90)%bool = false.
Proof.
  destruct c as [[] [] [] [] [] [] [] []]; vm_compute; reflexivity.
Qed.

Lemma default_name_url_safe (s : string) :
  string_forall url_safe (remove_spaces (lower s)) = true.
Proof.
  induction s as [|c s IH]; simpl; [reflexivity|].
  destruct (Ascii.eqb (lower_ascii c) " ") eqn:E; [exact IH|].
  simpl. rewrite IH. unfold url_safe. rewrite E, lower_ascii_not_upper.
  reflexivity.
Qed.

(** X2: the name [register] derives from a model's plural display name, and
    with it the URL prefix and the namespace of the routes, holds no space
    and no upper-case ASCII letter. *)
Theorem register_default_name_url_safe (reg : Registry) (M : Model) (V : View) :
  exists n,
    get_name_by_model (register reg M V None) M = Some n /\
    string_forall url_safe n = true /\
    List.last (urls (register reg M V None))
      {| url_regex := ""; url_include := ""; url_namespace := "" |}
    = {| url_regex := String.append "^" n; url_include := V;
         url_namespace := String.append "api_" n |}.
Proof.
  exists (remove_spaces (lower (verbose_name_plural M))). split; [|split].
  - rewrite get_name_by_model_unfold. simpl. rewrite lookup_insert_eq. reflexivity.
  - apply default_name_url_safe.
  - simpl. apply List.last_last.
Qed.

(** X3: registering a class leaves the resolution of every model alone that
    neither is that class nor inherits from it. *)
Theorem register_other_keeps_resolution (reg : Registry) (M' : Model)
    (V : View) (name : option string) (M : Model) :
  ~ In (cls_id M') (ancestry M) ->
  get_view_by_model (register reg M' V name) M = get_view_by_model reg M /\
  get_name_by_model (register reg M' V name) M = get_name_by_model reg M.
Proof.
  induction M as [i n bs IH] using Model_induction. intros Hnot.
  rewrite ancestry_unfold in Hnot. simpl in Hnot.
  assert (Hi : cls_id M' <> i) by (intros E; apply Hnot; left; symmetry; exact E).
  assert (Hbs : Forall (fun B => ~ In (cls_id M') (ancestry B)) bs).
  { apply List.Forall_forall. intros B HB Hin. apply Hnot. right.
    apply in_concat. exists (ancestry B). split; [|exact Hin].
    apply in_map. exact HB. }
  assert (Hboth : Forall (fun B =>
             get_view_by_model (register reg M' V name) B = get_view_by_model reg B /\
             get_name_by_model (register reg M' V name) B = get_name_by_model reg B) bs).
  { rewrite List.Forall_forall in *. intros B HB. apply (IH B HB). apply (Hbs B HB). }
  split.
  - rewrite !get_view_by_model_unfold. simpl.
    rewrite lookup_insert_ne by exact Hi.
    destruct (view_by_model reg !! i); [reflexivity|].
    apply first_base_ext. rewrite List.Forall_forall in *.
    intros B HB. apply (Hboth B HB).
  - rewrite !get_name_by_model_unfold. simpl.
    rewrite lookup_insert_ne by exact Hi.
    destruct (name_by_model reg !! i); [reflexivity|].
    apply first_base_ext. rewrite List.Forall_forall in *.
    intros B HB. apply (Hboth B HB).
Qed.

Lemma register_other_keeps_resolution_witness :
  get_view_by_model (register sample_registry cls_B "Other" None) cls_A
    = get_view_by_model sample_registry cls_A /\
  get_name_by_model (register sample_registry cls_B "Other" None) cls_A
    = get_name_by_model sample_registry cls_A.
Proof.
  apply (register_other_keeps_resolution sample_registry cls_B "Other" None cls_A).
  vm_compute. intuition discriminate.
Defined.

Lemma built_entries (reg : Registry) :
  built reg ->
  forall i,
    (view_by_model reg !! i = None /\ name_by_model reg !! i = None) \/
    (exists V n, view_by_model reg !! i = Some (Some V)
                 /\ name_by_model reg !! i = Some (Some n)).
Proof.
  induction 1 as [|reg M V name _ IH]; intros i.
  - left. split; apply lookup_empty.
  - simpl. destruct (decide (cls_id M = i)) as [->|Hne].
    + right. rewrite !lookup_insert_eq. eauto.
    + rewrite !lookup_insert_ne by exact Hne. apply IH.
Qed.

(** X4: in a registry made by calls of [register], a model resolves to a
    view exactly when it resolves to a name: the two lookups walk the bases
    alike and never disagree on whether a model is served. *)
Theorem built_view_iff_name (reg : Registry) (M : Model) :
  built reg ->
  (get_view_by_model reg M = None <-> get_name_by_model reg M = None).
Proof.
  intros Hb. induction M as [i n bs IH] using Model_induction.
  rewrite get_view_by_model_unfold, get_name_by_model_unfold. simpl.
  destruct (built_entries reg Hb i) as [[Hv Hn]|[V [m [Hv Hn]]]];
    rewrite Hv, Hn; [|split; discriminate].
  clear Hv Hn. induction IH as [|B bs HB _ IHbs]; simpl; [tauto|].
  destruct (get_view_by_model reg B) as [v|] eqn:Ev,
           (get_name_by_model reg B) as [m|] eqn:En.
  - split; discriminate.
  - exfalso. destruct HB as [_ HB]. specialize (HB eq_refl). discriminate.
  - exfalso. destruct HB as [HB _]. specialize (HB eq_refl). discriminate.
  - exact IHbs.
Qed.

Lemma built_view_iff_name_witness :
  get_view_by_model sample_registry cls_M = None <->
  get_name_by_model sample_registry cls_M = None.
Proof.
  apply (built_view_iff_name sample_registry cls_M).
  unfold sample_registry. repeat constructor.
Defined.

(** X5: [register] only ever appends to [urls]: registering a model again
    overwrites its view in the dictionary, but the entry that routes to the
    earlier view stays in the list, ahead of the new one. *)
Theorem register_again_keeps_old_route (reg : Registry) (M : Model)
    (V1 V2 : View) (n1 n2 : string) :
  let reg' := register (register reg M V1 (Some n1)) M V2 (Some n2) in
  get_view_by_model reg' M = Some V2 /\
  urls reg' =
    urls reg ++
    [ {| url_regex := String.append "^" n1; url_include := V1;
         url_namespace := String.append "api_" n1 |};
      {| url_regex := String.append "^" n2; url_include := V2;
         url_namespace := String.append "api_" n2 |} ] /\
  (forall entry, In entry (urls reg) -> In entry (urls reg')).
Proof.
  intros reg'. split; [|split].
  - unfold reg'. rewrite get_view_by_model_unfold. simpl.
    rewrite lookup_insert_eq. reflexivity.
  - unfold reg'. simpl. rewrite <- app_assoc. reflexivity.
  - intros entry Hin. unfold reg'. simpl. rewrite !in_app_iff. auto.
Qed.

End RegistryExtras.
